(** * MEV-protected trader: a shallow embedding of [mev_protected_trader.py]

    The trading engine of the repository is the class [MEVProtectedBuyer].
    Its methods talk to an Ethereum node through web3, compute with Python
    integers and Python floats (IEEE 754 binary64), and turn every failure
    into a returned value through [try]/[except Exception] blocks.

    The embedding keeps these three ingredients apart:
    - [Binary64]: Python's float arithmetic, every operation being the exact
      result rounded to the nearest double, ties to even;
    - [Py]: exceptions and results, and a state-and-exception monad whose
      state is the node together with the log of every interaction;
    - [Trader]: the methods of the class, statement by statement. *)

From Stdlib Require Import ZArith List String Ascii Bool Lia Sorting.Permutation
  Sorting.Sorted.
Import ListNotations.
Local Open Scope Z_scope.

(** ** Exceptions and results *)

(** The exception classes that the engine can meet.  All of them derive from
    [Exception], so every [except Exception] handler catches each of them.
    [ClientError] stands for whatever web3, the node or the file system
    raises; its argument is the text of the exception. *)
Inductive exn : Type :=
| ValueError (msg : string)
| ZeroDivisionError (msg : string)
| OverflowError (msg : string)
| AttributeError (msg : string)
| KeyError (key : string)
| IndexError (msg : string)
| PlainException (msg : string)
| ClientError (msg : string).

(** [str(e)] *)
Definition str_exn (e : exn) : string :=
  match e with
  | ValueError m | ZeroDivisionError m | OverflowError m
  | AttributeError m | IndexError m | PlainException m | ClientError m => m
  | KeyError k => "'" ++ k ++ "'"
  end.

Inductive result (A : Type) : Type :=
| Ok (a : A)
| Raise (e : exn).
Arguments Ok {A} a.
Arguments Raise {A} e.

Definition rbind {A B} (r : result A) (k : A -> result B) : result B :=
  match r with
  | Ok a => k a
  | Raise e => Raise e
  end.

(** ** Python floats *)

Module Binary64.

(** Every finite double is an integer multiple of [2^-1074], the smallest
    positive subnormal.  A finite double of value [v] is represented by
    the integer [v * 2^1074] (its number of quanta), so that the order and
    the equality of doubles are those of [Z].  The two zeros are
    identified: the engine never looks at the sign of a zero. *)
Inductive float : Type :=
| Finite (n : Z)
| PosInf
| NegInf
| NaN.

(** quanta of [1.0] *)
Definition one_q : Z := 2 ^ 1074.
(** quanta of [2^1024], the first magnitude that is no longer finite *)
Definition huge_q : Z := 2 ^ 2098.

(** The integer nearest to [a/b] for [0 < b], ties going to the even one. *)
Definition rne (a b : Z) : Z :=
  let q := a / b in
  let r := a mod b in
  if 2 * r <? b then q
  else if b <? 2 * r then q + 1
  else if Z.even q then q else q + 1.

(** Exponent of the spacing of the doubles around [t] quanta: doubles below
    [2^53] quanta are spaced by one quantum (subnormals and the first
    normal binade), then the spacing doubles with every binade. *)
Definition spacing_exp (t : Z) : Z := Z.max 0 (Z.log2 t - 52).

(** [a/b] quanta, [0 <= a], [0 < b], rounded to a multiple of the spacing *)
Definition round_pos (a b : Z) : Z :=
  let k := spacing_exp (a / b) in
  rne a (b * 2 ^ k) * 2 ^ k.

Definition round_quanta (a b : Z) : Z :=
  if a <? 0 then - round_pos (- a) b else round_pos a b.

Definition pack (n : Z) : float :=
  if huge_q <=? n then PosInf
  else if n <=? - huge_q then NegInf
  else Finite n.

(** Round to nearest even of the rational [a/b] quanta ([0 < b]). *)
Definition RN (a b : Z) : float := pack (round_quanta a b).

(** [float(n)] for a Python int, and the implicit conversion of an int
    operand in mixed arithmetic: correctly rounded, [OverflowError] when
    the rounded value is not finite. *)
Definition of_int (n : Z) : result float :=
  match RN (n * one_q) 1 with
  | Finite q => Ok (Finite q)
  | _ => Raise (OverflowError "int too large to convert to float")
  end.

(** A decimal literal [num/den] of the source text, e.g. [1.2] is
    [literal 12 10]. *)
Definition literal (num den : Z) : float := RN (num * one_q) den.

Definition opp (x : float) : float :=
  match x with
  | Finite n => Finite (- n)
  | PosInf => NegInf
  | NegInf => PosInf
  | NaN => NaN
  end.

Definition abs (x : float) : float :=
  match x with
  | Finite n => Finite (Z.abs n)
  | PosInf | NegInf => PosInf
  | NaN => NaN
  end.

Definition add (x y : float) : float :=
  match x, y with
  | NaN, _ | _, NaN => NaN
  | PosInf, NegInf | NegInf, PosInf => NaN
  | PosInf, _ | _, PosInf => PosInf
  | NegInf, _ | _, NegInf => NegInf
  | Finite a, Finite b => RN (a + b) 1
  end.

Definition sub (x y : float) : float := add x (opp y).

Definition inf_of_sign (s : Z) : float :=
  if s =? 0 then NaN else if 0 <? s then PosInf else NegInf.

Definition sgn (x : float) : Z :=
  match x with
  | Finite n => Z.sgn n
  | PosInf => 1
  | NegInf => -1
  | NaN => 0
  end.

Definition mul (x y : float) : float :=
  match x, y with
  | NaN, _ | _, NaN => NaN
  | Finite a, Finite b => RN (a * b) one_q
  | _, _ => inf_of_sign (sgn x * sgn y)
  end.

(** [x / y] on floats: Python raises on a zero divisor before IEEE
    division is consulted. *)
Definition div (x y : float) : result float :=
  match y with
  | Finite 0 => Raise (ZeroDivisionError "float division by zero")
  | NaN => Ok NaN
  | Finite b =>
      match x with
      | NaN => Ok NaN
      | Finite a =>
          Ok (if 0 <? b then RN (a * one_q) b else RN (- a * one_q) (- b))
      | _ => Ok (inf_of_sign (sgn x * Z.sgn b))
      end
  | _ =>
      match x with
      | Finite _ => Ok (Finite 0)
      | _ => Ok NaN
      end
  end.

(** [a / b] on two Python ints (true division): the exact quotient,
    correctly rounded. *)
Definition int_truediv (a b : Z) : result float :=
  if b =? 0 then Raise (ZeroDivisionError "division by zero")
  else
    match (if 0 <? b then RN (a * one_q) b else RN (- a * one_q) (- b)) with
    | Finite q => Ok (Finite q)
    | _ => Raise (OverflowError "integer division result too large for a float")
    end.

(** [int(x)]: truncation toward zero. *)
Definition to_int (x : float) : result Z :=
  match x with
  | Finite n => Ok (Z.quot n one_q)
  | PosInf | NegInf =>
      Raise (OverflowError "cannot convert float infinity to integer")
  | NaN => Raise (ValueError "cannot convert float NaN to integer")
  end.

(** Comparisons; every comparison with a NaN is false. *)
Definition ltb (x y : float) : bool :=
  match x, y with
  | NaN, _ | _, NaN => false
  | Finite a, Finite b => a <? b
  | NegInf, NegInf => false
  | NegInf, _ => true
  | _, PosInf => match x with PosInf => false | _ => true end
  | _, _ => false
  end.

Definition leb (x y : float) : bool :=
  match x, y with
  | NaN, _ | _, NaN => false
  | Finite a, Finite b => a <=? b
  | NegInf, _ => true
  | _, PosInf => true
  | _, _ => false
  end.

Definition zero : float := Finite 0.
Definition one : float := Finite one_q.

(** [n * x] and [x * n] with [n] an int and [x] a float *)
Definition int_mul (n : Z) (x : float) : result float :=
  rbind (of_int n) (fun fn => Ok (mul fn x)).

(** [int(n * x)], the shape of every fee buffer of the engine *)
Definition scale_int (n : Z) (x : float) : result Z :=
  rbind (int_mul n x) to_int.

(** The constants are large: proofs keep them folded. *)
Arguments one_q : simpl never.
Arguments huge_q : simpl never.
Arguments RN : simpl never.
Arguments literal : simpl never.
Arguments of_int : simpl never.
Arguments scale_int : simpl never.

End Binary64.

(** ** The node, the client library and the monad of the engine *)

Module Py.

Import Binary64.

Definition address := string.
Definition HexBytes := list Byte.byte.

Definition hex_digit (n : N) : ascii :=
  nth (N.to_nat n)
    ["0"; "1"; "2"; "3"; "4"; "5"; "6"; "7"; "8"; "9"; "a"; "b"; "c"; "d"; "e"; "f"]%char
    "0"%char.

Definition hex_of_byte (b : Byte.byte) : string :=
  let n := Byte.to_N b in
  String (hex_digit (n / 16)) (String (hex_digit (n mod 16)) EmptyString).

(** [HexBytes.hex()] *)
Definition hex (h : HexBytes) : string :=
  String.append "0x" (String.concat "" (map hex_of_byte h)).

(** A Python number that is an int or a float. *)
Inductive number : Type :=
| Int (z : Z)
| Float (f : float).

(** A block as [get_block] returns it; a key the node leaves out is
    [None] here and a [KeyError] when the engine subscripts it. *)
Record block : Type := {
  baseFeePerGas : option Z;
  transactions : option (list HexBytes);
  timestamp : option Z
}.

(** A pooled transaction; legacy transactions carry no [maxFeePerGas]. *)
Record tx_data : Type := { maxFeePerGas : option Z }.

Record receipt : Type := {
  status : Z;
  gasUsed : Z;
  effectiveGasPrice : Z
}.

(** The contract functions for which the engine builds transactions. *)
Inductive contract_call : Type :=
| approve (spender : address) (amount : Z)
| swapExactETHForTokens
    (amountOutMin : Z) (path : list address) (to : address) (deadline : Z)
| swapExactTokensForETH
    (amountIn : Z) (amountOutMin : number) (path : list address)
    (to : address) (deadline : Z).

(** The dictionary handed to [build_transaction]. *)
Record tx_params : Type := {
  p_from : address;
  p_value : option Z;
  p_nonce : Z;
  p_gas : option Z;
  p_maxFeePerGas : Z;
  p_maxPriorityFeePerGas : Z;
  p_type : option Z
}.

(** The dictionary that [build_transaction] returns: web3 completes the
    parameters (target, call data, chain id, a gas estimate when none was
    given), possibly asking the node. *)
Record txn : Type := {
  t_to : address;
  t_call : contract_call;
  t_params : tx_params;
  t_gas : option Z
}.

(** [unsigned_txn['gas'] = gas_limit] *)
Definition set_gas (t : txn) (g : Z) : txn :=
  {| t_to := t_to t; t_call := t_call t; t_params := t_params t; t_gas := Some g |}.

Record signed_txn : Type := { rawTransaction : list Byte.byte }.

Inductive block_id : Type := latest | pending.

(** Every interaction of the engine with the outside: JSON-RPC requests,
    read-only contract calls, and the three local services that can fail
    on their own (reading an ABI file, completing a transaction
    dictionary, signing).  The index is the type of the answer. *)
Inductive rpc : Type -> Type :=
| get_block (b : block_id) : rpc block
| get_transaction (h : HexBytes) : rpc tx_data
| gas_price : rpc Z
| max_priority_fee : rpc Z
| get_balance (a : address) : rpc Z
| get_transaction_count (a : address) : rpc Z
| estimate_gas (t : txn) : rpc Z
| send_raw_transaction (raw : list Byte.byte) : rpc HexBytes
| wait_for_transaction_receipt (h : HexBytes) : rpc receipt
| call_symbol (token : address) : rpc string
| call_decimals (token : address) : rpc N
| call_totalSupply (token : address) : rpc Z
| call_balanceOf (token owner : address) : rpc Z
| call_allowance (token owner spender : address) : rpc Z
| call_getAmountsOut (router : address) (amountIn : Z) (path : list address)
  : rpc (list Z)
| build_transaction (target : address) (c : contract_call) (p : tx_params)
  : rpc txn
| sign_transaction (t : txn) (key : string) : rpc signed_txn
| load_abi_file (filename : string) : rpc unit
| time_time : rpc float.

(** What the engine did, in order. *)
Inductive event : Type :=
| Called {T : Type} (request : rpc T) (answer : result T)
| Slept (seconds : Z).

(** A client: the node with whatever state it has, and the pure functions
    of the libraries and of the language that the engine calls.  [node]
    answers a request or raises, and moves to its next state; [elapse] is
    the passing of time during [time.sleep].  [strip] is [str.strip], which
    removes the white space of Unicode at both ends of a string: like the
    checksum, it is taken as it is rather than written out over the
    characters of this file's strings. *)
Record client : Type := {
  world : Type;
  node : forall T : Type, rpc T -> world -> result T * world;
  elapse : Z -> world -> world;
  (** [Web3.to_checksum_address] *)
  to_checksum_address : string -> result address;
  (** [str.strip()] *)
  strip : string -> string;
  (** [Web3.to_wei(x, 'ether')] for a float [x] *)
  to_wei_ether : float -> result Z;
  (** [f"{x:.Nf}"] *)
  format_fixed : nat -> float -> string
}.

Section Monad.

Context {C : client}.

Record state : Type := {
  chain : world C;
  log : list event
}.

Definition M (A : Type) : Type := state -> result A * state.

Definition ret {A} (a : A) : M A := fun s => (Ok a, s).

Definition bind {A B} (m : M A) (k : A -> M B) : M B :=
  fun s =>
    match m s with
    | (Ok a, s') => k a s'
    | (Raise e, s') => (Raise e, s')
    end.

Definition raise {A} (e : exn) : M A := fun s => (Raise e, s).

(** A pure computation that may raise. *)
Definition lift {A} (r : result A) : M A := fun s => (r, s).

(** [try: body  except Exception as e: handler e].  What the body did
    before raising stays done. *)
Definition try_except {A} (body : M A) (handler : exn -> M A) : M A :=
  fun s =>
    match body s with
    | (Ok a, s') => (Ok a, s')
    | (Raise e, s') => handler e s'
    end.

Definition call {T} (r : rpc T) : M T :=
  fun s =>
    let (answer, w) := node C T r (chain s) in
    (answer, {| chain := w; log := log s ++ [Called r answer] |}).

(** [time.sleep(seconds)] *)
Definition sleep (seconds : Z) : M unit :=
  fun s =>
    (Ok tt, {| chain := elapse C seconds (chain s);
               log := log s ++ [Slept seconds] |}).

End Monad.

Arguments state C : clear implicits.
Arguments M C A : clear implicits.

Declare Scope py_scope.
Delimit Scope py_scope with py.
Notation "x <- m ;; k" := (bind m (fun x => k))
  (at level 61, m at next level, right associativity) : py_scope.
Notation "' pat <- m ;; k" := (bind m (fun x => match x with pat => k end))
  (at level 61, pat pattern, m at next level, right associativity) : py_scope.
Notation "m ;; k" := (bind m (fun _ => k))
  (at level 61, right associativity) : py_scope.

(** [seq[i]] on a list *)
Definition subscript {A} (l : list A) (i : nat) : result A :=
  match nth_error l i with
  | Some a => Ok a
  | None => Raise (IndexError "list index out of range")
  end.

(** [d[key]] on a dictionary entry that may be absent *)
Definition item {A} (key : string) (o : option A) : result A :=
  match o with
  | Some a => Ok a
  | None => Raise (KeyError key)
  end.

(** [sorted(l)] on ints *)
Fixpoint insert_sorted (x : Z) (l : list Z) : list Z :=
  match l with
  | [] => [x]
  | y :: l' => if x <=? y then x :: l else y :: insert_sorted x l'
  end.

Definition sorted (l : list Z) : list Z := fold_right insert_sorted [] l.

(** Units of [Web3.to_wei] on integer literals. *)
Definition gwei (n : Z) : Z := n * 10 ^ 9.
Definition ether (n : Z) : Z := n * 10 ^ 18.

(** [Web3.from_wei(n, 'ether')] is the exact decimal [n / 10^18]; the
    library refuses amounts outside [0, 2^256 - 1].  The decimal is kept
    as its number of wei. *)
Definition from_wei_ether (n : Z) : result Z :=
  if (n <? 0) || (2 ^ 256 - 1 <? n)
  then Raise (ValueError "value must be between 1 and 2**256 - 1")
  else Ok n.

(** [float(d)] for the decimal [d = n / 10^18]: correctly rounded. *)
Definition float_of_ether_decimal (n : Z) : float := RN (n * one_q) (10 ^ 18).

End Py.

(** ** The class [MEVProtectedBuyer] *)

Module Trader.

Import Binary64 Py.
Local Open Scope py_scope.
Local Open Scope string_scope.
Local Open Scope Z_scope.

Definition UNISWAP_V2_ROUTER : address :=
  "0x7a250d5630B4cF539739dF2C5dAcb4c659F2488D".
(** The default of the environment variable [WETH_ADDRESS]. *)
Definition WETH_ADDRESS : address :=
  "0xC02aaA39b223FE8D0A0e5C4F27eAD9083C756Cc2".

(** The instance attributes.  [__init__] assigns all of them but
    [router_address], which no statement of the class assigns: reading it
    on an instance that [__init__] built raises [AttributeError].  The
    field is [Some] only on an instance to which a caller has added the
    attribute. *)
Record buyer : Type := {
  private_key : string;
  node_url : string;
  wallet_address : address;
  default_slippage : float;
  gas_multiplier : float;
  router : address;
  min_eth_balance : Z;
  max_gas_price : Z;
  router_address : option address
}.

(** The values that [__init__] reads from the environment, parsed. *)
Record environ : Type := {
  ETHEREUM_PRIVATE_KEY : string;
  ETHEREUM_NODE_URL : string;
  WALLET_ADDRESS : address;
  DEFAULT_SLIPPAGE : float;
  GAS_MULTIPLIER : float
}.

(** [MEVProtectedBuyer.__init__] *)
Definition init (env : environ) : buyer :=
  {| private_key := ETHEREUM_PRIVATE_KEY env;
     node_url := ETHEREUM_NODE_URL env;
     wallet_address := WALLET_ADDRESS env;
     default_slippage := DEFAULT_SLIPPAGE env;
     gas_multiplier := GAS_MULTIPLIER env;
     router := UNISWAP_V2_ROUTER;
     min_eth_balance := ether 1 / 100;
     max_gas_price := gwei 300;
     router_address := None |}.

(** [self.router_address] *)
Definition get_router_address (self : buyer) : result address :=
  match router_address self with
  | Some a => Ok a
  | None =>
      Raise (AttributeError
               "'MEVProtectedBuyer' object has no attribute 'router_address'")
  end.

(** The result dictionary of [sell_tokens]. *)
Inductive sell_result : Type :=
| SellDone (transaction_hash : string) (token_amount : float)
    (token_symbol : string) (eth_received_wei : Z)
    (gas_used : Z) (effective_gas_price : Z)
| SellFailed (error : string).

(** [result['success']] *)
Definition success (r : sell_result) : bool :=
  match r with
  | SellDone _ _ _ _ _ _ => true
  | SellFailed _ => false
  end.

(** [result.get('error')] *)
Definition error_of (r : sell_result) : option string :=
  match r with
  | SellDone _ _ _ _ _ _ => None
  | SellFailed e => Some e
  end.

(** *** The arithmetic of the engine, apart from its effects *)

(** [calculate_max_spend], lines 72-74 *)
Definition spend_cap (balance gas_price reserve : Z) : result Z :=
  let estimated_gas_cost := gas_price * 350000 in
  rbind (of_int balance) (fun fb =>
  rbind (of_int estimated_gas_cost) (fun fc =>
  rbind (of_int reserve) (fun fr =>
  rbind (to_int (sub (sub fb fc) fr)) (fun max_spend =>
  Ok (Z.max 0 max_spend))))).

(** [1 - slippage/100] *)
Definition keep_fraction (slippage : float) : result float :=
  rbind (div slippage (Finite (100 * one_q))) (fun d => Ok (sub one d)).

(** [float(quoted) * (1 - float(slippage)/100)] *)
Definition discounted (quoted : Z) (slippage : float) : result float :=
  rbind (of_int quoted) (fun fq =>
  rbind (keep_fraction slippage) (fun keep =>
  Ok (mul fq keep))).

(** [int(float(quoted) * (1 - float(slippage)/100))], line 232, and
    [int(expected_eth * (1 - slippage/100))], line 377 *)
Definition minimum_output (quoted : Z) (slippage : float) : result Z :=
  rbind (discounted quoted slippage) to_int.

(** An int that [float] converts without rounding. *)
Definition exact_double (n : Z) : Prop := of_int n = Ok (Finite (n * one_q)).

(** [sorted(prices)[len(prices)//2]] *)
Definition median (prices : list Z) : result Z :=
  subscript (sorted prices) (Nat.div (List.length prices) 2).

(** lines 104-109 *)
Definition priority_fee_of (base_fee : Z) (pending_gas_prices : list Z)
  : result Z :=
  match pending_gas_prices with
  | [] => Ok (gwei 2)
  | _ =>
      rbind (median pending_gas_prices) (fun median_gas_price =>
      Ok (Z.min (median_gas_price - base_fee) (gwei 3)))
  end.

(** lines 114-117 *)
Definition capped_max_fee (self : buyer) (base_fee priority_fee : Z)
  : result Z :=
  rbind (scale_int (base_fee + priority_fee) (literal 12 10)) (fun buffered =>
  Ok (Z.min buffered (max_gas_price self))).

(** lines 124-128, after the gas price has been fetched *)
Definition fallback_fees (self : buyer) (gp : Z) : result (Z * Z) :=
  rbind (scale_int gp (literal 12 10)) (fun buffered =>
  rbind (scale_int gp (literal 1 10)) (fun tip =>
  Ok (Z.min buffered (max_gas_price self), tip))).

(** line 385 *)
Definition sell_max_fee_per_gas (base_fee priority_fee : Z) : Z :=
  base_fee * 2 + priority_fee.

(** line 178 *)
Definition price_impact_of (tokens_out : Z) (eth_amount : float)
  (small_out : Z) : result float :=
  rbind (of_int tokens_out) (fun fo =>
  rbind (div fo eth_amount) (fun rate =>
  rbind (of_int small_out) (fun fs =>
  rbind (div fs (literal 1 10)) (fun small_rate =>
  rbind (div rate small_rate) (fun ratio =>
  Ok (abs (sub one ratio))))))).

Section Methods.

Context {C : client}.

(** [validate_address] *)
Definition validate_address (self : buyer) (a : string) : M C address :=
  let a := strip C a in
  match to_checksum_address C a with
  | Ok checksummed => ret checksummed
  | Raise _ => raise (ValueError ("Invalid Ethereum address: " ++ a))
  end.

(** [load_abi] *)
Definition load_abi (self : buyer) (filename : string) : M C unit :=
  call (load_abi_file ("abis/" ++ filename)).

(** [get_token_contract]; a contract object is known by its address. *)
Definition get_token_contract (self : buyer) (token_address : string)
  : M C address :=
  token_address <- validate_address self token_address ;;
  load_abi self "ERC20.json" ;;
  ret token_address.

(** [calculate_max_spend] *)
Definition calculate_max_spend (self : buyer) (gas_price : Z) : M C Z :=
  balance <- call (get_balance (wallet_address self)) ;;
  lift (spend_cap balance gas_price (min_eth_balance self)).

(** [estimate_gas_limit] *)
Definition estimate_gas_limit (self : buyer) (t : txn) : M C Z :=
  try_except
    (estimated <- call (estimate_gas t) ;;
     lift (scale_int estimated (literal 12 10)))
    (fun _ => ret 350000).

(** The loop of lines 96-102 over the sampled hashes. *)
Fixpoint sample_pending (hashes : list HexBytes) (pending_gas_prices : list Z)
  : M C (list Z) :=
  match hashes with
  | [] => ret pending_gas_prices
  | tx_hash :: rest =>
      prices <-
        try_except
          (tx <- call (get_transaction tx_hash) ;;
           match maxFeePerGas tx with
           | Some fee => ret (pending_gas_prices ++ [fee])%list
           | None => ret pending_gas_prices
           end)
          (fun _ => ret pending_gas_prices) ;;
      sample_pending rest prices
  end.

(** [get_optimal_gas_price].  [pending_txns and 'transactions' in
    pending_txns] holds exactly when the key is there: an empty
    dictionary has no key. *)
Definition get_optimal_gas_price (self : buyer) : M C (Z * Z) :=
  try_except
    (latest_block <- call (get_block latest) ;;
     base_fee <- lift (item "baseFeePerGas" (baseFeePerGas latest_block)) ;;
     pending_txns <- call (get_block pending) ;;
     priority_fee <-
       match transactions pending_txns with
       | Some hashes =>
           pending_gas_prices <- sample_pending (firstn 10 hashes) [] ;;
           lift (priority_fee_of base_fee pending_gas_prices)
       | None => ret (gwei 2)
       end ;;
     max_fee <- lift (capped_max_fee self base_fee priority_fee) ;;
     ret (max_fee, priority_fee))
    (fun _ =>
       gp <- call gas_price ;;
       lift (fallback_fees self gp)).

(** The inner [try] of [check_token_liquidity], lines 146-194. *)
Definition check_uniswap (self : buyer) (token_address token_contract : address)
  (eth_amount : float) (amount_in_wei : Z) : M C (bool * float * string) :=
  try_except
    (amounts <- call (call_getAmountsOut (router self) amount_in_wei
                        [WETH_ADDRESS; token_address]) ;;
     tokens_out <- lift (subscript amounts 1) ;;
     total_supply <- call (call_totalSupply token_contract) ;;
     if total_supply =? 0 then
       ret (false, zero, "Token has no total supply")
     else
       ft <- lift (of_int tokens_out) ;;
       fs <- lift (of_int total_supply) ;;
       liquidity_ratio <- lift (div ft fs) ;;
       again <- lift (subscript amounts 1) ;;
       one_token_price <- lift (int_truediv (ether 1) again) ;;
       if tokens_out =? 0 then
         ret (false, zero, "No tokens returned for trade. Insufficient liquidity.")
       else
         let small_amount := ether 1 / 10 in
         small_amounts <- call (call_getAmountsOut (router self) small_amount
                                  [WETH_ADDRESS; token_address]) ;;
         out <- lift (subscript amounts 1) ;;
         small_out <- lift (subscript small_amounts 1) ;;
         price_impact <- lift (price_impact_of out eth_amount small_out) ;;
         if ltb (literal 1 10) price_impact then
           ret (false, liquidity_ratio,
                "High price impact: "
                ++ format_fixed C 2 (mul price_impact (Finite (100 * one_q)))
                ++ "%. Trade might be front-run.")
         else
           lift (from_wei_ether tokens_out) ;;
           ret (true, liquidity_ratio, "Sufficient liquidity"))
    (fun e =>
       ret (false, zero, "Error checking Uniswap liquidity: " ++ str_exn e)).

(** [check_token_liquidity] *)
Definition check_token_liquidity (self : buyer) (token_address : string)
  (eth_amount : float) : M C (bool * float * string) :=
  try_except
    (token_address <- validate_address self token_address ;;
     amount_in_wei <- lift (to_wei_ether C eth_amount) ;;
     token_contract <- get_token_contract self token_address ;;
     info <-
       try_except
         (symbol <- call (call_symbol token_contract) ;;
          decimals <- call (call_decimals token_contract) ;;
          ret (Some (symbol, decimals)))
         (fun _ => ret None) ;;
     match info with
     | None =>
         ret (false, zero,
              "Could not get token information. This might not be a valid ERC20 token.")
     | Some _ =>
         check_uniswap self token_address token_contract eth_amount amount_in_wei
     end)
    (fun e => ret (false, zero, "Error checking liquidity: " ++ str_exn e)).

(** The clamp of lines 215-221: the amount in ether and in wei after the
    comparison with the spend cap. *)
Definition clamp_amount (max_spend : Z) (eth_amount : float)
  (amount_in_wei : Z) : result (float * Z) :=
  if max_spend <? amount_in_wei then
    rbind (from_wei_ether max_spend) (fun adjusted_amount =>
    let eth_amount := float_of_ether_decimal adjusted_amount in
    rbind (to_wei_ether C eth_amount) (fun amount_in_wei =>
    Ok (eth_amount, amount_in_wei)))
  else Ok (eth_amount, amount_in_wei).

(** [build_optimized_transaction] *)
Definition build_optimized_transaction (self : buyer) (token_address : string)
  (eth_amount : float) (slippage : float) : M C (option txn) :=
  try_except
    (token_address <- validate_address self token_address ;;
     '(has_liquidity, _, _) <- check_token_liquidity self token_address eth_amount ;;
     if negb has_liquidity then ret None
     else
       '(max_fee, priority_fee) <- get_optimal_gas_price self ;;
       max_spend <- calculate_max_spend self max_fee ;;
       amount_in_wei <- lift (to_wei_ether C eth_amount) ;;
       '(eth_amount, amount_in_wei) <-
         lift (clamp_amount max_spend eth_amount amount_in_wei) ;;
       if leb eth_amount zero then ret None
       else
         amounts <- call (call_getAmountsOut (router self) amount_in_wei
                            [WETH_ADDRESS; token_address]) ;;
         quoted <- lift (subscript amounts 1) ;;
         min_tokens <- lift (minimum_output quoted slippage) ;;
         latest_block <- call (get_block latest) ;;
         now <- lift (item "timestamp" (timestamp latest_block)) ;;
         let deadline := now + 180 in
         nonce <- call (get_transaction_count (wallet_address self)) ;;
         unsigned_txn <-
           call (build_transaction (router self)
                   (swapExactETHForTokens min_tokens
                      [WETH_ADDRESS; token_address] (wallet_address self) deadline)
                   {| p_from := wallet_address self;
                      p_value := Some amount_in_wei;
                      p_nonce := nonce;
                      p_gas := None;
                      p_maxFeePerGas := max_fee;
                      p_maxPriorityFeePerGas := priority_fee;
                      p_type := Some 2 |}) ;;
         gas_limit <- estimate_gas_limit self unsigned_txn ;;
         ret (Some (set_gas unsigned_txn gas_limit)))
    (fun _ => ret None).

(** [range(n)] *)
Definition range (n : nat) : list Z := map Z.of_nat (seq 0 n).

(** The loop of lines 276-301, [for attempt in range(3)].  Each branch of
    the [try] body returns from the method; the handler either sleeps
    and goes on with the next attempt, or returns. *)
Fixpoint submit_with_retries (self : buyer) (signed : signed_txn)
  (token_address : string) (attempts : list Z) : M C (option string) :=
  match attempts with
  | [] => ret None
  | attempt :: rest =>
      try_except
        (tx_hash <- call (send_raw_transaction (rawTransaction signed)) ;;
         receipt <- call (wait_for_transaction_receipt tx_hash) ;;
         if status receipt =? 1 then
           token_contract <- get_token_contract self token_address ;;
           token_balance <-
             call (call_balanceOf token_contract (wallet_address self)) ;;
           lift (from_wei_ether token_balance) ;;
           ret (Some (hex tx_hash))
         else ret None)
        (fun _ =>
           if attempt <? 2 then
             sleep 1 ;;
             submit_with_retries self signed token_address rest
           else ret None)
  end.

(** [buy_token_protected] *)
Definition buy_token_protected (self : buyer) (token_address : string)
  (eth_amount : float) (slippage : option float) : M C (option string) :=
  try_except
    (let slippage :=
       match slippage with
       | Some s => s
       | None => default_slippage self
       end in
     unsigned_txn <-
       build_optimized_transaction self token_address eth_amount slippage ;;
     match unsigned_txn with
     | None => ret None
     | Some unsigned_txn =>
         signed_txn <- call (sign_transaction unsigned_txn (private_key self)) ;;
         submit_with_retries self signed_txn token_address (range 3)
     end)
    (fun _ => ret None).

(** Lines 350-366 of [sell_tokens]: the approval. *)
Definition approve_if_needed (self : buyer) (token_address : address)
  (allowance amount_in_token_units : Z) : M C unit :=
  if allowance <? amount_in_token_units then
    spender <- lift (get_router_address self) ;;
    nonce <- call (get_transaction_count (wallet_address self)) ;;
    fee <- call gas_price ;;
    tip <- call gas_price ;;
    approve_txn <-
      call (build_transaction token_address
              (approve spender amount_in_token_units)
              {| p_from := wallet_address self;
                 p_value := None;
                 p_nonce := nonce;
                 p_gas := Some 100000;
                 p_maxFeePerGas := fee;
                 p_maxPriorityFeePerGas := tip;
                 p_type := None |}) ;;
    signed_approve_txn <-
      call (sign_transaction approve_txn (private_key self)) ;;
    approve_tx_hash <-
      call (send_raw_transaction (rawTransaction signed_approve_txn)) ;;
    call (wait_for_transaction_receipt approve_tx_hash) ;;
    ret tt
  else ret tt.

(** Lines 368-421 of [sell_tokens]: quote, swap, submission. *)
Definition sell_swap (self : buyer) (token_address : address)
  (symbol : string) (amount : float) (amount_in_token_units : Z)
  (min_eth_received : option number) (slippage : float) : M C sell_result :=
  amounts_out <- call (call_getAmountsOut (router self) amount_in_token_units
                         [token_address; WETH_ADDRESS]) ;;
  expected_eth <- lift (subscript amounts_out 1) ;;
  min_eth_received <-
    match min_eth_received with
    | None =>
        m <- lift (minimum_output expected_eth slippage) ;;
        ret (Int m)
    | Some given => ret given
    end ;;
  now <- call time_time ;;
  deadline <- lift (to_int (add now (Finite (300 * one_q)))) ;;
  latest_block <- call (get_block latest) ;;
  base_fee <- lift (item "baseFeePerGas" (baseFeePerGas latest_block)) ;;
  priority_fee <- call max_priority_fee ;;
  let max_fee_per_gas := sell_max_fee_per_gas base_fee priority_fee in
  nonce <- call (get_transaction_count (wallet_address self)) ;;
  swap_txn <-
    call (build_transaction (router self)
            (swapExactTokensForETH amount_in_token_units min_eth_received
               [token_address; WETH_ADDRESS] (wallet_address self) deadline)
            {| p_from := wallet_address self;
               p_value := None;
               p_nonce := nonce;
               p_gas := Some 350000;
               p_maxFeePerGas := max_fee_per_gas;
               p_maxPriorityFeePerGas := priority_fee;
               p_type := None |}) ;;
  signed_txn <- call (sign_transaction swap_txn (private_key self)) ;;
  tx_hash <- call (send_raw_transaction (rawTransaction signed_txn)) ;;
  receipt <- call (wait_for_transaction_receipt tx_hash) ;;
  if status receipt =? 1 then
    eth_amount <- lift (from_wei_ether expected_eth) ;;
    ret (SellDone (hex tx_hash) amount symbol eth_amount
           (gasUsed receipt) (effectiveGasPrice receipt))
  else raise (PlainException "Transaction failed").

(** [sell_tokens] *)
Definition sell_tokens (self : buyer) (token_address : string)
  (amount : float) (min_eth_received : option number)
  (slippage : option float) : M C sell_result :=
  try_except
    (token_address <- lift (to_checksum_address C token_address) ;;
     let slippage :=
       match slippage with
       | Some s => s
       | None => default_slippage self
       end in
     if leb slippage zero || leb (Finite (100 * one_q)) slippage then
       raise (ValueError "Slippage must be between 0 and 100")
     else
       load_abi self "ERC20.json" ;;
       symbol <- call (call_symbol token_address) ;;
       decimals <- call (call_decimals token_address) ;;
       token_balance <-
         call (call_balanceOf token_address (wallet_address self)) ;;
       if token_balance =? 0 then
         raise (ValueError ("No " ++ symbol ++ " tokens found in wallet"))
       else
         scale <- lift (of_int (10 ^ Z.of_N decimals)) ;;
         amount_in_token_units <- lift (to_int (mul amount scale)) ;;
         if token_balance <? amount_in_token_units then
           held <- lift (int_truediv token_balance (10 ^ Z.of_N decimals)) ;;
           raise (ValueError ("Insufficient " ++ symbol ++ " balance. You have "
                              ++ format_fixed C 8 held ++ " " ++ symbol))
         else
           spender <- lift (get_router_address self) ;;
           allowance <-
             call (call_allowance token_address (wallet_address self) spender) ;;
           approve_if_needed self token_address allowance amount_in_token_units ;;
           sell_swap self token_address symbol amount amount_in_token_units
             min_eth_received slippage)
    (fun e => ret (SellFailed (str_exn e))).

End Methods.

End Trader.

(** ** Scripted nodes

    A deterministic stand-in for the node, in the way a test double would be
    written for the engine: every request kind has one scripted answer, the
    answer to a broadcast depends on how many broadcasts came before, and
    the state of the node is that number. *)

Module Scenario.

Import Binary64 Py Trader.
Local Open Scope string_scope.
Local Open Scope Z_scope.

Record script : Type := {
  s_latest : result block;
  s_pending : result block;
  s_transaction : HexBytes -> result tx_data;
  s_gas_price : result Z;
  s_max_priority_fee : result Z;
  s_eth_balance : result Z;
  s_nonce : result Z;
  s_estimate_gas : result Z;
  s_broadcast : nat -> result HexBytes;
  s_receipt : result receipt;
  s_symbol : result string;
  s_decimals : result N;
  s_total_supply : result Z;
  s_token_balance : result Z;
  s_allowance : result Z;
  s_quote : Z -> result (list Z);
  s_abi : result unit;
  s_time : result float
}.

Definition answer (sc : script) (T : Type) (r : rpc T) (sent : nat)
  : result T * nat :=
  match r in rpc T return result T * nat with
  | get_block latest => (s_latest sc, sent)
  | get_block pending => (s_pending sc, sent)
  | get_transaction h => (s_transaction sc h, sent)
  | gas_price => (s_gas_price sc, sent)
  | max_priority_fee => (s_max_priority_fee sc, sent)
  | get_balance _ => (s_eth_balance sc, sent)
  | get_transaction_count _ => (s_nonce sc, sent)
  | estimate_gas _ => (s_estimate_gas sc, sent)
  | send_raw_transaction _ => (s_broadcast sc sent, S sent)
  | wait_for_transaction_receipt _ => (s_receipt sc, sent)
  | call_symbol _ => (s_symbol sc, sent)
  | call_decimals _ => (s_decimals sc, sent)
  | call_totalSupply _ => (s_total_supply sc, sent)
  | call_balanceOf _ _ => (s_token_balance sc, sent)
  | call_allowance _ _ _ => (s_allowance sc, sent)
  | call_getAmountsOut _ amount_in _ => (s_quote sc amount_in, sent)
  | build_transaction target c p =>
      (Ok {| t_to := target; t_call := c; t_params := p; t_gas := p_gas p |}, sent)
  | sign_transaction _ _ => (Ok {| rawTransaction := [Byte.x02] |}, sent)
  | load_abi_file _ => (s_abi sc, sent)
  | time_time => (s_time sc, sent)
  end.

(** The white space of the scripted client.  Its strings hold one code
    point per character, all below 256; among those, [str.isspace] holds
    of 9-13, 28-32, 133 and 160. *)
Definition blank (c : ascii) : bool :=
  let n := nat_of_ascii c in
  ((9 <=? n) && (n <=? 13))%nat || ((28 <=? n) && (n <=? 32))%nat
  || (n =? 133)%nat || (n =? 160)%nat.

Fixpoint trim_left (s : string) : string :=
  match s with
  | String c s' => if blank c then trim_left s' else s
  | EmptyString => EmptyString
  end.

Fixpoint trim_right (s : string) : string :=
  match s with
  | String c s' =>
      match trim_right s' with
      | EmptyString => if blank c then EmptyString else String c EmptyString
      | t => String c t
      end
  | EmptyString => EmptyString
  end.

Definition trim (s : string) : string := trim_right (trim_left s).

(** The library functions of the scripted client: every string is taken
    as an address, [str.strip] is [trim], and a non-negative float of
    ether is converted to wei by truncating its exact value (which is what
    [Web3.to_wei] gives on the amounts used below, all of them dyadic). *)
Definition scripted (sc : script) : client :=
  {| world := nat;
     node := answer sc;
     elapse := fun _ sent => sent;
     to_checksum_address := fun s => Ok s;
     strip := trim;
     to_wei_ether := fun x =>
       match x with
       | Finite n =>
           if n <? 0 then Raise (ValueError "negative amount")
           else Ok (10 ^ 18 * n / one_q)
       | _ => Raise (ValueError "not a finite amount")
       end;
     format_fixed := fun _ _ => "#" |}.

Definition start (sc : script) : state (scripted sc) :=
  @Build_state (scripted sc) 0%nat [].

(** Run a method on a scripted node from its initial state. *)
Definition run {A} (sc : script) (m : M (scripted sc) A)
  : result A * state (scripted sc) :=
  m (start sc).

Definition env0 : environ :=
  {| ETHEREUM_PRIVATE_KEY := "key";
     ETHEREUM_NODE_URL := "http://localhost:8545";
     WALLET_ADDRESS := "0xWallet";
     DEFAULT_SLIPPAGE := literal 5 10;
     GAS_MULTIPLIER := literal 11 10 |}.

Definition tx_hash0 : HexBytes := [Byte.xab; Byte.xcd].
Definition down : exn := ClientError "connection refused".

(** A healthy node: base fee 30 gwei, an empty pending pool, a liquid
    token quoted at 2000 tokens per ether at every size. *)
Definition healthy : script :=
  {| s_latest := Ok {| baseFeePerGas := Some (gwei 30);
                       transactions := Some [];
                       timestamp := Some 1700000000 |};
     s_pending := Ok {| baseFeePerGas := None;
                        transactions := Some [];
                        timestamp := None |};
     s_transaction := fun _ => Ok {| maxFeePerGas := None |};
     s_gas_price := Ok (gwei 31);
     s_max_priority_fee := Ok (gwei 1);
     s_eth_balance := Ok (ether 10);
     s_nonce := Ok 7;
     s_estimate_gas := Ok 150000;
     s_broadcast := fun _ => Ok tx_hash0;
     s_receipt := Ok {| status := 1; gasUsed := 120000;
                        effectiveGasPrice := gwei 31 |};
     s_symbol := Ok "TKN";
     s_decimals := Ok 18%N;
     s_total_supply := Ok (ether 1000000);
     s_token_balance := Ok (ether 5000);
     s_allowance := Ok 0;
     s_quote := fun amount_in => Ok [amount_in; 2000 * amount_in];
     s_abi := Ok tt;
     s_time := Ok (Finite (1700000000 * one_q)) |}.

(** Nothing answers. *)
Definition offline : script :=
  {| s_latest := Raise down; s_pending := Raise down;
     s_transaction := fun _ => Raise down;
     s_gas_price := Raise down; s_max_priority_fee := Raise down;
     s_eth_balance := Raise down; s_nonce := Raise down;
     s_estimate_gas := Raise down;
     s_broadcast := fun _ => Raise down; s_receipt := Raise down;
     s_symbol := Raise down; s_decimals := Raise down;
     s_total_supply := Raise down; s_token_balance := Raise down;
     s_allowance := Raise down; s_quote := fun _ => Raise down;
     s_abi := Raise down; s_time := Raise down |}.

(** [healthy] with other blocks, pooled transactions and gas price. *)
Definition with_blocks (latest_block pending_block : result block)
  (pooled : HexBytes -> result tx_data) (price : result Z) : script :=
  {| s_latest := latest_block; s_pending := pending_block;
     s_transaction := pooled;
     s_gas_price := price;
     s_max_priority_fee := s_max_priority_fee healthy;
     s_eth_balance := s_eth_balance healthy; s_nonce := s_nonce healthy;
     s_estimate_gas := s_estimate_gas healthy;
     s_broadcast := s_broadcast healthy; s_receipt := s_receipt healthy;
     s_symbol := s_symbol healthy; s_decimals := s_decimals healthy;
     s_total_supply := s_total_supply healthy;
     s_token_balance := s_token_balance healthy;
     s_allowance := s_allowance healthy; s_quote := s_quote healthy;
     s_abi := s_abi healthy; s_time := s_time healthy |}.

Definition block_with_base_fee (fee : Z) : block :=
  {| baseFeePerGas := Some fee; transactions := Some [];
     timestamp := Some 1700000000 |}.

(** The node cannot serve blocks, but knows a gas price. *)
Definition no_blocks : script :=
  with_blocks (Raise down) (Raise down) (fun _ => Raise down) (Ok (gwei 31)).

(** The latest block is served, the pending block is not. *)
Definition no_pending_block : script :=
  with_blocks (Ok (block_with_base_fee (gwei 30))) (Raise down)
    (fun _ => Raise down) (Ok (gwei 31)).

(** Blocks are served, the pooled transactions cannot be fetched, and the
    gas-price query fails. *)
Definition no_pooled_transactions : script :=
  with_blocks (Ok (block_with_base_fee (gwei 30)))
    (Ok {| baseFeePerGas := None;
           transactions := Some [[Byte.x01]; [Byte.x02]];
           timestamp := None |})
    (fun _ => Raise down) (Raise down).

(** Base fee 100 gwei while the pool still offers 8, 10 and 12 gwei. *)
Definition cheap_pool : script :=
  with_blocks (Ok (block_with_base_fee (gwei 100)))
    (Ok {| baseFeePerGas := None;
           transactions := Some [[Byte.x01]; [Byte.x02]; [Byte.x03]];
           timestamp := None |})
    (fun h =>
       match h with
       | [Byte.x01] => Ok {| maxFeePerGas := Some (gwei 12) |}
       | [Byte.x02] => Ok {| maxFeePerGas := Some (gwei 8) |}
       | _ => Ok {| maxFeePerGas := Some (gwei 10) |}
       end)
    (Ok (gwei 100)).

(** A pending pool of twelve transactions, each offering 40 gwei. *)
Definition crowded_pool : script :=
with_blocks (Ok (block_with_base_fee (gwei 30)))
  (Ok {| baseFeePerGas := None;
         transactions :=
           Some (map (fun b => [b])
                   [Byte.x01; Byte.x02; Byte.x03; Byte.x04; Byte.x05; Byte.x06;
                    Byte.x07; Byte.x08; Byte.x09; Byte.x0a; Byte.x0b; Byte.x0c]);
         timestamp := None |})
  (fun _ => Ok {| maxFeePerGas := Some (gwei 40) |})
  (Ok (gwei 31)).

(** Events of interest in a log. *)
Definition is_broadcast (e : event) : bool :=
  match e with
  | Called (send_raw_transaction _) _ => true
  | _ => false
  end.

Definition is_sleep (e : event) : bool :=
  match e with
  | Slept _ => true
  | _ => false
  end.

Definition is_build (e : event) : bool :=
  match e with
  | Called (build_transaction _ _ _) _ => true
  | _ => false
  end.

Definition is_approval_build (e : event) : bool :=
  match e with
  | Called (build_transaction _ (approve _ _) _) _ => true
  | _ => false
  end.

Definition count (p : event -> bool) (l : list event) : nat :=
  List.length (filter p l).

(** [healthy] with other answers to broadcasts, to the receipt wait and to
    the allowance query. *)
Definition with_submission (broadcast : nat -> result HexBytes)
  (confirmation : result receipt) (allowance : result Z) : script :=
{| s_latest := s_latest healthy; s_pending := s_pending healthy;
   s_transaction := s_transaction healthy;
   s_gas_price := s_gas_price healthy;
   s_max_priority_fee := s_max_priority_fee healthy;
   s_eth_balance := s_eth_balance healthy; s_nonce := s_nonce healthy;
   s_estimate_gas := s_estimate_gas healthy;
   s_broadcast := broadcast; s_receipt := confirmation;
   s_symbol := s_symbol healthy; s_decimals := s_decimals healthy;
   s_total_supply := s_total_supply healthy;
   s_token_balance := s_token_balance healthy;
   s_allowance := allowance; s_quote := s_quote healthy;
   s_abi := s_abi healthy; s_time := s_time healthy |}.

(** [healthy] with another quote and another total supply. *)
Definition with_pool (quote : Z -> result (list Z)) (supply : result Z)
  (balance : result Z) : script :=
{| s_latest := s_latest healthy; s_pending := s_pending healthy;
   s_transaction := s_transaction healthy;
   s_gas_price := s_gas_price healthy;
   s_max_priority_fee := s_max_priority_fee healthy;
   s_eth_balance := balance; s_nonce := s_nonce healthy;
   s_estimate_gas := s_estimate_gas healthy;
   s_broadcast := s_broadcast healthy; s_receipt := s_receipt healthy;
   s_symbol := s_symbol healthy; s_decimals := s_decimals healthy;
   s_total_supply := supply;
   s_token_balance := s_token_balance healthy;
   s_allowance := s_allowance healthy; s_quote := quote;
   s_abi := s_abi healthy; s_time := s_time healthy |}.

(** A pool so thin that the quote for any input is zero tokens. *)
Definition dry_pool : script :=
with_pool (fun amount_in => Ok [amount_in; 0]) (Ok (ether 1000000))
  (s_eth_balance healthy).

(** A wallet that holds less than the reserve of 0.01 ether. *)
Definition poor_wallet : script :=
with_pool (s_quote healthy) (s_total_supply healthy) (Ok (ether 1 / 1000)).

(** Every broadcast is refused. *)
Definition rejecting : script :=
with_submission (fun _ => Raise down) (s_receipt healthy) (Ok (ether 5000)).

(** Every broadcast is accepted, but no receipt ever comes back. *)
Definition accepted_unconfirmed : script :=
with_submission (fun _ => Ok tx_hash0) (Raise (ClientError "timed out"))
  (Ok (ether 5000)).

(** The transaction is mined and reverts. *)
Definition reverting : script :=
with_submission (fun _ => Ok tx_hash0)
  (Ok {| status := 0; gasUsed := 21000; effectiveGasPrice := gwei 31 |})
  (Ok (ether 5000)).

(** A base fee of 200 gwei. *)
Definition congested : script :=
with_blocks (Ok (block_with_base_fee (gwei 200))) (s_pending healthy)
  (s_transaction healthy) (Ok (gwei 201)).

(** An instance to which a caller has added the attribute that the class
    never assigns. *)
Definition with_router_address (self : buyer) : buyer :=
{| private_key := private_key self; node_url := node_url self;
   wallet_address := wallet_address self;
   default_slippage := default_slippage self;
   gas_multiplier := gas_multiplier self;
   router := router self;
   min_eth_balance := min_eth_balance self;
   max_gas_price := max_gas_price self;
   router_address := Some UNISWAP_V2_ROUTER |}.

Definition signed0 : signed_txn := {| rawTransaction := [Byte.x02] |}.

(** The [maxFeePerGas] of every transaction that was built. *)
Definition built_max_fees (l : list event) : list Z :=
flat_map (fun e =>
            match e with
            | Called (build_transaction _ _ p) _ => [p_maxFeePerGas p]
            | _ => []
            end) l.

(** Whether the node accepted the first broadcast of a log. *)
Definition first_broadcast_accepted (l : list event) : bool :=
match filter is_broadcast l with
| Called _ (Ok _) :: _ => true
| _ => false
end.

(** Some unsigned transaction. *)
Definition txn0 : txn :=
{| t_to := UNISWAP_V2_ROUTER;
   t_call := swapExactETHForTokens 1 [WETH_ADDRESS; "0xToken"%string]
               "0xWallet"%string 1700000180;
   t_params := {| p_from := "0xWallet"%string; p_value := Some (ether 1);
                  p_nonce := 7; p_gas := None;
                  p_maxFeePerGas := gwei 38; p_maxPriorityFeePerGas := gwei 2;
                  p_type := Some 2 |};
   t_gas := None |}.

(** More kinds of events. *)
Definition is_pool_fetch (e : event) : bool :=
match e with
| Called (get_transaction _) _ => true
| _ => false
end.

Definition is_block_fetch (e : event) : bool :=
match e with
| Called (get_block _) _ => true
| _ => false
end.

Definition is_gas_price_query (e : event) : bool :=
match e with
| Called gas_price _ => true
| _ => false
end.

Definition is_signature (e : event) : bool :=
match e with
| Called (sign_transaction _ _) _ => true
| _ => false
end.

Definition is_node_call (e : event) : bool :=
match e with
| Called _ _ => true
| Slept _ => false
end.

End Scenario.

(** * Facts *)

(** ** Rounding to nearest is monotone, and exact on doubles *)

Module Binary64Facts.

Import Binary64.

Lemma div_frac_le a b c d : 0 < b -> 0 < d -> a * d <= c * b -> a / b <= c / d.
Proof.
intros Hb Hd H. apply Z.div_le_lower_bound; [lia|].
pose proof (Z.mul_div_le a b Hb). nia.
Qed.

Lemma rne_mono a b c d : 0 < b -> 0 < d -> a * d <= c * b -> rne a b <= rne c d.
Proof.
intros Hb Hd H.
pose proof (div_frac_le a b c d Hb Hd H) as Hq.
pose proof (Z.div_mod a b ltac:(lia)) as Ea.
pose proof (Z.div_mod c d ltac:(lia)) as Ec.
pose proof (Z.mod_pos_bound a b Hb) as Ra.
pose proof (Z.mod_pos_bound c d Hd) as Rc.
unfold rne.
destruct (Z.eq_dec (a / b) (c / d)) as [E|NE].
- rewrite <- E in *. set (q := a / b) in *. set (r1 := a mod b) in *. set (r2 := c mod d) in *.
  assert (r1 * d <= r2 * b) by nia.
  destruct (2 * r1 <? b) eqn:T1; destruct (2 * r2 <? d) eqn:T2;
  destruct (b <? 2 * r1) eqn:T3; destruct (d <? 2 * r2) eqn:T4;
  destruct (Z.even q); try lia;
  rewrite ?Z.ltb_lt, ?Z.ltb_ge in *; nia.
- assert (a / b + 1 <= c / d) by lia.
  destruct (2 * (a mod b) <? b); destruct (b <? 2 * (a mod b)); destruct (Z.even (a / b));
  destruct (2 * (c mod d) <? d); destruct (d <? 2 * (c mod d)); destruct (Z.even (c / d)); lia.
Qed.

Lemma rne_exact n b : 0 < b -> rne (n * b) b = n.
Proof.
intros Hb. unfold rne. rewrite Z.div_mul, Z.mod_mul by lia.
replace (2 * 0 <? b) with true by (symmetry; apply Z.ltb_lt; lia). reflexivity.
Qed.

Lemma rne_le a b m : 0 < b -> a <= m * b -> rne a b <= m.
Proof.
intros Hb H. rewrite <- (rne_exact m b Hb). apply rne_mono; nia.
Qed.

Lemma rne_ge a b m : 0 < b -> m * b <= a -> m <= rne a b.
Proof.
intros Hb H. rewrite <- (rne_exact m b Hb). apply rne_mono; nia.
Qed.

Lemma spacing_exp_nonneg t : 0 <= spacing_exp t.
Proof. unfold spacing_exp. lia. Qed.

Lemma spacing_exp_mono t u : t <= u -> spacing_exp t <= spacing_exp u.
Proof. intros H. unfold spacing_exp. pose proof (Z.log2_le_mono t u H). lia. Qed.

Lemma pow2_pos k : 0 < 2 ^ k \/ k < 0.
Proof. destruct (Z.lt_ge_cases k 0); [right; lia | left; apply Z.pow_pos_nonneg; lia]. Qed.

(** below the next binade *)
Lemma below_binade t : 0 <= t -> t < 2 ^ (spacing_exp t + 53).
Proof.
intros Ht. unfold spacing_exp.
destruct (Z.eq_dec t 0) as [->|].
- apply Z.pow_pos_nonneg; lia.
- pose proof (Z.log2_spec t ltac:(lia)) as [_ Hu].
  pose proof (Z.log2_nonneg t).
  eapply Z.lt_le_trans; [exact Hu|]. apply Z.pow_le_mono_r; lia.
Qed.

Lemma above_binade t : 0 < spacing_exp t -> 2 ^ (spacing_exp t + 52) <= t.
Proof.
unfold spacing_exp. intros H.
assert (0 < t). { destruct (Z.lt_ge_cases 0 t); auto. rewrite Z.log2_nonpos in H by lia. lia. }
replace (Z.max 0 (Z.log2 t - 52) + 52) with (Z.log2 t) by lia.
apply Z.log2_spec; lia.
Qed.

Lemma round_pos_upper a b : 0 <= a -> 0 < b ->
round_pos a b <= 2 ^ (spacing_exp (a / b) + 53).
Proof.
intros Ha Hb. unfold round_pos. set (k := spacing_exp (a / b)).
pose proof (spacing_exp_nonneg (a / b)) as Hk. fold k in Hk.
assert (0 < 2 ^ k) by (apply Z.pow_pos_nonneg; lia).
rewrite Z.pow_add_r by lia. rewrite (Z.mul_comm (2 ^ k)).
apply Z.mul_le_mono_nonneg_r; [lia|].
apply rne_le; [nia|].
pose proof (below_binade (a / b) ltac:(apply Z.div_pos; lia)) as Hlt. fold k in Hlt.
rewrite Z.pow_add_r in Hlt by lia.
assert (a < b * (2 ^ k * 2 ^ 53)).
{ pose proof (Z.div_mod a b ltac:(lia)). pose proof (Z.mod_pos_bound a b Hb). nia. }
nia.
Qed.

Lemma round_pos_lower a b : 0 <= a -> 0 < b -> 0 < spacing_exp (a / b) ->
2 ^ (spacing_exp (a / b) + 52) <= round_pos a b.
Proof.
intros Ha Hb Hk0. unfold round_pos. set (k := spacing_exp (a / b)) in *.
assert (0 < 2 ^ k) by (apply Z.pow_pos_nonneg; lia).
rewrite Z.pow_add_r by lia. rewrite (Z.mul_comm (2 ^ k)).
apply Z.mul_le_mono_nonneg_r; [lia|].
apply rne_ge; [nia|].
pose proof (above_binade (a / b) Hk0) as Hge. fold k in Hge.
rewrite Z.pow_add_r in Hge by lia.
pose proof (Z.mul_div_le a b Hb). nia.
Qed.

Lemma round_pos_mono a b c d : 0 <= a -> 0 < b -> 0 < d -> a * d <= c * b ->
round_pos a b <= round_pos c d.
Proof.
intros Ha Hb Hd H.
assert (Hc : 0 <= c) by nia.
pose proof (div_frac_le a b c d Hb Hd H) as Ht.
pose proof (spacing_exp_mono _ _ Ht) as Hk.
destruct (Z.eq_dec (spacing_exp (a / b)) (spacing_exp (c / d))) as [E|NE].
- unfold round_pos. rewrite <- E. set (k := spacing_exp (a / b)).
  pose proof (spacing_exp_nonneg (a / b)). 
  assert (0 < 2 ^ k) by (apply Z.pow_pos_nonneg; subst k; lia).
  apply Z.mul_le_mono_nonneg_r; [lia|].
  apply rne_mono; nia.
- pose proof (round_pos_upper a b Ha Hb) as Hu.
  pose proof (spacing_exp_nonneg (a / b)).
  pose proof (round_pos_lower c d Hc Hd ltac:(lia)) as Hl.
  eapply Z.le_trans; [exact Hu|]. eapply Z.le_trans; [|exact Hl].
  apply Z.pow_le_mono_r; lia.
Qed.

Lemma round_pos_nonneg a b : 0 <= a -> 0 < b -> 0 <= round_pos a b.
Proof.
intros Ha Hb. unfold round_pos. 
pose proof (spacing_exp_nonneg (a / b)).
set (k := spacing_exp (a / b)) in *.
assert (0 < 2 ^ k) by (apply Z.pow_pos_nonneg; lia).
apply Z.mul_nonneg_nonneg; [|lia].
apply (rne_ge a (b * 2 ^ k) 0); nia.
Qed.

Lemma round_quanta_mono a b c d : 0 < b -> 0 < d -> a * d <= c * b ->
round_quanta a b <= round_quanta c d.
Proof.
intros Hb Hd H. unfold round_quanta.
destruct (a <? 0) eqn:Sa; destruct (c <? 0) eqn:Sc;
  rewrite ?Z.ltb_lt, ?Z.ltb_ge in *.
- pose proof (round_pos_mono (- c) d (- a) b ltac:(lia) Hd Hb ltac:(nia)). lia.
- pose proof (round_pos_nonneg (- a) b ltac:(lia) Hb).
  pose proof (round_pos_nonneg c d ltac:(lia) Hd). lia.
- nia.
- apply round_pos_mono; auto.
Qed.

(** doubles are fixed points: [m * 2^j] quanta with [m < 2^53] *)
Lemma round_pos_exact m j b : 0 <= m < 2 ^ 53 -> 0 <= j -> 0 < b ->
round_pos (m * 2 ^ j * b) b = m * 2 ^ j.
Proof.
intros Hm Hj Hb. unfold round_pos. rewrite Z.div_mul by lia.
set (k := spacing_exp (m * 2 ^ j)).
assert (Hk : 0 <= k <= j).
{ subst k. unfold spacing_exp. destruct (Z.eq_dec m 0) as [->|].
  - rewrite Z.mul_0_l. simpl. lia.
  - rewrite Z.log2_mul_pow2 by lia.
    assert (Z.log2 m < 53) by (apply Z.log2_lt_pow2; lia). lia. }
assert (0 < 2 ^ k) by (apply Z.pow_pos_nonneg; lia).
replace (m * 2 ^ j * b) with ((m * 2 ^ (j - k)) * (b * 2 ^ k)).
- rewrite rne_exact by nia. rewrite <- Z.mul_assoc, <- Z.pow_add_r by lia.
  f_equal. f_equal. lia.
- replace j with ((j - k) + k) at 2 by lia. rewrite Z.pow_add_r by lia. ring.
Qed.


Lemma rne_upper_53 a b : 0 <= a -> 0 < b ->
0 <= rne a (b * 2 ^ spacing_exp (a / b)) <= 2 ^ 53.
Proof.
intros Ha Hb. set (k := spacing_exp (a / b)).
pose proof (spacing_exp_nonneg (a / b)) as Hk. fold k in Hk.
assert (0 < 2 ^ k) by (apply Z.pow_pos_nonneg; lia).
split.
- apply (rne_ge a (b * 2 ^ k) 0); nia.
- apply rne_le; [nia|].
  pose proof (below_binade (a / b) ltac:(apply Z.div_pos; lia)) as Hlt. fold k in Hlt.
  rewrite Z.pow_add_r in Hlt by lia.
  pose proof (Z.div_mod a b ltac:(lia)). pose proof (Z.mod_pos_bound a b Hb). nia.
Qed.

(** the result of a rounding is a double *)
Lemma round_pos_repr a b : 0 <= a -> 0 < b ->
exists m j, 0 <= m < 2 ^ 53 /\ 0 <= j /\ round_pos a b = m * 2 ^ j.
Proof.
intros Ha Hb. pose proof (rne_upper_53 a b Ha Hb) as Hr.
pose proof (spacing_exp_nonneg (a / b)) as Hk.
unfold round_pos. set (k := spacing_exp (a / b)) in *.
set (m := rne a (b * 2 ^ k)) in *.
destruct (Z.eq_dec m (2 ^ 53)) as [E|NE].
- exists 1, (53 + k). rewrite E, <- Z.pow_add_r by lia.
  split; [lia|]. split; [lia|]. ring.
- exists m, k. split; [lia|]. split; [lia|]. reflexivity.
Qed.

Lemma round_pos_idem a b : 0 <= a -> 0 < b ->
round_pos (round_pos a b) 1 = round_pos a b.
Proof.
intros Ha Hb. destruct (round_pos_repr a b Ha Hb) as (m & j & Hm & Hj & E).
rewrite E. rewrite <- (Z.mul_1_r (m * 2 ^ j)) at 1.
apply round_pos_exact; lia.
Qed.

Lemma round_quanta_opp a b : 0 < b -> round_quanta (- a) b = - round_quanta a b.
Proof.
intros Hb. unfold round_quanta.
destruct (Z.eq_dec a 0) as [->|Na].
- simpl. unfold round_pos. rewrite Z.div_0_l by lia. unfold rne.
  rewrite Z.div_0_l, Z.mod_0_l.
  + cbn. destruct (0 <? b * 1) eqn:E; [reflexivity|]. apply Z.ltb_ge in E. lia.
  + cbn. lia.
  + cbn. lia.
- destruct (a <? 0) eqn:S1; destruct (- a <? 0) eqn:S2;
    rewrite ?Z.ltb_lt, ?Z.ltb_ge in *; try lia.
  rewrite Z.opp_involutive. reflexivity.
Qed.

Lemma round_quanta_nonneg a b : 0 <= a -> 0 < b -> 0 <= round_quanta a b.
Proof.
intros Ha Hb. unfold round_quanta.
replace (a <? 0) with false by (symmetry; apply Z.ltb_ge; lia).
apply round_pos_nonneg; auto.
Qed.

Lemma round_quanta_idem a b : 0 < b ->
round_quanta (round_quanta a b) 1 = round_quanta a b.
Proof.
intros Hb. destruct (Z.lt_ge_cases a 0) as [Hn|Hp].
- replace a with (- (- a)) by lia. rewrite round_quanta_opp by lia.
  rewrite round_quanta_opp by lia. f_equal.
  pose proof (round_quanta_nonneg (- a) b ltac:(lia) Hb) as H0.
  unfold round_quanta in *.
  replace (- a <? 0) with false in * by (symmetry; apply Z.ltb_ge; lia).
  replace (round_pos (- a) b <? 0) with false by (symmetry; apply Z.ltb_ge; lia).
  apply round_pos_idem; lia.
- pose proof (round_quanta_nonneg a b Hp Hb) as H0.
  unfold round_quanta in *.
  replace (a <? 0) with false in * by (symmetry; apply Z.ltb_ge; lia).
  replace (round_pos a b <? 0) with false by (symmetry; apply Z.ltb_ge; lia).
  apply round_pos_idem; lia.
Qed.

Lemma round_quanta_pow2 j b : 0 <= j -> 0 < b -> round_quanta (2 ^ j * b) b = 2 ^ j.
Proof.
intros Hj Hb. unfold round_quanta.
assert (0 < 2 ^ j) by (apply Z.pow_pos_nonneg; lia).
replace (2 ^ j * b <? 0) with false by (symmetry; apply Z.ltb_ge; nia).
replace (2 ^ j * b) with (1 * 2 ^ j * b) by ring.
rewrite round_pos_exact; lia.
Qed.

Lemma pack_finite n : - huge_q < n < huge_q -> pack n = Finite n.
Proof.
intros H. unfold pack.
replace (huge_q <=? n) with false by (symmetry; apply Z.leb_gt; lia).
replace (n <=? - huge_q) with false by (symmetry; apply Z.leb_gt; lia).
reflexivity.
Qed.

Lemma huge_q_pow j : 0 <= j < 2098 -> 2 ^ j < huge_q.
Proof. intros H. unfold huge_q. apply Z.pow_lt_mono_r; lia. Qed.

(** A non-negative rational of at most [2^j] quanta rounds to a finite
  double of at most [2^j] quanta. *)
Lemma RN_bounded a b j : 0 < b -> 0 <= a <= 2 ^ j * b -> 0 <= j < 2098 ->
exists q, RN a b = Finite q /\ q = round_quanta a b /\ 0 <= q <= 2 ^ j.
Proof.
intros Hb Ha Hj. exists (round_quanta a b).
pose proof (round_quanta_nonneg a b ltac:(lia) Hb) as H0.
pose proof (round_quanta_mono a b (2 ^ j * b) b Hb Hb ltac:(nia)) as H1.
rewrite round_quanta_pow2 in H1 by lia.
pose proof (huge_q_pow j Hj). 
assert (0 < huge_q) by (unfold huge_q; apply Z.pow_pos_nonneg; lia).
unfold RN. rewrite pack_finite by lia. auto.
Qed.

Lemma one_q_pos : 0 < one_q.
Proof. unfold one_q. apply Z.pow_pos_nonneg; lia. Qed.

(** [float(n)] of a non-negative int below [2^j], [j <= 1023] *)
Lemma of_int_bounded n j : 0 <= n <= 2 ^ j -> 0 <= j <= 1023 ->
exists q, of_int n = Ok (Finite q) /\ q = round_quanta (n * one_q) 1
          /\ 0 <= q <= 2 ^ (j + 1074).
Proof.
intros Hn Hj. pose proof one_q_pos as U.
destruct (RN_bounded (n * one_q) 1 (j + 1074)) as (q & E & Eq & B); try lia.
- rewrite Z.pow_add_r by lia. fold one_q. nia.
- exists q. unfold of_int. rewrite E. auto.
Qed.

Lemma to_int_mono a b x y : a <= b -> to_int (Finite a) = Ok x -> to_int (Finite b) = Ok y -> x <= y.
Proof.
intros H Hx Hy. simpl in *. injection Hx as <-. injection Hy as <-.
apply Z.quot_le_mono; [apply one_q_pos | exact H].
Qed.

End Binary64Facts.

(** ** Reasoning about the monad *)

Module PyFacts.

Import Py.

(** A run is known by its result; its final state is whatever it is. *)
Lemma run_eq {A B} (p : A * B) (a : A) : fst p = a -> p = (a, snd p).
Proof. destruct p. cbn. intros ->. reflexivity. Qed.

Section Monad.

Context {C : client}.

(** A computation that returns on every state. *)
Definition total {A} (m : M C A) : Prop :=
  forall s, exists a s', m s = (Ok a, s').

Lemma ret_total {A} (a : A) : total (ret a).
Proof. intros s. exists a, s. reflexivity. Qed.

Lemma try_except_total {A} (body : M C A) (handler : exn -> M C A) :
  (forall e, total (handler e)) -> total (try_except body handler).
Proof.
  intros H s. unfold try_except.
  destruct (body s) as [[a|e] s1].
  - exists a, s1. reflexivity.
  - apply H.
Qed.

Lemma bind_ok {A B} (m : M C A) (k : A -> M C B) s b s' :
  bind m k s = (Ok b, s') ->
  exists a s1, m s = (Ok a, s1) /\ k a s1 = (Ok b, s').
Proof.
  unfold bind. destruct (m s) as [[a|e] s1]; intros H.
  - exists a, s1. auto.
  - discriminate.
Qed.

Lemma bind_run {A B} (m : M C A) (k : A -> M C B) s a s1 :
  m s = (Ok a, s1) -> bind m k s = k a s1.
Proof. unfold bind. intros ->. reflexivity. Qed.

Lemma bind_raise {A B} (m : M C A) (k : A -> M C B) s e s1 :
  m s = (Raise e, s1) -> bind m k s = (Raise e, s1).
Proof. unfold bind. intros ->. reflexivity. Qed.

Lemma lift_ok {A} (r : result A) s a s' :
  lift (C := C) r s = (Ok a, s') -> r = Ok a /\ s' = s.
Proof. unfold lift. intros H. injection H as -> ->. auto. Qed.

(** The state after the node has answered [r] from state [s]. *)
Definition after {T} (s : state C) (r : rpc T) (answer : result T)
  (w : world C) : state C :=
  {| chain := w; log := log s ++ [Called r answer] |}.

Lemma call_run {T} (r : rpc T) (s : state C) answer w :
  node C T r (chain s) = (answer, w) ->
  call r s = (answer, after s r answer w).
Proof. unfold call, after. intros ->. reflexivity. Qed.

Lemma try_except_ok {A} (body : M C A) handler s a s1 :
  body s = (Ok a, s1) -> try_except body handler s = (Ok a, s1).
Proof. unfold try_except. intros ->. reflexivity. Qed.

Lemma try_except_raise {A} (body : M C A) handler s e s1 :
  body s = (Raise e, s1) -> try_except body handler s = handler e s1.
Proof. unfold try_except. intros ->. reflexivity. Qed.

End Monad.

End PyFacts.

(** ** The gas plan *)

Module GasFacts.

Import Binary64 Binary64Facts Py PyFacts Trader.

(** The two literals of the fee computations. *)
Lemma literal_12_10 : exists c, literal 12 10 = Finite c /\ 0 <= c <= 2 ^ 1075.
Proof. eexists. split; [vm_compute; reflexivity|]. split; vm_compute; discriminate. Qed.

Lemma literal_1_10 : exists c, literal 1 10 = Finite c /\ 0 <= c <= 2 ^ 1075.
Proof. eexists. split; [vm_compute; reflexivity|]. split; vm_compute; discriminate. Qed.

(** [int(n * x)] returns for every uint256 [n] and every double [x]
    between 0 and 2. *)
Lemma scale_int_uint256 n c :
  0 <= n < 2 ^ 256 -> 0 <= c <= 2 ^ 1075 ->
  exists v, scale_int n (Finite c) = Ok v /\ 0 <= v.
Proof.
  intros Hn Hc. pose proof one_q_pos as U.
  destruct (of_int_bounded n 256 ltac:(lia) ltac:(lia)) as (q & E & _ & Hq).
  unfold scale_int, int_mul. rewrite E. cbn [rbind mul].
  destruct (RN_bounded (q * c) one_q 1331) as (p & Ep & _ & Hp); try lia.
  - split; [nia|].
    replace (2 ^ 1331 * one_q) with (2 ^ (256 + 1074) * 2 ^ 1075)
      by (unfold one_q; rewrite <- !Z.pow_add_r by lia; reflexivity).
    apply Z.mul_le_mono_nonneg; lia.
  - rewrite Ep. cbn [to_int]. eexists. split; [reflexivity|].
    apply Z.quot_pos; lia.
Qed.

Lemma fallback_fees_uint256 self gp :
  0 <= gp < 2 ^ 256 ->
  exists buffered tip,
    scale_int gp (literal 12 10) = Ok buffered /\
    scale_int gp (literal 1 10) = Ok tip /\
    fallback_fees self gp = Ok (Z.min buffered (max_gas_price self), tip).
Proof.
  intros H.
  destruct literal_12_10 as (c1 & E1 & B1). destruct literal_1_10 as (c2 & E2 & B2).
  destruct (scale_int_uint256 gp c1 H B1) as (v1 & S1 & _).
  destruct (scale_int_uint256 gp c2 H B2) as (v2 & S2 & _).
  exists v1, v2. unfold fallback_fees. rewrite E1, E2, S1, S2. cbn [rbind]. auto.
Qed.

Section Engine.

Context {C : client}.

(** Sampling the pending pool never raises: a transaction that cannot
    be fetched is skipped. *)
Lemma sample_pending_total hashes acc : total (C := C) (sample_pending hashes acc).
Proof.
  revert acc. induction hashes as [|h rest IH]; intros acc s; cbn [sample_pending].
  - exists acc, s. reflexivity.
  - unfold bind at 1. unfold try_except.
    unfold bind at 1. 
    destruct (call (get_transaction h) s) as [[tx|e] s1].
    + destruct (maxFeePerGas tx); cbn; apply IH.
    + cbn. apply IH.
Qed.


(** The handler of [get_optimal_gas_price], once its body has raised. *)
Lemma fallback_returns self (s : state C) gp w :
  node C Z gas_price (chain s) = (Ok gp, w) ->
  0 <= gp < 2 ^ 256 ->
  exists buffered tip,
    scale_int gp (literal 12 10) = Ok buffered /\
    scale_int gp (literal 1 10) = Ok tip /\
    bind (call gas_price) (fun gp => lift (fallback_fees self gp)) s
    = (Ok (Z.min buffered (max_gas_price self), tip),
       after s gas_price (Ok gp) w).
Proof.
  intros Hn Hgp.
  destruct (fallback_fees_uint256 self gp Hgp) as (b & t & E1 & E2 & E3).
  exists b, t. split; [exact E1|]. split; [exact E2|].
  rewrite (bind_run _ _ _ _ _ (call_run _ _ _ _ Hn)).
  unfold lift. rewrite E3. reflexivity.
Qed.

(** C3 (amended).  [get_optimal_gas_price] returns a pair whenever the
    node answers the gas-price query with a uint256.  When the fetch of
    the latest block or of the pending block fails, the pair is
    [(min(int(gasPrice * 1.2), ceiling), int(gasPrice * 0.1))].  A
    sampled pending transaction that cannot be fetched is skipped, the
    sampling itself never raises.  When the gas-price query of the
    fallback fails as well, its exception leaves the method. *)
Theorem gas_plan_fallback self (s : state C) :
  ((forall w, exists gp w',
       node C Z gas_price w = (Ok gp, w') /\ 0 <= gp < 2 ^ 256) ->
   exists max_fee priority_fee s',
     get_optimal_gas_price self s = (Ok (max_fee, priority_fee), s'))
  /\
  (forall e w1 gp w2,
      node C block (get_block latest) (chain s) = (Raise e, w1) ->
      node C Z gas_price w1 = (Ok gp, w2) ->
      0 <= gp < 2 ^ 256 ->
      exists buffered tip s',
        scale_int gp (literal 12 10) = Ok buffered /\
        scale_int gp (literal 1 10) = Ok tip /\
        get_optimal_gas_price self s
        = (Ok (Z.min buffered (max_gas_price self), tip), s') /\
        chain s' = w2)
  /\
  (forall lb w1 base e w2 gp w3,
      node C block (get_block latest) (chain s) = (Ok lb, w1) ->
      baseFeePerGas lb = Some base ->
      node C block (get_block pending) w1 = (Raise e, w2) ->
      node C Z gas_price w2 = (Ok gp, w3) ->
      0 <= gp < 2 ^ 256 ->
      exists buffered tip s',
        scale_int gp (literal 12 10) = Ok buffered /\
        scale_int gp (literal 1 10) = Ok tip /\
        get_optimal_gas_price self s
        = (Ok (Z.min buffered (max_gas_price self), tip), s') /\
        chain s' = w3)
  /\
  (forall e w1 e' w2,
      node C block (get_block latest) (chain s) = (Raise e, w1) ->
      node C Z gas_price w1 = (Raise e', w2) ->
      exists s', get_optimal_gas_price self s = (Raise e', s'))
  /\
  (forall hashes acc (s0 : state C), exists prices s',
      sample_pending hashes acc s0 = (Ok prices, s')).
Proof.
  repeat split.
  - intros Hgp. unfold get_optimal_gas_price, try_except.
    match goal with
    | |- context [match ?b s with _ => _ end] =>
        destruct (b s) as [[[mf pf]|e] s1]
    end.
    + eauto.
    + destruct (Hgp (chain s1)) as (gp & w' & Hn & B).
      destruct (fallback_returns self s1 gp w' Hn B) as (b & t & _ & _ & E).
      rewrite E. eauto.
  - intros e w1 gp w2 Hl Hn B.
    destruct (fallback_returns self (after s (get_block latest) (Raise e) w1)
                gp w2 Hn B) as (b & t & E1 & E2 & E).
    exists b, t. eexists. split; [exact E1|]. split; [exact E2|].
    unfold get_optimal_gas_price.
    rewrite (try_except_raise _ _ s e (after s (get_block latest) (Raise e) w1)).
    + rewrite E. split; reflexivity.
    + apply bind_raise. apply call_run. exact Hl.
  - intros lb w1 base e w2 gp w3 Hl Hb Hp Hn B.
    set (s1 := after s (get_block latest) (Ok lb) w1).
    set (s2 := after s1 (get_block pending) (Raise e) w2).
    destruct (fallback_returns self s2 gp w3 Hn B) as (b & t & E1 & E2 & E).
    exists b, t. eexists. split; [exact E1|]. split; [exact E2|].
    unfold get_optimal_gas_price.
    rewrite (try_except_raise _ _ s e s2).
    + rewrite E. split; reflexivity.
    + rewrite (bind_run _ _ _ _ _ (call_run _ _ _ _ Hl)). fold s1.
      unfold lift at 1. rewrite Hb. cbn [item]. unfold bind at 1.
      apply bind_raise. apply call_run. exact Hp.
  - intros e w1 e' w2 Hl Hn. eexists.
    unfold get_optimal_gas_price.
    rewrite (try_except_raise _ _ s e (after s (get_block latest) (Raise e) w1)).
    + apply bind_raise. apply call_run. exact Hn.
    + apply bind_raise. apply call_run. exact Hl.
  - intros hashes acc s0. apply sample_pending_total.
Qed.

(** C10.  The priority fee is not floored at zero.  When the pending
    pool yields samples whose median is below the base fee of the
    latest block, [get_optimal_gas_price] returns the negative
    priority fee [median - base_fee], and the max fee is
    [min(int(median * 1.2), ceiling)], which no longer depends on the
    base fee. *)
Theorem priority_fee_not_floored self (s : state C)
    lb w1 base pb w2 hashes prices s3 m :
  node C block (get_block latest) (chain s) = (Ok lb, w1) ->
  baseFeePerGas lb = Some base ->
  node C block (get_block pending) w1 = (Ok pb, w2) ->
  transactions pb = Some hashes ->
  sample_pending (firstn 10 hashes) []
    (after (after s (get_block latest) (Ok lb) w1) (get_block pending) (Ok pb) w2)
  = (Ok prices, s3) ->
  prices <> [] ->
  median prices = Ok m ->
  0 <= m < 2 ^ 256 ->
  m < base ->
  exists buffered,
    scale_int m (literal 12 10) = Ok buffered /\
    get_optimal_gas_price self s
    = (Ok (Z.min buffered (max_gas_price self), m - base), s3) /\
    m - base < 0.
Proof.
  intros Hl Hb Hp Ht Hs Hne Hm Bm Hlt.
  destruct literal_12_10 as (c & Ec & Bc).
  destruct (scale_int_uint256 m c Bm Bc) as (v & Ev & _).
  rewrite <- Ec in Ev.
  exists v. split; [exact Ev|]. split; [|lia].
  unfold get_optimal_gas_price. apply try_except_ok.
  rewrite (bind_run _ _ _ _ _ (call_run _ _ _ _ Hl)).
  unfold lift at 1. rewrite Hb. cbn [item]. unfold bind at 1.
  rewrite (bind_run _ _ _ _ _
             (call_run (get_block pending)
                (after s (get_block latest) (Ok lb) w1) _ _ Hp)).
  rewrite Ht.
  unfold bind at 1. unfold bind at 1. rewrite Hs.
  unfold lift at 1, priority_fee_of.
  destruct prices as [|p ps]; [congruence|]. rewrite Hm. cbn [rbind].
  unfold bind at 1, lift at 1, capped_max_fee.
  assert (Eg : Z.min (m - base) (gwei 3) = m - base).
  { apply Z.min_l. unfold gwei. lia. }
  rewrite Eg. replace (base + (m - base)) with m by lia.
  rewrite Ev. cbn [rbind]. reflexivity.
Qed.

End Engine.

Import Scenario.


(** C3, as stated, fails: when the node serves neither blocks nor a gas
    price, the exception of the fallback's own query leaves
    [get_optimal_gas_price]. *)
Lemma gas_plan_raises_when_offline :
  fst (run offline (get_optimal_gas_price (init env0))) = Raise down.
Proof. vm_compute. reflexivity. Qed.

Lemma scripted_gas_price sc gp :
  s_gas_price sc = Ok gp -> 0 <= gp < 2 ^ 256 ->
  forall w, exists gp' w',
    node (scripted sc) Z gas_price w = (Ok gp', w') /\ 0 <= gp' < 2 ^ 256.
Proof. intros E B w. exists gp, w. cbn [node scripted answer]. rewrite E. auto. Qed.

Lemma gwei_31_uint256 : 0 <= gwei 31 < 2 ^ 256.
Proof. split; vm_compute; [discriminate | reflexivity]. Qed.

(** [gas_plan_fallback] on four nodes: one that serves no block, one that
    serves no pending block, one whose pooled transactions cannot be
    fetched, and one that is offline. *)
Lemma gas_plan_fallback_witness :
  (exists max_fee priority_fee s',
      get_optimal_gas_price (init env0) (start no_blocks)
      = (Ok (max_fee, priority_fee), s'))
  /\ fst (run no_blocks (get_optimal_gas_price (init env0)))
     = Ok (37200000000, 3100000000)
  /\ fst (run no_pending_block (get_optimal_gas_price (init env0)))
     = Ok (37200000000, 3100000000)
  /\ (exists s', get_optimal_gas_price (init env0) (start offline)
                 = (Raise down, s'))
  /\ (exists prices s',
         sample_pending [[Byte.x01]; [Byte.x02]] []
           (start no_pooled_transactions) = (Ok prices, s')).
Proof.
  split; [|split; [|split; [|split]]].
  - destruct (gas_plan_fallback (C := scripted no_blocks) (init env0)
                (start no_blocks)) as (A & _).
    apply A. apply (scripted_gas_price no_blocks (gwei 31) eq_refl gwei_31_uint256).
  - destruct (gas_plan_fallback (C := scripted no_blocks) (init env0)
                (start no_blocks)) as (_ & B & _).
    destruct (B down 0%nat (gwei 31) 0%nat eq_refl eq_refl gwei_31_uint256)
      as (b & t & s' & E1 & E2 & E & _).
    unfold run. rewrite E.
    vm_compute in E1. vm_compute in E2.
    injection E1 as <-. injection E2 as <-. reflexivity.
  - destruct (gas_plan_fallback (C := scripted no_pending_block) (init env0)
                (start no_pending_block)) as (_ & _ & B & _).
    destruct (B (block_with_base_fee (gwei 30)) 0%nat (gwei 30) down 0%nat
                (gwei 31) 0%nat eq_refl eq_refl eq_refl eq_refl gwei_31_uint256)
      as (b & t & s' & E1 & E2 & E & _).
    unfold run. rewrite E.
    vm_compute in E1. vm_compute in E2.
    injection E1 as <-. injection E2 as <-. reflexivity.
  - destruct (gas_plan_fallback (C := scripted offline) (init env0)
                (start offline)) as (_ & _ & _ & B & _).
    apply (B down 0%nat down 0%nat eq_refl eq_refl).
  - destruct (gas_plan_fallback (C := scripted no_pooled_transactions) (init env0)
                (start no_pooled_transactions)) as (_ & _ & _ & _ & B).
    apply B.
Defined.

(** [priority_fee_not_floored] on a node whose base fee is 100 gwei and
    whose pool offers 12, 8 and 10 gwei: the median is 10 gwei, the
    priority fee is -90 gwei, and the max fee of 12 gwei is below the
    base fee. *)
Lemma priority_fee_not_floored_witness :
  fst (run cheap_pool (get_optimal_gas_price (init env0)))
  = Ok (gwei 12, - gwei 90)
  /\ gwei 12 < gwei 100.
Proof.
  split; [|vm_compute; reflexivity].
  destruct (priority_fee_not_floored (C := scripted cheap_pool) (init env0)
              (start cheap_pool)
              (block_with_base_fee (gwei 100)) 0%nat (gwei 100)
              {| baseFeePerGas := None;
                 transactions := Some [[Byte.x01]; [Byte.x02]; [Byte.x03]];
                 timestamp := None |} 0%nat
              [[Byte.x01]; [Byte.x02]; [Byte.x03]]
              [gwei 12; gwei 8; gwei 10]
              (snd (sample_pending (C := scripted cheap_pool)
                      [[Byte.x01]; [Byte.x02]; [Byte.x03]] []
                      (after (after (start cheap_pool) (get_block latest)
                                (Ok (block_with_base_fee (gwei 100))) 0%nat)
                         (get_block pending)
                         (Ok {| baseFeePerGas := None;
                                transactions :=
                                  Some [[Byte.x01]; [Byte.x02]; [Byte.x03]];
                                timestamp := None |}) 0%nat)))
              (gwei 10))
    as (b & E1 & E & _).
  - reflexivity.
  - reflexivity.
  - reflexivity.
  - reflexivity.
  - apply run_eq. vm_compute. reflexivity.
  - discriminate.
  - vm_compute. reflexivity.
  - split; vm_compute; [discriminate | reflexivity].
  - vm_compute. reflexivity.
  - unfold run. rewrite E. vm_compute in E1. injection E1 as <-.
    vm_compute. reflexivity.
Defined.

End GasFacts.

(** ** What a method adds to the log *)

Module LogFacts.

Import Py PyFacts Scenario.

Section Log.

Context {C : client}.

(** The state after [time.sleep(seconds)]. *)
Definition slept (s : state C) (seconds : Z) : state C :=
{| chain := elapse C seconds (chain s); log := log s ++ [Slept seconds] |}.

Lemma sleep_run (s : state C) seconds : sleep seconds s = (Ok tt, slept s seconds).
Proof. reflexivity. Qed.

(** [emits n p m]: whatever [m] does, it only appends to the log, and at
    most [n] of the appended events satisfy [p]. *)
Definition emits (n : nat) (p : event -> bool) {A} (m : M C A) : Prop :=
forall s r s', m s = (r, s') ->
  exists new, log s' = log s ++ new /\ (count p new <= n)%nat.

Lemma count_app p l1 l2 : count p (l1 ++ l2) = (count p l1 + count p l2)%nat.
Proof. unfold count. rewrite filter_app, length_app. reflexivity. Qed.

Lemma emits_weaken n n' p {A} (m : M C A) :
  (n <= n')%nat -> emits n p m -> emits n' p m.
Proof.
intros Hn H s r s' E. destruct (H s r s' E) as (new & El & Hc).
exists new. split; [exact El | lia].
Qed.

Lemma emits_ret p {A} (a : A) : emits 0 p (ret a).
Proof.
intros s r s' E. injection E as <- <-. exists []. rewrite app_nil_r. auto.
Qed.

Lemma emits_lift p {A} (x : result A) : emits 0 p (lift x).
Proof.
intros s r s' E. injection E as <- <-. exists []. rewrite app_nil_r. auto.
Qed.

Lemma emits_raise p {A} (e : exn) : emits 0 p (raise (A := A) e).
Proof.
intros s r s' E. injection E as <- <-. exists []. rewrite app_nil_r. auto.
Qed.

Lemma emits_call_other p {T} (r : rpc T) :
  (forall answer, p (Called r answer) = false) -> emits 0 p (call r).
Proof.
intros Hp s res s' E. unfold call in E.
destruct (node C T r (chain s)) as [answer w]. injection E as <- <-.
exists [Called r answer]. split; [reflexivity|].
unfold count. cbn. rewrite Hp. auto.
Qed.

Lemma emits_call p {T} (r : rpc T) : emits 1 p (call r).
Proof.
intros s res s' E. unfold call in E.
destruct (node C T r (chain s)) as [answer w]. injection E as <- <-.
exists [Called r answer]. split; [reflexivity|].
unfold count. cbn. destruct (p _); cbn; lia.
Qed.

Lemma emits_sleep p seconds : p (Slept seconds) = false -> emits 0 p (sleep seconds).
Proof.
intros Hp s res s' E. injection E as <- <-.
exists [Slept seconds]. split; [reflexivity|].
unfold count. cbn. rewrite Hp. auto.
Qed.

Lemma emits_bind n1 n2 p {A B} (m : M C A) (k : A -> M C B) :
  emits n1 p m -> (forall a, emits n2 p (k a)) -> emits (n1 + n2) p (bind m k).
Proof.
intros Hm Hk s r s' E. unfold bind in E.
destruct (m s) as [[a|e] s1] eqn:Em.
- destruct (Hm s _ _ Em) as (new1 & E1 & C1).
  destruct (Hk a s1 _ _ E) as (new2 & E2 & C2).
  exists (new1 ++ new2). rewrite E2, E1, app_assoc, count_app. split; [reflexivity | lia].
- injection E as <- <-. destruct (Hm s _ _ Em) as (new1 & E1 & C1).
  exists new1. split; [exact E1 | lia].
Qed.

Lemma emits_try n1 n2 p {A} (body : M C A) (handler : exn -> M C A) :
  emits n1 p body -> (forall e, emits n2 p (handler e)) ->
  emits (n1 + n2) p (try_except body handler).
Proof.
intros Hm Hk s r s' E. unfold try_except in E.
destruct (body s) as [[a|e] s1] eqn:Em.
- injection E as <- <-. destruct (Hm s _ _ Em) as (new1 & E1 & C1).
  exists new1. split; [exact E1 | lia].
- destruct (Hm s _ _ Em) as (new1 & E1 & C1).
  destruct (Hk e s1 _ _ E) as (new2 & E2 & C2).
  exists (new1 ++ new2). rewrite E2, E1, app_assoc, count_app. split; [reflexivity | lia].
Qed.

Lemma emits_bind0 p {A B} (m : M C A) (k : A -> M C B) :
  emits 0 p m -> (forall a, emits 0 p (k a)) -> emits 0 p (bind m k).
Proof. intros Hm Hk. apply (emits_bind 0 0); assumption. Qed.

(** Nothing follows a pure computation that raises. *)
Lemma emits_bind_lift_raise p {A B} (e : exn) (k : A -> M C B) :
  emits 0 p (bind (lift (Raise e)) k).
Proof.
intros s r s' E. injection E as <- <-. exists []. rewrite app_nil_r. auto.
Qed.

End Log.

End LogFacts.

(** ** Selling *)

Module SellFacts.

Import Binary64 Py PyFacts Trader Scenario LogFacts.
Local Open Scope string_scope.
Local Open Scope Z_scope.

Section Engine.

Context {C : client}.

Lemma call_at {T} (r : rpc T) (w : world C) l answer w' :
  node C T r w = (answer, w') ->
  call r {| chain := w; log := l |}
  = (answer, {| chain := w'; log := l ++ [Called r answer] |}).
Proof. unfold call. cbn [chain log]. intros ->. reflexivity. Qed.

Lemma bind_lift_ok {A B} (r : result A) (k : A -> M C B) a s :
  r = Ok a -> bind (lift r) k s = k a s.
Proof. intros ->. reflexivity. Qed.

Lemma bind_lift_raise {A B} (r : result A) (k : A -> M C B) e s :
  r = Raise e -> bind (lift r) k s = (Raise e, s).
Proof. intros ->. reflexivity. Qed.

Definition no_router_address : string :=
  "'MEVProtectedBuyer' object has no attribute 'router_address'".

Lemma init_has_no_router_address env :
  get_router_address (init env) = Raise (AttributeError no_router_address).
Proof. reflexivity. Qed.

(** On an instance built by [__init__], the body of [sell_tokens] never
    returns: it raises at the latest when it reads [self.router_address]. *)
Lemma sell_body_raises env token_address amount min_eth_received slippage
    (s : state C) :
  exists msg s',
    sell_tokens (init env) token_address amount min_eth_received slippage s
    = (Ok (SellFailed msg), s').
Proof.
unfold sell_tokens, try_except.
match goal with
| |- context [match ?b s with _ => _ end] => destruct (b s) as [[d|e] s1] eqn:Body
end; [exfalso | eexists; eexists; reflexivity].
apply bind_ok in Body as (tok & s2 & _ & Body).
match type of Body with
| (if ?c then _ else _) _ = _ => destruct c; [discriminate|]
end.
apply bind_ok in Body as (? & s3 & _ & Body).
apply bind_ok in Body as (symbol & s4 & _ & Body).
apply bind_ok in Body as (decimals & s5 & _ & Body).
apply bind_ok in Body as (balance & s6 & _ & Body).
match type of Body with
| (if ?c then _ else _) _ = _ => destruct c; [discriminate|]
end.
apply bind_ok in Body as (scale & s7 & _ & Body).
apply bind_ok in Body as (units & s8 & _ & Body).
match type of Body with
| (if ?c then _ else _) _ = _ => destruct c
end.
- apply bind_ok in Body as (held & s9 & _ & Body). discriminate.
- apply bind_ok in Body as (spender & s9 & Hs & _).
  apply lift_ok in Hs as [Hs _]. discriminate.
Qed.

(** ... and before that it neither builds nor broadcasts anything. *)
Lemma sell_emits_nothing p env token_address amount min_eth_received slippage :
  (forall T (r : rpc T) answer,
      p (Called r answer) = true ->
      is_build (Called r answer) = true \/ is_broadcast (Called r answer) = true) ->
  emits (C := C) 0 p
    (sell_tokens (init env) token_address amount min_eth_received slippage).
Proof.
intros Hp.
assert (Hcall : forall T (r : rpc T),
           (forall answer, is_build (Called r answer) = false) ->
           (forall answer, is_broadcast (Called r answer) = false) ->
           emits (C := C) 0 p (call r)).
{ intros T r H1 H2. apply emits_call_other. intros answer.
  destruct (p (Called r answer)) eqn:E; [|reflexivity].
  destruct (Hp _ _ _ E) as [H|H]; [rewrite H1 in H | rewrite H2 in H]; discriminate. }
unfold sell_tokens.
apply (emits_try 0 0); [|intros e; apply emits_ret].
apply emits_bind0; [apply emits_lift|]. intros tok.
match goal with |- emits _ _ (if ?c then _ else _) => destruct c end;
  [apply emits_raise|].
apply emits_bind0; [apply Hcall; reflexivity|]. intros _.
apply emits_bind0; [apply Hcall; reflexivity|]. intros symbol.
apply emits_bind0; [apply Hcall; reflexivity|]. intros decimals.
apply emits_bind0; [apply Hcall; reflexivity|]. intros balance.
match goal with |- emits _ _ (if ?c then _ else _) => destruct c end;
  [apply emits_raise|].
apply emits_bind0; [apply emits_lift|]. intros scale.
apply emits_bind0; [apply emits_lift|]. intros units.
match goal with |- emits _ _ (if ?c then _ else _) => destruct c end.
- apply emits_bind0; [apply emits_lift|]. intros held. apply emits_raise.
- rewrite init_has_no_router_address. apply emits_bind_lift_raise.
Qed.

(** C2.  No statement of the class assigns [router_address], so on an
    instance built by [__init__] every call of [sell_tokens] returns the
    failure dictionary, and the log gains neither a built transaction nor
    a broadcast.  When the inputs pass the validation (a valid token
    address, a slippage strictly between 0 and 100, a nonzero token
    balance, an amount within the balance), the error is the
    [AttributeError] of the missing attribute, raised right after the
    balance has been read. *)
Theorem sell_tokens_stops_at_router_address env token_address amount
    min_eth_received slippage (s : state C) :
  (exists msg s' new,
      sell_tokens (init env) token_address amount min_eth_received slippage s
      = (Ok (SellFailed msg), s') /\
      success (SellFailed msg) = false /\
      log s' = (log s ++ new)%list /\
      count is_build new = 0%nat /\ count is_broadcast new = 0%nat)
  /\
  (forall tok sl w1 symbol w2 decimals w3 balance w4 scale units,
      to_checksum_address C token_address = Ok tok ->
      sl = match slippage with Some x => x | None => DEFAULT_SLIPPAGE env end ->
      leb sl zero = false ->
      leb (Finite (100 * one_q)) sl = false ->
      node C unit (load_abi_file "abis/ERC20.json") (chain s) = (Ok tt, w1) ->
      node C string (call_symbol tok) w1 = (Ok symbol, w2) ->
      node C N (call_decimals tok) w2 = (Ok decimals, w3) ->
      node C Z (call_balanceOf tok (WALLET_ADDRESS env)) w3 = (Ok balance, w4) ->
      balance <> 0 ->
      of_int (10 ^ Z.of_N decimals) = Ok scale ->
      to_int (mul amount scale) = Ok units ->
      units <= balance ->
      exists s',
        sell_tokens (init env) token_address amount min_eth_received slippage s
        = (Ok (SellFailed no_router_address), s') /\
        chain s' = w4 /\
        log s' = (log s ++
                 [Called (load_abi_file "abis/ERC20.json") (Ok tt);
                  Called (call_symbol tok) (Ok symbol);
                  Called (call_decimals tok) (Ok decimals);
                  Called (call_balanceOf tok (WALLET_ADDRESS env)) (Ok balance)])%list).
Proof.
split.
- destruct (sell_body_raises env token_address amount min_eth_received slippage s)
    as (msg & s' & E).
  destruct (sell_emits_nothing is_build env token_address amount
              min_eth_received slippage
              ltac:(intros T r answer H; left; exact H) s _ _ E)
    as (new & El & Hb).
  destruct (sell_emits_nothing is_broadcast env token_address amount
              min_eth_received slippage
              ltac:(intros T r answer H; right; exact H) s _ _ E)
    as (new' & El' & Hs).
  assert (new' = new) as -> by (rewrite El in El'; apply app_inv_head in El'; auto).
  exists msg, s', new. repeat split; auto; lia.
- intros tok sl w1 symbol w2 decimals w3 balance w4 scale units
    Htok Hsl Hlo Hhi Habi Hsym Hdec Hbal Hnz Hscale Hunits Hle.
  destruct s as [w0 l0]. cbn [chain log] in *.
  eexists. unfold sell_tokens, try_except.
  rewrite (bind_lift_ok _ _ _ _ Htok).
  cbn [default_slippage init]. rewrite <- Hsl, Hlo, Hhi. cbn [orb].
  unfold load_abi.
  rewrite (bind_run _ _ _ _ _ (call_at _ _ _ _ _ Habi)).
  rewrite (bind_run _ _ _ _ _ (call_at _ _ _ _ _ Hsym)).
  rewrite (bind_run _ _ _ _ _ (call_at _ _ _ _ _ Hdec)).
  cbn [wallet_address init].
  rewrite (bind_run _ _ _ _ _ (call_at _ _ _ _ _ Hbal)).
  replace (balance =? 0) with false by (symmetry; apply Z.eqb_neq; exact Hnz).
  rewrite (bind_lift_ok _ _ _ _ Hscale).
  rewrite (bind_lift_ok _ _ _ _ Hunits).
  replace (balance <? units) with false by (symmetry; apply Z.ltb_ge; exact Hle).
  rewrite (bind_lift_raise _ _ _ _ (init_has_no_router_address env)).
  unfold ret. split; [reflexivity|]. split; [reflexivity|].
  cbn [log]. rewrite <- !app_assoc. reflexivity.
Qed.

Lemma call_ok {T} (r : rpc T) (s : state C) a s' :
  call r s = (Ok a, s') ->
  exists w, node C T r (chain s) = (Ok a, w) /\ s' = after s r (Ok a) w.
Proof.
unfold call, after. destruct (node C T r (chain s)) as [answer w].
intros E. injection E as -> <-. exists w. auto.
Qed.

(** On an instance that does have a [router_address], lines 350-366 do
    what the specification says: nothing when the allowance covers the
    amount; otherwise, whenever they complete, exactly the seven
    interactions of an approval, the receipt being awaited last. *)
Lemma approval_when_allowance_short self spender token_address allowance
    amount (s s' : state C) :
  router_address self = Some spender ->
  approve_if_needed self token_address allowance amount s = (Ok tt, s') ->
  (amount <= allowance -> s' = s) /\
  (allowance < amount ->
   exists nonce fee tip unsigned signed tx_hash receipt,
     log s' =
     (log s ++
      [Called (get_transaction_count (wallet_address self)) (Ok nonce);
       Called gas_price (Ok fee);
       Called gas_price (Ok tip);
       Called (build_transaction token_address (approve spender amount)
                 {| p_from := wallet_address self; p_value := None;
                    p_nonce := nonce; p_gas := Some 100000;
                    p_maxFeePerGas := fee; p_maxPriorityFeePerGas := tip;
                    p_type := None |}) (Ok unsigned);
       Called (sign_transaction unsigned (private_key self)) (Ok signed);
       Called (send_raw_transaction (rawTransaction signed)) (Ok tx_hash);
       Called (wait_for_transaction_receipt tx_hash) (Ok receipt)])%list).
Proof.
intros Hr E. unfold approve_if_needed in E.
destruct (allowance <? amount) eqn:Cmp.
- apply Z.ltb_lt in Cmp. split; [lia|]. intros _.
  unfold get_router_address in E. rewrite Hr in E.
  rewrite (bind_lift_ok _ _ spender _ eq_refl) in E.
  apply bind_ok in E as (nonce & s1 & E1 & E). apply call_ok in E1 as (w1 & _ & ->).
  apply bind_ok in E as (fee & s2 & E2 & E). apply call_ok in E2 as (w2 & _ & ->).
  apply bind_ok in E as (tip & s3 & E3 & E). apply call_ok in E3 as (w3 & _ & ->).
  apply bind_ok in E as (unsigned & s4 & E4 & E). apply call_ok in E4 as (w4 & _ & ->).
  apply bind_ok in E as (signed & s5 & E5 & E). apply call_ok in E5 as (w5 & _ & ->).
  apply bind_ok in E as (tx_hash & s6 & E6 & E). apply call_ok in E6 as (w6 & _ & ->).
  apply bind_ok in E as (receipt & s7 & E7 & E). apply call_ok in E7 as (w7 & _ & ->).
  injection E as <-.
  exists nonce, fee, tip, unsigned, signed, tx_hash, receipt.
  cbn [log after]. rewrite <- !app_assoc. reflexivity.
- apply Z.ltb_ge in Cmp. split; [|lia]. intros _.
  injection E as <-. reflexivity.
Qed.

(** C8.  The two public entry points never raise: on every instance, for
    every input and whatever the node answers, [buy_token_protected]
    returns [None] or a string, and [sell_tokens] returns a dictionary
    whose success flag is set, or is unset together with an error string. *)
Theorem entry_points_return_data self token_address eth_amount buy_slippage
    amount min_eth_received sell_slippage (s : state C) :
  (exists (r : option string) s',
      buy_token_protected self token_address eth_amount buy_slippage s
      = (Ok r, s'))
  /\
  (exists d s',
      sell_tokens self token_address amount min_eth_received sell_slippage s
      = (Ok d, s') /\
      ((success d = true /\ error_of d = None) \/
       (success d = false /\ exists msg, error_of d = Some msg))).
Proof.
split.
- unfold buy_token_protected.
  apply try_except_total. intros e. apply ret_total.
- unfold sell_tokens, try_except.
  match goal with
  | |- context [match ?b s with _ => _ end] => destruct (b s) as [[d|e] s1]
  end.
  + exists d, s1. split; [reflexivity|].
    destruct d; [left | right]; cbn; eauto.
  + eexists. eexists. unfold ret. split; [reflexivity|].
    right. cbn. eauto.
Qed.

End Engine.

(** [sell_tokens_stops_at_router_address] on the healthy node: selling
    one token of a balance of 5000. *)
Lemma sell_tokens_stops_at_router_address_witness :
  fst (run healthy (sell_tokens (init env0) "0xToken" one None None))
  = Ok (SellFailed no_router_address)
  /\ count is_build
       (log (snd (run healthy (sell_tokens (init env0) "0xToken" one None None))))
     = 0%nat
  /\ count is_broadcast
       (log (snd (run healthy (sell_tokens (init env0) "0xToken" one None None))))
     = 0%nat.
Proof.
destruct (sell_tokens_stops_at_router_address (C := scripted healthy)
            env0 "0xToken" one None None (start healthy)) as [_ B].
destruct (B "0xToken" (literal 5 10) 0%nat "TKN" 0%nat 18%N 0%nat
            (ether 5000) 0%nat (Finite (10 ^ 18 * one_q)) (10 ^ 18))
  as (s' & E & _ & El).
- reflexivity.
- reflexivity.
- vm_compute. reflexivity.
- vm_compute. reflexivity.
- reflexivity.
- reflexivity.
- reflexivity.
- reflexivity.
- vm_compute. discriminate.
- vm_compute. reflexivity.
- vm_compute. reflexivity.
- vm_compute. discriminate.
- unfold run. rewrite E. cbn [fst snd]. rewrite El.
  split; [reflexivity|]. split; reflexivity.
Defined.

(** C9, at an input where the claim demands an approval: the allowance of
    the router is 0 and one token is to be sold.  The instance built by
    [__init__] has no [router_address], so the allowance is never read and
    no approval is built; the call ends with the [AttributeError] as its
    error string. *)
Theorem approval_never_requested :
  s_allowance healthy = Ok 0
  /\ fst (run healthy (sell_tokens (init env0) "0xToken" one None None))
     = Ok (SellFailed no_router_address)
  /\ count is_approval_build
       (log (snd (run healthy (sell_tokens (init env0) "0xToken" one None None))))
     = 0%nat
  /\ log (snd (run healthy (sell_tokens (init env0) "0xToken" one None None)))
     = [Called (load_abi_file "abis/ERC20.json") (Ok tt);
        Called (call_symbol "0xToken") (Ok "TKN");
        Called (call_decimals "0xToken") (Ok 18%N);
        Called (call_balanceOf "0xToken" "0xWallet") (Ok (ether 5000))].
Proof. vm_compute. repeat split; reflexivity. Qed.

End SellFacts.

(** ** Submitting *)

Module SubmitFacts.

Import Binary64 Py PyFacts Trader Scenario LogFacts SellFacts.
Local Open Scope string_scope.
Local Open Scope Z_scope.

Section Engine.

Context {C : client}.

(** One attempt of the loop whose [try] body raises, in state [s1]: the
    handler sleeps one second and goes on while [attempt < 2], and returns
    [None] at the last attempt. *)
Lemma attempt_raises self signed token_address attempt rest (s : state C) e s1 :
  bind (call (send_raw_transaction (rawTransaction signed)))
    (fun tx_hash =>
       bind (call (wait_for_transaction_receipt tx_hash))
         (fun receipt =>
            if status receipt =? 1 then
              bind (get_token_contract self token_address)
                (fun token_contract =>
                   bind (call (call_balanceOf token_contract (wallet_address self)))
                     (fun token_balance =>
                        bind (lift (from_wei_ether token_balance))
                          (fun _ => ret (Some (hex tx_hash)))))
            else ret None)) s = (Raise e, s1) ->
  submit_with_retries self signed token_address (attempt :: rest) s
  = if attempt <? 2
    then submit_with_retries self signed token_address rest (slept s1 1)
    else (Ok None, s1).
Proof.
intros Body. cbn [submit_with_retries]. unfold try_except. rewrite Body.
destruct (attempt <? 2); reflexivity.
Qed.

Lemma broadcast_refused self signed token_address attempt rest w l e w' :
  node C HexBytes (send_raw_transaction (rawTransaction signed)) w = (Raise e, w') ->
  submit_with_retries self signed token_address (attempt :: rest)
    {| chain := w; log := l |}
  = if attempt <? 2
    then submit_with_retries self signed token_address rest
           (slept {| chain := w';
                     log := l ++ [Called (send_raw_transaction (rawTransaction signed))
                                    (Raise e)] |} 1)
    else (Ok None,
          {| chain := w';
             log := l ++ [Called (send_raw_transaction (rawTransaction signed))
                            (Raise e)] |}).
Proof.
intros H. eapply attempt_raises. apply bind_raise. apply call_at. exact H.
Qed.

Lemma get_token_contract_run self token_address token w l w' :
  to_checksum_address C (strip C token_address) = Ok token ->
  node C unit (load_abi_file "abis/ERC20.json") w = (Ok tt, w') ->
  get_token_contract self token_address {| chain := w; log := l |}
  = (Ok token,
     {| chain := w'; log := l ++ [Called (load_abi_file "abis/ERC20.json") (Ok tt)] |}).
Proof.
intros Htok Habi. unfold get_token_contract, validate_address, load_abi.
rewrite Htok. unfold bind at 1. unfold ret at 1.
rewrite (bind_run _ _ _ _ _ (call_at _ _ _ _ _ Habi)). reflexivity.
Qed.

(** The swap of the sell path is broadcast at most once, and the sell
    path never sleeps. *)
Lemma sell_swap_broadcasts_once self token_address symbol amount units
    min_eth_received slippage :
  emits (C := C) 1 is_broadcast
    (sell_swap self token_address symbol amount units min_eth_received slippage).
Proof.
unfold sell_swap.
apply (emits_bind 0 1); [apply emits_call_other; reflexivity|]. intros amounts_out.
apply (emits_bind 0 1); [apply emits_lift|]. intros expected_eth.
apply (emits_bind 0 1).
{ destruct min_eth_received; [apply emits_ret|].
  apply emits_bind0; [apply emits_lift|]. intros m. apply emits_ret. }
intros min_eth.
apply (emits_bind 0 1); [apply emits_call_other; reflexivity|]. intros now.
apply (emits_bind 0 1); [apply emits_lift|]. intros deadline.
apply (emits_bind 0 1); [apply emits_call_other; reflexivity|]. intros latest_block.
apply (emits_bind 0 1); [apply emits_lift|]. intros base_fee.
apply (emits_bind 0 1); [apply emits_call_other; reflexivity|]. intros priority_fee.
apply (emits_bind 0 1); [apply emits_call_other; reflexivity|]. intros nonce.
apply (emits_bind 0 1); [apply emits_call_other; reflexivity|]. intros swap_txn.
apply (emits_bind 0 1); [apply emits_call_other; reflexivity|]. intros signed_txn.
apply (emits_bind 1 0); [apply emits_call|]. intros tx_hash.
apply emits_bind0; [apply emits_call_other; reflexivity|]. intros receipt.
destruct (status receipt =? 1); [|apply emits_raise].
apply emits_bind0; [apply emits_lift|]. intros eth_amount. apply emits_ret.
Qed.

Lemma sell_swap_never_sleeps self token_address symbol amount units
    min_eth_received slippage :
  emits (C := C) 0 is_sleep
    (sell_swap self token_address symbol amount units min_eth_received slippage).
Proof.
unfold sell_swap.
repeat first
  [ apply emits_ret | apply emits_lift | apply emits_raise
  | apply emits_call_other; reflexivity
  | apply emits_bind0; [|intros ?]
  | match goal with
    | |- emits _ _ (match ?x with _ => _ end) => destruct x
    end ].
Qed.

(** C5 (amended), for the retry loop of [buy_token_protected].  When the
    node refuses every broadcast, exactly three broadcasts are made, with
    one sleep of one second between consecutive ones, and the result is
    [None].  When the first broadcast is accepted, its receipt has status 1
    and the token balance is read, that broadcast is the only one and its
    hash is returned.  A receipt whose status is not 1 ends the loop with
    [None], with no further broadcast and no sleep.  An attempt whose
    broadcast was accepted but whose receipt wait raises is handled like a
    refused broadcast: unless it was the last attempt, the loop sleeps and
    broadcasts again.  The sell path has no retry loop: it broadcasts its
    swap at most once and never sleeps. *)
Theorem submission_attempts self signed token_address (s : state C) :
  ((forall raw w, exists e w',
       node C HexBytes (send_raw_transaction raw) w = (Raise e, w')) ->
   exists e1 e2 e3 s',
     submit_with_retries self signed token_address (range 3) s = (Ok None, s') /\
     log s' =
     (log s ++
      [Called (send_raw_transaction (rawTransaction signed)) (Raise e1);
       Slept 1;
       Called (send_raw_transaction (rawTransaction signed)) (Raise e2);
       Slept 1;
       Called (send_raw_transaction (rawTransaction signed)) (Raise e3)])%list)
  /\
  (forall tx_hash w1 receipt w2 token w3 balance w4,
      node C HexBytes (send_raw_transaction (rawTransaction signed)) (chain s)
      = (Ok tx_hash, w1) ->
      node C Py.receipt (wait_for_transaction_receipt tx_hash) w1 = (Ok receipt, w2) ->
      status receipt = 1 ->
      to_checksum_address C (strip C token_address) = Ok token ->
      node C unit (load_abi_file "abis/ERC20.json") w2 = (Ok tt, w3) ->
      node C Z (call_balanceOf token (wallet_address self)) w3 = (Ok balance, w4) ->
      0 <= balance < 2 ^ 256 ->
      exists s',
        submit_with_retries self signed token_address (range 3) s
        = (Ok (Some (hex tx_hash)), s') /\
        log s' =
        (log s ++
         [Called (send_raw_transaction (rawTransaction signed)) (Ok tx_hash);
          Called (wait_for_transaction_receipt tx_hash) (Ok receipt);
          Called (load_abi_file "abis/ERC20.json") (Ok tt);
          Called (call_balanceOf token (wallet_address self)) (Ok balance)])%list)
  /\
  (forall tx_hash w1 receipt w2,
      node C HexBytes (send_raw_transaction (rawTransaction signed)) (chain s)
      = (Ok tx_hash, w1) ->
      node C Py.receipt (wait_for_transaction_receipt tx_hash) w1 = (Ok receipt, w2) ->
      status receipt <> 1 ->
      exists s',
        submit_with_retries self signed token_address (range 3) s = (Ok None, s') /\
        log s' =
        (log s ++
         [Called (send_raw_transaction (rawTransaction signed)) (Ok tx_hash);
          Called (wait_for_transaction_receipt tx_hash) (Ok receipt)])%list)
  /\
  (forall attempt rest tx_hash w1 e w2,
      node C HexBytes (send_raw_transaction (rawTransaction signed)) (chain s)
      = (Ok tx_hash, w1) ->
      node C Py.receipt (wait_for_transaction_receipt tx_hash) w1 = (Raise e, w2) ->
      submit_with_retries self signed token_address (attempt :: rest) s
      = if attempt <? 2
        then submit_with_retries self signed token_address rest
               (slept (after (after s (send_raw_transaction (rawTransaction signed))
                                (Ok tx_hash) w1)
                         (wait_for_transaction_receipt tx_hash) (Raise e) w2) 1)
        else (Ok None,
              after (after s (send_raw_transaction (rawTransaction signed))
                       (Ok tx_hash) w1)
                (wait_for_transaction_receipt tx_hash) (Raise e) w2))
  /\
  (forall token symbol amount units min_eth_received slippage
          (s0 : state C) r s',
      sell_swap self token symbol amount units min_eth_received slippage s0
      = (r, s') ->
      exists new,
        log s' = (log s0 ++ new)%list /\
        (count is_broadcast new <= 1)%nat /\ count is_sleep new = 0%nat).
Proof.
destruct s as [w0 l0]. cbn [chain log].
split; [|split; [|split; [|split]]].
- intros Hfail.
  destruct (Hfail (rawTransaction signed) w0) as (e1 & w1 & H1).
  destruct (Hfail (rawTransaction signed) (elapse C 1 w1)) as (e2 & w2 & H2).
  destruct (Hfail (rawTransaction signed) (elapse C 1 w2)) as (e3 & w3 & H3).
  exists e1, e2, e3. eexists.
  change (range 3) with [0; 1; 2].
  rewrite (broadcast_refused _ _ _ _ _ _ _ _ _ H1).
  change (0 <? 2) with true. cbv iota. unfold slept. cbn [chain log].
  rewrite (broadcast_refused _ _ _ _ _ _ _ _ _ H2).
  change (1 <? 2) with true. cbv iota. unfold slept. cbn [chain log].
  rewrite (broadcast_refused _ _ _ _ _ _ _ _ _ H3).
  change (2 <? 2) with false. cbv iota.
  split; [reflexivity|]. cbn [log]. rewrite <- !app_assoc. reflexivity.
- intros tx_hash w1 receipt w2 token w3 balance w4 Hs Hw Hst Htok Habi Hbal Hrange.
  eexists. change (range 3) with [0; 1; 2]. cbn [submit_with_retries].
  unfold try_except.
  rewrite (bind_run _ _ _ _ _ (call_at _ _ _ _ _ Hs)).
  rewrite (bind_run _ _ _ _ _ (call_at _ _ _ _ _ Hw)).
  rewrite Hst. change (1 =? 1) with true. cbv iota.
  rewrite (bind_run _ _ _ _ _ (get_token_contract_run _ _ _ _ _ _ Htok Habi)).
  rewrite (bind_run _ _ _ _ _ (call_at _ _ _ _ _ Hbal)).
  assert (Hfw : from_wei_ether balance = Ok balance).
  { unfold from_wei_ether.
    replace (balance <? 0) with false by (symmetry; apply Z.ltb_ge; lia).
    replace (2 ^ 256 - 1 <? balance) with false by (symmetry; apply Z.ltb_ge; lia).
    reflexivity. }
  rewrite (bind_lift_ok _ _ _ _ Hfw). unfold ret.
  split; [reflexivity|]. cbn [log]. rewrite <- !app_assoc. reflexivity.
- intros tx_hash w1 receipt w2 Hs Hw Hst.
  eexists. change (range 3) with [0; 1; 2]. cbn [submit_with_retries].
  unfold try_except.
  rewrite (bind_run _ _ _ _ _ (call_at _ _ _ _ _ Hs)).
  rewrite (bind_run _ _ _ _ _ (call_at _ _ _ _ _ Hw)).
  replace (status receipt =? 1) with false by (symmetry; apply Z.eqb_neq; exact Hst).
  unfold ret. split; [reflexivity|]. cbn [log]. rewrite <- !app_assoc. reflexivity.
- intros attempt rest tx_hash w1 e w2 Hs Hw.
  eapply attempt_raises.
  rewrite (bind_run _ _ _ _ _ (call_at _ _ _ _ _ Hs)).
  apply bind_raise. apply call_at. exact Hw.
- intros token symbol amount units min_eth_received slippage s0 r s' E.
  destruct (sell_swap_broadcasts_once self token symbol amount units
              min_eth_received slippage s0 r s' E) as (new & El & Hb).
  destruct (sell_swap_never_sleeps self token symbol amount units
              min_eth_received slippage s0 r s' E) as (new' & El' & Hs).
  assert (new' = new) as -> by (rewrite El in El'; apply app_inv_head in El'; auto).
  exists new. repeat split; auto; lia.
Qed.

End Engine.

(** [submission_attempts] on five scripted nodes. *)
Lemma submission_attempts_witness :
  (fst (run rejecting (submit_with_retries (init env0) signed0 "0xToken" (range 3)))
   = Ok None
   /\ count is_broadcast
        (log (snd (run rejecting
                     (submit_with_retries (init env0) signed0 "0xToken" (range 3)))))
      = 3%nat
   /\ count is_sleep
        (log (snd (run rejecting
                     (submit_with_retries (init env0) signed0 "0xToken" (range 3)))))
      = 2%nat)
  /\
  (fst (run healthy (submit_with_retries (init env0) signed0 "0xToken" (range 3)))
   = Ok (Some (hex tx_hash0))
   /\ count is_broadcast
        (log (snd (run healthy
                     (submit_with_retries (init env0) signed0 "0xToken" (range 3)))))
      = 1%nat)
  /\
  (fst (run reverting (submit_with_retries (init env0) signed0 "0xToken" (range 3)))
   = Ok None
   /\ count is_broadcast
        (log (snd (run reverting
                     (submit_with_retries (init env0) signed0 "0xToken" (range 3)))))
      = 1%nat
   /\ count is_sleep
        (log (snd (run reverting
                     (submit_with_retries (init env0) signed0 "0xToken" (range 3)))))
      = 0%nat)
  /\
  submit_with_retries (init env0) signed0 "0xToken" [0; 1; 2]
    (start accepted_unconfirmed)
  = submit_with_retries (init env0) signed0 "0xToken" [1; 2]
      (slept (after (after (start accepted_unconfirmed)
                       (send_raw_transaction (rawTransaction signed0))
                       (Ok tx_hash0) 1%nat)
                (wait_for_transaction_receipt tx_hash0)
                (Raise (ClientError "timed out")) 1%nat) 1)
  /\
  (exists new,
      log (snd (run rejecting
                  (sell_swap (with_router_address (init env0)) "0xToken" "TKN"
                     one (10 ^ 18) None (literal 5 10))))
      = ([] ++ new)%list
      /\ (count is_broadcast new <= 1)%nat /\ count is_sleep new = 0%nat).
Proof.
split; [|split; [|split; [|split]]].
- destruct (submission_attempts (C := scripted rejecting) (init env0) signed0
              "0xToken" (start rejecting)) as (A & _).
  destruct A as (e1 & e2 & e3 & s' & E & El).
  { intros raw w. exists down, (S w). reflexivity. }
  unfold run. rewrite E. cbn [fst snd]. rewrite El.
  split; [reflexivity|]. split; reflexivity.
- destruct (submission_attempts (C := scripted healthy) (init env0) signed0
              "0xToken" (start healthy)) as (_ & A & _).
  destruct (A tx_hash0 1%nat
              {| status := 1; gasUsed := 120000; effectiveGasPrice := gwei 31 |}
              1%nat "0xToken" 1%nat (ether 5000) 1%nat)
    as (s' & E & El); try reflexivity.
  { split; vm_compute; [discriminate | reflexivity]. }
  unfold run. rewrite E. cbn [fst snd]. rewrite El.
  split; reflexivity.
- destruct (submission_attempts (C := scripted reverting) (init env0) signed0
              "0xToken" (start reverting)) as (_ & _ & A & _).
  destruct (A tx_hash0 1%nat
              {| status := 0; gasUsed := 21000; effectiveGasPrice := gwei 31 |}
              1%nat)
    as (s' & E & El); try reflexivity.
  { cbn. discriminate. }
  unfold run. rewrite E. cbn [fst snd]. rewrite El.
  split; [reflexivity|]. split; reflexivity.
- destruct (submission_attempts (C := scripted accepted_unconfirmed) (init env0)
              signed0 "0xToken" (start accepted_unconfirmed)) as (_ & _ & _ & A & _).
  apply (A 0 [1; 2] tx_hash0 1%nat (ClientError "timed out") 1%nat);
    reflexivity.
- destruct (submission_attempts (C := scripted rejecting)
              (with_router_address (init env0)) signed0
              "0xToken" (start rejecting)) as (_ & _ & _ & _ & A).
  unfold run.
  exact (A "0xToken" "TKN" one (10 ^ 18) None (literal 5 10) (start rejecting)
           _ _
           (surjective_pairing
              (sell_swap (C := scripted rejecting) (with_router_address (init env0))
                 "0xToken" "TKN" one (10 ^ 18) None (literal 5 10)
                 (start rejecting)))).
Defined.

(** C5, as stated, fails twice.  On the buy path a broadcast that the node
    accepted is repeated when the wait for its receipt raises: three
    broadcasts although the first one succeeded.  On the sell path a
    refused broadcast is not repeated at all: one broadcast, no sleep. *)
Lemma broadcast_count_differs :
  first_broadcast_accepted
    (log (snd (run accepted_unconfirmed
                 (buy_token_protected (init env0) "0xToken" one None))))
  = true
  /\ count is_broadcast
       (log (snd (run accepted_unconfirmed
                    (buy_token_protected (init env0) "0xToken" one None))))
     = 3%nat
  /\ fst (run rejecting
            (sell_tokens (with_router_address (init env0)) "0xToken" one None None))
     = Ok (SellFailed "connection refused")
  /\ count is_broadcast
       (log (snd (run rejecting
                    (sell_tokens (with_router_address (init env0)) "0xToken" one
                       None None))))
     = 1%nat
  /\ count is_sleep
       (log (snd (run rejecting
                    (sell_tokens (with_router_address (init env0)) "0xToken" one
                       None None))))
     = 0%nat.
Proof. vm_compute. repeat split; reflexivity. Qed.

(** C1.  The ceiling [max_gas_price] is "Maximum gas price willing to
    pay" (line 40), and the buy path takes the minimum against it (lines
    114-117); the gas computation of the sell path, line 385, does not.
    On a chain with a base fee of 200 gwei and a suggested tip of 1 gwei,
    under the ceiling of 300 gwei that [__init__] sets: line 385 gives 401
    gwei; the purchase builds its transaction with a max fee of 242.4
    gwei; the sale, on an instance that has a [router_address], builds
    its approval with the node's gas price, 201 gwei, and its swap with
    401 gwei.  On the instance that [__init__] builds, the sale stops at
    the missing attribute before line 385 and builds nothing. *)
Theorem sell_fee_misses_ceiling :
  max_gas_price (init env0) = gwei 300
  /\ sell_max_fee_per_gas (gwei 200) (gwei 1) = gwei 401
  /\ gwei 300 < gwei 401
  /\ built_max_fees
       (log (snd (run congested
                    (buy_token_protected (init env0) "0xToken" one None))))
     = [242400000000]
  /\ 242400000000 <= gwei 300
  /\ built_max_fees
       (log (snd (run congested
                    (sell_tokens (with_router_address (init env0)) "0xToken" one
                       None None))))
     = [gwei 201; gwei 401]
  /\ built_max_fees
       (log (snd (run congested
                    (sell_tokens (init env0) "0xToken" one None None))))
     = [].
Proof. vm_compute. repeat split; try reflexivity; discriminate. Qed.

End SubmitFacts.

(** ** Screening the liquidity *)

Module LiquidityFacts.

Import Binary64 Binary64Facts Py PyFacts Trader Scenario LogFacts SellFacts.
Local Open Scope string_scope.
Local Open Scope Z_scope.

Lemma of_int_zero : of_int 0 = Ok (Finite 0).
Proof. vm_compute. reflexivity. Qed.

(** [float(n)] of a positive uint256 is a positive double. *)
Lemma of_int_positive n :
  0 < n < 2 ^ 256 -> exists q, of_int n = Ok (Finite q) /\ 0 < q.
Proof.
intros Hn. pose proof one_q_pos as U.
destruct (of_int_bounded n 256 ltac:(lia) ltac:(lia)) as (q & E & Eq & _).
exists q. split; [exact E|]. subst q.
assert (H : round_quanta (2 ^ 1074 * 1) 1 <= round_quanta (n * one_q) 1).
{ apply round_quanta_mono; try lia. change (2 ^ 1074) with one_q. nia. }
rewrite round_quanta_pow2 in H by lia.
change (2 ^ 1074) with one_q in H. lia.
Qed.

Section Engine.

Context {C : client}.

(** The inner [try] of [check_token_liquidity] on a quote of zero tokens
    for a token with a supply: the quotient of line 165 is evaluated before
    the test of line 168, and its [ZeroDivisionError] is what the caller
    gets to read. *)
Lemma check_uniswap_zero_output self token_address token_contract eth_amount
    amount_in_wei (s : state C) quoted_in rest w1 total_supply w2 :
  node C (list Z)
    (call_getAmountsOut (router self) amount_in_wei [WETH_ADDRESS; token_address])
    (chain s) = (Ok (quoted_in :: 0 :: rest), w1) ->
  node C Z (call_totalSupply token_contract) w1 = (Ok total_supply, w2) ->
  0 < total_supply < 2 ^ 256 ->
  exists s',
    check_uniswap self token_address token_contract eth_amount amount_in_wei s
    = (Ok (false, zero, "Error checking Uniswap liquidity: division by zero"), s').
Proof.
intros Hq Hs Hpos. destruct s as [w0 l0]. cbn [chain] in Hq.
destruct (of_int_positive total_supply Hpos) as (q & Eq & Hq0).
eexists. unfold check_uniswap, try_except.
rewrite (bind_run _ _ _ _ _ (call_at _ _ _ _ _ Hq)).
rewrite (bind_lift_ok _ _ 0 _ eq_refl).
rewrite (bind_run _ _ _ _ _ (call_at _ _ _ _ _ Hs)).
replace (total_supply =? 0) with false by (symmetry; apply Z.eqb_neq; lia).
rewrite (bind_lift_ok _ _ _ _ of_int_zero).
rewrite (bind_lift_ok _ _ _ _ Eq).
assert (Hdiv : exists r, div (Finite 0) (Finite q) = Ok r).
{ unfold div. destruct q; [lia | eexists; reflexivity | lia]. }
destruct Hdiv as (r & Hdiv).
rewrite (bind_lift_ok _ _ _ _ Hdiv).
rewrite (bind_lift_ok _ _ 0 _ eq_refl).
rewrite (bind_lift_raise (int_truediv (ether 1) 0) _
           (ZeroDivisionError "division by zero") _ eq_refl).
reflexivity.
Qed.

End Engine.

(** C4, at a quote of zero tokens for a token with a supply of a million:
    [check_token_liquidity] answers [ok = False], but the reason it gives is
    the text of a [ZeroDivisionError], not the message about the missing
    output, whose test is never reached. *)
Theorem zero_output_reported_as_division_error :
  s_quote dry_pool (ether 1) = Ok [ether 1; 0]
  /\ s_total_supply dry_pool = Ok (ether 1000000)
  /\ fst (run dry_pool (check_token_liquidity (init env0) "0xToken" one))
     = Ok (false, zero, "Error checking Uniswap liquidity: division by zero")
  /\ "Error checking Uniswap liquidity: division by zero"
     <> "No tokens returned for trade. Insufficient liquidity.".
Proof.
split; [reflexivity|]. split; [reflexivity|].
split; [vm_compute; reflexivity | discriminate].
Qed.

End LiquidityFacts.

(** ** The minimum output *)

Module SlippageFacts.

Import Binary64 Binary64Facts Py Trader.
Local Open Scope Z_scope.

(** The value of [float(quoted) * (1 - slippage/100)] for a uint256 quote
    and a slippage of [a] quanta between 0 and 100: every intermediate
    result is finite, and is the rounding of the exact one. *)
Lemma discounted_value quoted a :
  0 <= quoted < 2 ^ 256 -> 0 <= a <= 100 * one_q ->
  exists Q D Y P,
    Q = round_quanta (quoted * one_q) 1 /\
    D = round_quanta (a * one_q) (100 * one_q) /\
    Y = round_quanta (one_q - D) 1 /\
    P = round_quanta (Q * Y) one_q /\
    0 <= Q /\ 0 <= D <= one_q /\ 0 <= Y <= one_q /\ 0 <= P /\
    discounted quoted (Finite a) = Ok (Finite P).
Proof.
intros Hq Ha. pose proof one_q_pos as U.
destruct (of_int_bounded quoted 256 ltac:(lia) ltac:(lia)) as (Q & EQ & HQ & BQ).
destruct (RN_bounded (a * one_q) (100 * one_q) 1074) as (D & ED & HD & BD);
  [lia | change (2 ^ 1074) with one_q; nia | lia |].
change (2 ^ 1074) with one_q in BD.
destruct (RN_bounded (one_q - D) 1 1074) as (Y & EY & HY & BY);
  [lia | change (2 ^ 1074) with one_q; lia | lia |].
change (2 ^ 1074) with one_q in BY.
change (2 ^ (256 + 1074)) with (2 ^ 1330) in BQ.
destruct (RN_bounded (Q * Y) one_q 1330) as (P & EP & HP & BP);
  [lia | | lia |].
{ split; [nia|]. apply Z.mul_le_mono_nonneg; lia. }
exists Q, D, Y, P. repeat split; try lia; try assumption.
unfold discounted, keep_fraction. rewrite EQ. cbn [rbind].
assert (Ediv : div (Finite a) (Finite (100 * one_q)) = Ok (Finite D)).
{ unfold div. destruct (100 * one_q) as [|b|b] eqn:Eb; [lia | | lia].
  replace (0 <? Z.pos b) with true by (symmetry; apply Z.ltb_lt; lia).
  rewrite ED. reflexivity. }
rewrite Ediv. cbn [rbind]. unfold sub, one. cbn [opp add].
replace (one_q + - D) with (one_q - D) by lia. rewrite EY.
cbn [mul]. rewrite EP. reflexivity.
Qed.

(** C7 (amended).  For a uint256 quote and a slippage strictly between 0
    and 100, the minimum output is the floor of the binary64 value of
    [float(quoted) * (1 - slippage/100)], each operation being rounded to
    the nearest double, and a larger slippage never gives a larger minimum
    output for the same quote. *)
Theorem minimum_output_monotone quoted a1 a2 :
  0 <= quoted < 2 ^ 256 ->
  0 < a1 -> a1 <= a2 -> a2 < 100 * one_q ->
  exists p1 p2,
    discounted quoted (Finite a1) = Ok (Finite p1) /\
    discounted quoted (Finite a2) = Ok (Finite p2) /\
    minimum_output quoted (Finite a1) = Ok (p1 / one_q) /\
    minimum_output quoted (Finite a2) = Ok (p2 / one_q) /\
    0 <= p2 <= p1 /\
    0 <= p2 / one_q <= p1 / one_q.
Proof.
intros Hq H1 H12 H2. pose proof one_q_pos as U.
destruct (discounted_value quoted a1 Hq ltac:(lia))
  as (Q1 & D1 & Y1 & P1 & EQ1 & ED1 & EY1 & EP1 & BQ1 & BD1 & BY1 & BP1 & E1).
destruct (discounted_value quoted a2 Hq ltac:(lia))
  as (Q2 & D2 & Y2 & P2 & EQ2 & ED2 & EY2 & EP2 & BQ2 & BD2 & BY2 & BP2 & E2).
assert (Q2 = Q1) as -> by congruence.
assert (HD : D1 <= D2).
{ subst D1 D2. apply round_quanta_mono; try lia. nia. }
assert (HY : Y2 <= Y1).
{ subst Y1 Y2. apply round_quanta_mono; lia. }
assert (HP : P2 <= P1).
{ subst P1 P2. apply round_quanta_mono; try lia.
  apply Z.mul_le_mono_nonneg_r; [lia|].
  apply Z.mul_le_mono_nonneg_l; lia. }
exists P1, P2. split; [exact E1|]. split; [exact E2|].
unfold minimum_output. rewrite E1, E2. cbn [rbind to_int].
rewrite !Z.quot_div_nonneg by lia.
split; [reflexivity|]. split; [reflexivity|]. split; [lia|].
split; [apply Z.div_pos; lia | apply Z.div_le_mono; lia].
Qed.

(** [minimum_output_monotone] for a quote of 2000 tokens at slippages of
    0.5 and 1 percent: 1990 and 1980. *)
Lemma minimum_output_monotone_witness :
  minimum_output 2000 (Finite (one_q / 2)) = Ok 1990
  /\ minimum_output 2000 (Finite one_q) = Ok 1980
  /\ 1980 <= 1990.
Proof.
destruct (minimum_output_monotone 2000 (one_q / 2) one_q)
  as (p1 & p2 & E1 & E2 & M1 & M2 & _ & B).
- split; vm_compute; [discriminate | reflexivity].
- vm_compute. reflexivity.
- vm_compute. discriminate.
- vm_compute. reflexivity.
- assert (C1 : minimum_output 2000 (Finite (one_q / 2)) = Ok 1990)
    by (vm_compute; reflexivity).
  assert (C2 : minimum_output 2000 (Finite one_q) = Ok 1980)
    by (vm_compute; reflexivity).
  rewrite C1 in M1. rewrite C2 in M2.
  injection M1 as M1. injection M2 as M2.
  split; [exact C1|]. split; [exact C2|].
  rewrite M1, M2. exact (proj2 B).
Defined.

(** C7, as stated, fails: the minimum output is not the floor of the exact
    product.  For a quote of 10 at a slippage of 90, and for a quote of 500
    at a slippage of 7, the doubles give 0 and 464 where the exact values
    10 * 10/100 and 500 * 93/100 are 1 and 465. *)
Lemma minimum_output_below_exact_floor :
  minimum_output 10 (Finite (90 * one_q)) = Ok 0
  /\ 10 * (100 - 90) / 100 = 1
  /\ minimum_output 500 (Finite (7 * one_q)) = Ok 464
  /\ 500 * (100 - 7) / 100 = 465.
Proof. vm_compute. repeat split; reflexivity. Qed.

End SlippageFacts.

(** ** The spend cap *)

Module SpendFacts.

Import Binary64 Binary64Facts Py PyFacts Trader Scenario SellFacts.
Local Open Scope string_scope.
Local Open Scope Z_scope.

Lemma pack_inv n q : pack n = Finite q -> q = n /\ - huge_q < n < huge_q.
Proof.
unfold pack. destruct (huge_q <=? n) eqn:A; [discriminate|].
destruct (n <=? - huge_q) eqn:B; [discriminate|].
intros H. injection H as <-. apply Z.leb_gt in A, B. lia.
Qed.

Lemma of_int_inv n x :
  of_int n = Ok x ->
  x = Finite (round_quanta (n * one_q) 1) /\
  - huge_q < round_quanta (n * one_q) 1 < huge_q.
Proof.
unfold of_int, RN. destruct (pack _) eqn:E; try discriminate.
intros H. injection H as <-. apply pack_inv in E as [-> B]. auto.
Qed.

Lemma RN_zero b : 0 < b -> RN 0 b = Finite 0.
Proof.
intros Hb. destruct (RN_bounded 0 b 0 Hb ltac:(lia) ltac:(lia)) as (q & E & Eq & B).
rewrite E. f_equal.
pose proof (round_quanta_mono 0 b (0 * b) b Hb Hb ltac:(lia)) as H.
pose proof (rne_exact 0 1 ltac:(lia)) as H0.
assert (round_quanta 0 b <= 0).
{ unfold round_quanta, round_pos. cbn [Z.ltb Z.compare].
  rewrite Z.div_0_l by lia. unfold spacing_exp. cbn [Z.log2 Z.sub Z.max Z.opp Z.add Z.compare Z.pow Z.pow_pos Pos.iter Z.mul Pos.mul].
  apply Z.mul_nonpos_nonneg; [|lia]. apply rne_le; lia. }
lia.
Qed.

(** Ints of at most 53 bits are doubles. *)
Lemma small_ints_exact n : 0 <= n < 2 ^ 53 -> exact_double n.
Proof.
intros Hn. pose proof one_q_pos as U. unfold exact_double, of_int, RN.
assert (E : round_quanta (n * one_q) 1 = n * one_q).
{ unfold round_quanta.
  replace (n * one_q <? 0) with false by (symmetry; apply Z.ltb_ge; nia).
  unfold one_q at 1. rewrite <- (Z.mul_1_r (n * 2 ^ 1074)).
  rewrite round_pos_exact by lia. reflexivity. }
rewrite E. rewrite pack_finite; [reflexivity|].
assert (n * one_q < 2 ^ 53 * one_q) by nia.
assert (2 ^ 53 * one_q < huge_q).
{ unfold one_q, huge_q. rewrite <- Z.pow_add_r by lia. apply Z.pow_lt_mono_r; lia. }
nia.
Qed.

Lemma exact_double_RN n : exact_double n -> RN (n * one_q) 1 = Finite (n * one_q).
Proof.
unfold exact_double, of_int. destruct (RN (n * one_q) 1); try discriminate.
intros H. injection H as ->. reflexivity.
Qed.

(** What [spend_cap] computes when it returns. *)
Lemma spend_cap_inv balance gas_price reserve cap :
  spend_cap balance gas_price reserve = Ok cap ->
  exists B G R X V,
    B = round_quanta (balance * one_q) 1 /\
    G = round_quanta (gas_price * 350000 * one_q) 1 /\
    R = round_quanta (reserve * one_q) 1 /\
    X = round_quanta (B - G) 1 /\
    V = round_quanta (X - R) 1 /\
    - huge_q < B < huge_q /\ - huge_q < R < huge_q /\ - huge_q < V < huge_q /\
    cap = Z.max 0 (Z.quot V one_q).
Proof.
unfold spend_cap. intros H.
destruct (of_int balance) as [fb|] eqn:Eb; [|discriminate].
destruct (of_int (gas_price * 350000)) as [fg|] eqn:Eg; [|discriminate].
destruct (of_int reserve) as [fr|] eqn:Er; [|discriminate].
cbn [rbind] in H.
apply of_int_inv in Eb as [-> Bb]. apply of_int_inv in Eg as [-> Bg].
apply of_int_inv in Er as [-> Br].
unfold sub in H. cbn [opp add] in H. unfold RN in H.
match type of H with
| context [pack ?x] => destruct (pack x) as [x'| | |] eqn:Ex
end; cbn [add to_int rbind] in H; try discriminate.
apply pack_inv in Ex as [-> Bx].
unfold RN in H.
match type of H with
| context [pack ?v] => destruct (pack v) as [v'| | |] eqn:Ev
end; cbn [to_int rbind] in H; try discriminate.
apply pack_inv in Ev as [-> Bv]. injection H as <-.
exists (round_quanta (balance * one_q) 1),
  (round_quanta (gas_price * 350000 * one_q) 1),
  (round_quanta (reserve * one_q) 1),
  (round_quanta (round_quanta (balance * one_q) 1
                 - round_quanta (gas_price * 350000 * one_q) 1) 1),
  (round_quanta (round_quanta (round_quanta (balance * one_q) 1
                               - round_quanta (gas_price * 350000 * one_q) 1) 1
                 - round_quanta (reserve * one_q) 1) 1).
rewrite !Z.add_opp_r in *.
repeat split; try reflexivity; try lia.
Qed.

(** When no conversion and no subtraction rounds, the cap is the exact
    integer one. *)
Lemma spend_cap_exact balance gas_price reserve :
  exact_double balance ->
  exact_double (gas_price * 350000) ->
  exact_double reserve ->
  exact_double (balance - gas_price * 350000) ->
  exact_double (balance - gas_price * 350000 - reserve) ->
  spend_cap balance gas_price reserve
  = Ok (Z.max 0 (balance - gas_price * 350000 - reserve)).
Proof.
intros Eb Eg Er Ex Ev. pose proof one_q_pos as U.
unfold spend_cap. rewrite Eb, Eg, Er. cbn [rbind].
unfold sub. cbn [opp add].
replace (balance * one_q + - (gas_price * 350000 * one_q))
  with ((balance - gas_price * 350000) * one_q) by ring.
rewrite (exact_double_RN _ Ex). cbn [add].
replace ((balance - gas_price * 350000) * one_q + - (reserve * one_q))
  with ((balance - gas_price * 350000 - reserve) * one_q) by ring.
rewrite (exact_double_RN _ Ev). cbn [to_int rbind].
rewrite Z.quot_mul by lia. reflexivity.
Qed.

(** The gas cost only lowers the cap: for non-negative amounts the cap
    never exceeds the cap at a gas price of zero, which is the binary64
    value of [balance - reserve]. *)
Lemma spend_cap_below_zero_gas_cap balance gas_price reserve cap :
  0 <= balance -> 0 <= gas_price -> 0 <= reserve ->
  spend_cap balance gas_price reserve = Ok cap ->
  exists cap0, spend_cap balance 0 reserve = Ok cap0 /\ cap <= cap0.
Proof.
intros Hb Hg Hr H. pose proof one_q_pos as U.
destruct (spend_cap_inv _ _ _ _ H)
  as (B & G & R & X & V & EB & EG & ER & EX & EV & BB & BR & BV & Ecap).
assert (B0 : 0 <= B) by (subst B; apply round_quanta_nonneg; nia).
assert (G0 : 0 <= G) by (subst G; apply round_quanta_nonneg; nia).
assert (R0 : 0 <= R) by (subst R; apply round_quanta_nonneg; nia).
assert (IB : round_quanta B 1 = B) by (subst B; apply round_quanta_idem; lia).
assert (IR : round_quanta R 1 = R) by (subst R; apply round_quanta_idem; lia).
assert (HX : X <= B).
{ rewrite <- IB, EX. apply round_quanta_mono; lia. }
set (V0 := round_quanta (B - R) 1).
assert (HV : V <= V0).
{ subst V V0. apply round_quanta_mono; lia. }
assert (HV0 : - R <= V0 <= B).
{ split.
  - rewrite <- IR at 1. rewrite <- round_quanta_opp by lia.
    apply round_quanta_mono; lia.
  - transitivity (round_quanta B 1); [|lia].
    subst V0. apply round_quanta_mono; lia. }
exists (Z.max 0 (Z.quot V0 one_q)). split.
- unfold spend_cap.
  assert (Eb : of_int balance = Ok (Finite B)).
  { unfold of_int, RN. rewrite <- EB. rewrite pack_finite by lia. reflexivity. }
  assert (Er : of_int reserve = Ok (Finite R)).
  { unfold of_int, RN. rewrite <- ER. rewrite pack_finite by lia. reflexivity. }
  rewrite Eb, Er. change (0 * 350000) with 0.
  change (of_int 0) with (Ok (RN (0 * one_q) 1)).
  change (0 * one_q) with 0. rewrite RN_zero by lia. cbn [rbind].
  unfold sub. cbn [opp add]. change (- 0) with 0. rewrite Z.add_0_r.
  assert (E1 : RN B 1 = Finite B).
  { unfold RN. rewrite IB. apply pack_finite. lia. }
  assert (E2 : RN (B - R) 1 = Finite V0).
  { unfold RN. fold V0. apply pack_finite. lia. }
  rewrite E1. cbn [add]. rewrite Z.add_opp_r, E2.
  cbn [to_int rbind]. reflexivity.
- subst cap. apply Z.max_le_compat_l. apply Z.quot_le_mono; lia.
Qed.

(** The double nearest to [n / 10^18] ether, for a uint256 [n] of wei. *)
Lemma float_of_ether_decimal_uint256 n :
  0 <= n < 2 ^ 256 ->
  exists x, float_of_ether_decimal n = Finite x /\
            x = round_quanta (n * one_q) (10 ^ 18) /\ 0 <= x.
Proof.
intros Hn. pose proof one_q_pos as U.
destruct (RN_bounded (n * one_q) (10 ^ 18) (256 + 1074)) as (x & E & Ex & B);
  try lia.
- split; [nia|]. rewrite Z.pow_add_r by lia. change (2 ^ 1074) with one_q.
  assert (n * one_q <= 2 ^ 256 * one_q) by nia. nia.
- exists x. unfold float_of_ether_decimal. rewrite E. split; [reflexivity|].
  split; [exact Ex | lia].
Qed.

Section Engine.

Context {C : client}.

(** With a spend cap of zero below the request, line 223 aborts the build. *)
Lemma clamp_to_zero_aborts eth_amount amount_in_wei :
  0 < amount_in_wei ->
  clamp_amount (C := C) 0 eth_amount amount_in_wei
  = rbind (to_wei_ether C (Finite 0)) (fun w => Ok (Finite 0, w)).
Proof.
intros H. unfold clamp_amount.
replace (0 <? amount_in_wei) with true by (symmetry; apply Z.ltb_lt; lia).
change (from_wei_ether 0) with (Ok 0). cbn [rbind].
unfold float_of_ether_decimal. rewrite Z.mul_0_l.
rewrite RN_zero by lia. reflexivity.
Qed.

(** C6 (amended).  The spend cap is
    [max(0, int(float(balance) - float(maxFee * 350000) - float(reserve)))],
    evaluated on doubles.  It is never negative.  It equals
    [max(0, balance - maxFee * 350000 - reserve)] whenever the three
    operands and the two differences are doubles, and for non-negative
    amounts it never exceeds the cap at a gas price of zero.  A request
    within the cap is left as it is.  A request above the cap is replaced
    by the cap, taken to ether as the nearest double, which is non-negative
    and, provided the request in wei converts back to at most the requested
    double, never above the requested amount.  A cap of zero below the
    request makes [build_optimized_transaction] return [None]. *)
Theorem spend_cap_clamp (self : buyer) :
  (forall balance gas_price reserve cap,
      spend_cap balance gas_price reserve = Ok cap -> 0 <= cap)
  /\
  (forall balance gas_price reserve,
      exact_double balance ->
      exact_double (gas_price * 350000) ->
      exact_double reserve ->
      exact_double (balance - gas_price * 350000) ->
      exact_double (balance - gas_price * 350000 - reserve) ->
      spend_cap balance gas_price reserve
      = Ok (Z.max 0 (balance - gas_price * 350000 - reserve)))
  /\
  (forall balance gas_price reserve cap,
      0 <= balance -> 0 <= gas_price -> 0 <= reserve ->
      spend_cap balance gas_price reserve = Ok cap ->
      exists cap0, spend_cap balance 0 reserve = Ok cap0 /\ cap <= cap0)
  /\
  (forall cap eth_amount amount_in_wei,
      amount_in_wei <= cap ->
      clamp_amount (C := C) cap eth_amount amount_in_wei
      = Ok (eth_amount, amount_in_wei))
  /\
  (forall cap requested amount_in_wei back,
      0 <= cap < amount_in_wei ->
      cap < 2 ^ 256 ->
      float_of_ether_decimal amount_in_wei = Finite back ->
      back <= requested ->
      exists clamped,
        float_of_ether_decimal cap = Finite clamped /\
        0 <= clamped <= requested /\
        clamp_amount (C := C) cap (Finite requested) amount_in_wei
        = rbind (to_wei_ether C (Finite clamped)) (fun w => Ok (Finite clamped, w)))
  /\
  (forall token_address eth_amount slippage (s : state C)
          token s1 ratio message s2 max_fee priority_fee s3 s4 amount_in_wei,
      validate_address self token_address s = (Ok token, s1) ->
      check_token_liquidity self token eth_amount s1
      = (Ok (true, ratio, message), s2) ->
      get_optimal_gas_price self s2 = (Ok (max_fee, priority_fee), s3) ->
      calculate_max_spend self max_fee s3 = (Ok 0, s4) ->
      to_wei_ether C eth_amount = Ok amount_in_wei ->
      0 < amount_in_wei ->
      build_optimized_transaction self token_address eth_amount slippage s
      = (Ok None, s4)).
Proof.
split; [|split; [|split; [|split; [|split]]]].
- intros balance gas_price reserve cap H.
  destruct (spend_cap_inv _ _ _ _ H) as (B & G & R & X & V & _ & _ & _ & _ & _ & _ & _ & _ & E).
  lia.
- apply spend_cap_exact.
- apply spend_cap_below_zero_gas_cap.
- intros cap eth_amount amount_in_wei H. unfold clamp_amount.
  replace (cap <? amount_in_wei) with false by (symmetry; apply Z.ltb_ge; lia).
  reflexivity.
- intros cap requested amount_in_wei back Hc Hu Hback Hle.
  pose proof one_q_pos as U.
  destruct (float_of_ether_decimal_uint256 cap ltac:(lia)) as (x & Ex & Dx & X0).
  exists x. split; [exact Ex|]. split.
  + split; [exact X0|].
    unfold float_of_ether_decimal, RN in Hback.
    apply pack_inv in Hback as [-> _].
    transitivity (round_quanta (amount_in_wei * one_q) (10 ^ 18)); [|exact Hle].
    subst x. apply round_quanta_mono; try lia. nia.
  + unfold clamp_amount.
    replace (cap <? amount_in_wei) with true by (symmetry; apply Z.ltb_lt; lia).
    unfold from_wei_ether.
    replace (cap <? 0) with false by (symmetry; apply Z.ltb_ge; lia).
    replace (2 ^ 256 - 1 <? cap) with false by (symmetry; apply Z.ltb_ge; lia).
    cbn [orb rbind]. rewrite Ex. reflexivity.
- intros token_address eth_amount slippage s token s1 ratio message s2
    max_fee priority_fee s3 s4 amount_in_wei Hv Hl Hg Hm Hw Hpos.
  unfold build_optimized_transaction, try_except.
  rewrite (bind_run _ _ _ _ _ Hv).
  rewrite (bind_run _ _ _ _ _ Hl). cbn [negb].
  rewrite (bind_run _ _ _ _ _ Hg).
  rewrite (bind_run _ _ _ _ _ Hm).
  rewrite (bind_lift_ok _ _ _ _ Hw).
  rewrite (clamp_to_zero_aborts _ _ Hpos).
  destruct (to_wei_ether C (Finite 0)) as [w|e]; reflexivity.
Qed.

End Engine.

Lemma exact_by_computation n :
  of_int n = Ok (Finite (n * one_q)) -> exact_double n.
Proof. intros H. exact H. Qed.

(** [spend_cap_clamp] at a balance of 1 ether with a max fee of 1 gwei
    (cap 0.98965 ether, exactly), at a request of one ether against a cap
    of half an ether, and on a wallet that holds less than the reserve. *)
Lemma spend_cap_clamp_witness :
  0 <= 989650000000000000
  /\ spend_cap (ether 1) (gwei 1) (ether 1 / 100) = Ok 989650000000000000
  /\ (exists cap0, spend_cap (ether 1) 0 (ether 1 / 100) = Ok cap0
                   /\ 989650000000000000 <= cap0)
  /\ clamp_amount (C := scripted healthy) (ether 2) one (ether 1)
     = Ok (one, ether 1)
  /\ (exists clamped,
         float_of_ether_decimal (ether 1 / 2) = Finite clamped
         /\ 0 <= clamped <= one_q
         /\ clamp_amount (C := scripted healthy) (ether 1 / 2) (Finite one_q) (ether 1)
            = rbind (to_wei_ether (scripted healthy) (Finite clamped))
                (fun w => Ok (Finite clamped, w)))
  /\ fst (run poor_wallet
            (build_optimized_transaction (init env0) "0xToken" one (literal 5 10)))
     = Ok None.
Proof.
destruct (spend_cap_clamp (C := scripted healthy) (init env0))
  as (A & B & Cc & D1 & D2 & _).
destruct (spend_cap_clamp (C := scripted poor_wallet) (init env0))
  as (_ & _ & _ & _ & _ & E).
assert (Hcap : spend_cap (ether 1) (gwei 1) (ether 1 / 100) = Ok 989650000000000000).
{ rewrite (B (ether 1) (gwei 1) (ether 1 / 100)).
  - vm_compute. reflexivity.
  - apply exact_by_computation. vm_compute. reflexivity.
  - apply exact_by_computation. vm_compute. reflexivity.
  - apply exact_by_computation. vm_compute. reflexivity.
  - apply exact_by_computation. vm_compute. reflexivity.
  - apply exact_by_computation. vm_compute. reflexivity. }
split; [|split; [|split; [|split; [|split]]]].
- exact (A _ _ _ _ Hcap).
- exact Hcap.
- apply (Cc (ether 1) (gwei 1) (ether 1 / 100)); try exact Hcap;
    vm_compute; discriminate.
- apply D1. vm_compute. discriminate.
- apply (D2 (ether 1 / 2) one_q (ether 1) one_q).
  + split; vm_compute; [discriminate | reflexivity].
  + vm_compute. reflexivity.
  + vm_compute. reflexivity.
  + lia.
- unfold run.
  set (s0 := start poor_wallet).
  set (r1 := validate_address (C := scripted poor_wallet) (init env0) "0xToken" s0).
  set (r2 := check_token_liquidity (C := scripted poor_wallet) (init env0)
               "0xToken" one (snd r1)).
  set (r3 := get_optimal_gas_price (C := scripted poor_wallet) (init env0) (snd r2)).
  set (r4 := calculate_max_spend (C := scripted poor_wallet) (init env0)
               38400000000 (snd r3)).
  set (ratio := match fst r2 with Ok (_, r, _) => r | Raise _ => zero end).
  assert (H1 : r1 = (Ok "0xToken", snd r1))
    by (apply run_eq; vm_compute; reflexivity).
  assert (H2 : r2 = (Ok (true, ratio, "Sufficient liquidity"), snd r2))
    by (apply run_eq; vm_compute; reflexivity).
  assert (H3 : r3 = (Ok (38400000000, 2000000000), snd r3))
    by (apply run_eq; vm_compute; reflexivity).
  assert (H4 : r4 = (Ok 0, snd r4))
    by (apply run_eq; vm_compute; reflexivity).
  rewrite (E "0xToken" one (literal 5 10) s0 "0xToken" (snd r1) ratio
             "Sufficient liquidity" (snd r2) 38400000000 2000000000
             (snd r3) (snd r4) (ether 1) H1 H2 H3 H4).
  + reflexivity.
  + vm_compute. reflexivity.
  + vm_compute. reflexivity.
Defined.

(** C6, as stated, fails: the cap is computed on doubles.  With a balance
    of 1 ether and 1 wei, a max fee of 1 gwei and the reserve of 0.01
    ether, the cap is 1 wei below the exact difference; with a balance of
    1 ether and 100 wei and no gas cost, it is 28 wei above
    [balance - reserve]. *)
Lemma spend_cap_is_rounded :
  spend_cap (ether 1 + 1) (gwei 1) (ether 1 / 100) = Ok 989650000000000000
  /\ Z.max 0 (ether 1 + 1 - gwei 1 * 350000 - ether 1 / 100) = 989650000000000001
  /\ spend_cap (ether 1 + 100) 0 (ether 1 / 100) = Ok 990000000000000128
  /\ ether 1 + 100 - ether 1 / 100 = 990000000000000100.
Proof. vm_compute. repeat split; reflexivity. Qed.

End SpendFacts.

(** ** Buffers on integers *)

Module BufferFacts.

Import Binary64 Binary64Facts Py PyFacts Trader Scenario LogFacts SellFacts SpendFacts.
Local Open Scope Z_scope.

Lemma literal_12_10_between : exists c, literal 12 10 = Finite c /\ one_q <= c <= 2 * one_q.
Proof.
eexists. split; [vm_compute; reflexivity|].
split; vm_compute; discriminate.
Qed.

(** [int(n * x)] for an int [n] of at most 53 bits and a double [x]
    between 1 and 2 lies between [n] and [2 * n]. *)
Lemma scale_int_small n c :
  0 <= n < 2 ^ 53 -> one_q <= c <= 2 * one_q ->
  exists v, scale_int n (Finite c) = Ok v /\ n <= v <= 2 * n.
Proof.
intros Hn Hc. pose proof one_q_pos as U.
pose proof (small_ints_exact n Hn) as En. unfold exact_double in En.
unfold scale_int, int_mul. rewrite En. cbn [rbind mul].
set (P := round_quanta (n * one_q * c) one_q).
assert (Lo : n * one_q <= P).
{ assert (E : round_quanta (n * 2 ^ 1074 * one_q) one_q = n * 2 ^ 1074).
  { unfold round_quanta.
    replace (n * 2 ^ 1074 * one_q <? 0) with false
      by (symmetry; apply Z.ltb_ge; change (2 ^ 1074) with one_q; nia).
    apply round_pos_exact; lia. }
  change (2 ^ 1074) with one_q in E. rewrite <- E. subst P.
  apply round_quanta_mono; try lia.
  apply Z.mul_le_mono_nonneg_r; [lia|].
  apply Z.mul_le_mono_nonneg_l; [nia | lia]. }
assert (Hi : P <= 2 * n * one_q).
{ assert (E : round_quanta (n * 2 ^ 1075 * one_q) one_q = n * 2 ^ 1075).
  { unfold round_quanta.
    assert (0 < 2 ^ 1075) by (apply Z.pow_pos_nonneg; lia).
    replace (n * 2 ^ 1075 * one_q <? 0) with false
      by (symmetry; apply Z.ltb_ge; nia).
    apply round_pos_exact; lia. }
  replace (2 ^ 1075) with (2 * one_q) in E
    by (unfold one_q; rewrite <- Z.pow_succ_r by lia; reflexivity).
  replace (2 * n * one_q) with (n * (2 * one_q)) by ring.
  rewrite <- E. subst P.
  apply round_quanta_mono; try lia.
  apply Z.mul_le_mono_nonneg_r; [lia|].
  replace (n * (2 * one_q) * one_q) with (n * one_q * (2 * one_q)) by ring.
  apply Z.mul_le_mono_nonneg_l; [nia | lia]. }
assert (Fin : RN (n * one_q * c) one_q = Finite P).
{ unfold RN. fold P. apply pack_finite.
  assert (2 * n * one_q < huge_q).
  { assert (2 * n * one_q < 2 ^ 54 * one_q) by nia.
    assert (2 ^ 54 * one_q < huge_q).
    { unfold one_q, huge_q. rewrite <- Z.pow_add_r by lia.
      apply Z.pow_lt_mono_r; lia. }
    lia. }
  assert (0 <= n * one_q) by nia. lia. }
rewrite Fin. cbn [to_int]. eexists. split; [reflexivity|].
assert (0 <= P) by nia.
rewrite Z.quot_div_nonneg by lia. split.
- apply Z.div_le_lower_bound; lia.
- apply Z.div_le_upper_bound; [lia|]. lia.
Qed.

End BufferFacts.

(** ** More on the gas plan *)

Module GasCoverage.

Import Binary64 Binary64Facts Py PyFacts Trader Scenario LogFacts SellFacts
  SpendFacts GasFacts BufferFacts.
Local Open Scope string_scope.
Local Open Scope Z_scope.

Section Engine.

Context {C : client}.

Lemma sample_pending_fetches hashes acc :
  emits (C := C) (List.length hashes) is_pool_fetch (sample_pending hashes acc).
Proof.
revert acc. induction hashes as [|h rest IH]; intros acc; cbn [sample_pending List.length].
- apply emits_ret.
- change (S (List.length rest)) with (1 + List.length rest)%nat.
  apply emits_bind; [|intros prices; apply IH].
  apply (emits_try 1 0); [|intros e; apply emits_ret].
  apply (emits_bind 1 0); [apply emits_call|].
  intros tx. destruct (maxFeePerGas tx); apply emits_ret.
Qed.

Lemma sample_pending_quiet p hashes acc :
  (forall h answer, p (Called (get_transaction h) answer) = false) ->
  emits (C := C) 0 p (sample_pending hashes acc).
Proof.
intros Hp. revert acc.
induction hashes as [|h rest IH]; intros acc; cbn [sample_pending].
- apply emits_ret.
- apply emits_bind0; [|intros prices; apply IH].
  apply (emits_try 0 0); [|intros e; apply emits_ret].
  apply emits_bind0; [apply emits_call_other; apply Hp|].
  intros tx. destruct (maxFeePerGas tx); apply emits_ret.
Qed.

(** [get_optimal_gas_price] is frugal: whatever the size of the pending
    pool, one call fetches at most ten pooled transactions, at most two
    blocks, and asks for the gas price at most once. *)
Theorem gas_plan_is_frugal self (s : state C) r s' :
  get_optimal_gas_price self s = (r, s') ->
  exists new,
    log s' = (log s ++ new)%list /\
    (count is_pool_fetch new <= 10)%nat /\
    (count is_block_fetch new <= 2)%nat /\
    (count is_gas_price_query new <= 1)%nat.
Proof.
intros E.
assert (H1 : emits (C := C) 10 is_pool_fetch (get_optimal_gas_price self)).
{ unfold get_optimal_gas_price.
  apply (emits_try 10 0).
  - apply (emits_bind 0 10); [apply emits_call_other; reflexivity|]. intros lb.
    apply (emits_bind 0 10); [apply emits_lift|]. intros base.
    apply (emits_bind 0 10); [apply emits_call_other; reflexivity|]. intros pb.
    apply (emits_bind 10 0).
    + destruct (transactions pb) as [hashes|]; [|apply (emits_weaken 0); [lia|apply emits_ret]].
      apply (emits_bind 10 0); [|intros prices; apply emits_lift].
      apply (emits_weaken (List.length (firstn 10 hashes))).
      * rewrite length_firstn. lia.
      * apply sample_pending_fetches.
    + intros pf. apply emits_bind0; [apply emits_lift|]. intros mf. apply emits_ret.
  - intros e. apply emits_bind0; [apply emits_call_other; reflexivity|].
    intros gp. apply emits_lift. }
assert (H2 : emits (C := C) 2 is_block_fetch (get_optimal_gas_price self)).
{ unfold get_optimal_gas_price.
  apply (emits_try 2 0).
  - apply (emits_bind 1 1); [apply emits_call|]. intros lb.
    apply (emits_bind 0 1); [apply emits_lift|]. intros base.
    apply (emits_bind 1 0); [apply emits_call|]. intros pb.
    apply emits_bind0.
    + destruct (transactions pb) as [hashes|]; [|apply emits_ret].
      apply emits_bind0; [|intros prices; apply emits_lift].
      apply sample_pending_quiet; reflexivity.
    + intros pf. apply emits_bind0; [apply emits_lift|]. intros mf. apply emits_ret.
  - intros e. apply emits_bind0; [apply emits_call_other; reflexivity|].
    intros gp. apply emits_lift. }
assert (H3 : emits (C := C) 1 is_gas_price_query (get_optimal_gas_price self)).
{ unfold get_optimal_gas_price.
  apply (emits_try 0 1).
  - apply emits_bind0; [apply emits_call_other; reflexivity|]. intros lb.
    apply emits_bind0; [apply emits_lift|]. intros base.
    apply emits_bind0; [apply emits_call_other; reflexivity|]. intros pb.
    apply emits_bind0.
    + destruct (transactions pb) as [hashes|]; [|apply emits_ret].
      apply emits_bind0; [|intros prices; apply emits_lift].
      apply sample_pending_quiet; reflexivity.
    + intros pf. apply emits_bind0; [apply emits_lift|]. intros mf. apply emits_ret.
  - intros e. apply (emits_bind 1 0); [apply emits_call|].
    intros gp. apply emits_lift. }
destruct (H1 s r s' E) as (new & El & B1).
destruct (H2 s r s' E) as (new2 & El2 & B2).
destruct (H3 s r s' E) as (new3 & El3 & B3).
assert (new2 = new) as -> by (rewrite El in El2; apply app_inv_head in El2; auto).
assert (new3 = new) as -> by (rewrite El in El3; apply app_inv_head in El3; auto).
exists new. auto.
Qed.
Lemma try_except_inv {A} (body : M C A) handler (s : state C) r s' :
  try_except body handler s = (r, s') ->
  (exists a, body s = (Ok a, s') /\ r = Ok a) \/
  (exists e s1, body s = (Raise e, s1) /\ handler e s1 = (r, s')).
Proof.
unfold try_except. destruct (body s) as [[a|e] s1]; intros H.
- injection H as <- <-. left. eauto.
- right. eauto.
Qed.

Lemma priority_fee_of_le base prices pf :
  priority_fee_of base prices = Ok pf -> pf <= gwei 3.
Proof.
unfold priority_fee_of. destruct prices as [|p ps].
- intros H. injection H as <-. vm_compute. discriminate.
- destruct (median (p :: ps)); cbn [rbind]; intros H; [|discriminate].
  injection H as <-. apply Z.le_min_r.
Qed.

(** What [get_optimal_gas_price] returns is one of two things.  Either the
    latest block was served with a base fee, the tip is at most 3 gwei and
    the max fee is the capped buffer of base fee plus tip, which covers
    base fee plus tip unless the ceiling binds; or the fallback ran, and
    the pair is the fallback pair of the gas price that the node gave
    last. *)
Theorem gas_plan_shape self (s : state C) max_fee priority_fee s' :
  get_optimal_gas_price self s = (Ok (max_fee, priority_fee), s') ->
  (exists latest_block w1 base_fee,
      node C block (get_block latest) (chain s) = (Ok latest_block, w1) /\
      baseFeePerGas latest_block = Some base_fee /\
      priority_fee <= gwei 3 /\
      capped_max_fee self base_fee priority_fee = Ok max_fee /\
      (0 <= base_fee + priority_fee < 2 ^ 53 ->
       Z.min (base_fee + priority_fee) (max_gas_price self) <= max_fee))
  \/
  (exists s1 gp w,
      node C Z gas_price (chain s1) = (Ok gp, w) /\
      s' = after s1 gas_price (Ok gp) w /\
      fallback_fees self gp = Ok (max_fee, priority_fee)).
Proof.
intros H. unfold get_optimal_gas_price in H.
apply try_except_inv in H as [(a & Body & Ea) | (e & s1 & _ & Hh)].
- left. injection Ea as <-.
  apply bind_ok in Body as (lb & s2 & E1 & Body). apply call_ok in E1 as (w1 & N1 & ->).
  apply bind_ok in Body as (base & s3 & E2 & Body). apply lift_ok in E2 as [E2 ->].
  apply bind_ok in Body as (pb & s4 & _ & Body).
  apply bind_ok in Body as (pf & s5 & Epf & Body).
  apply bind_ok in Body as (mf & s6 & Emf & Body). apply lift_ok in Emf as [Emf ->].
  injection Body as -> -> _.
  exists lb, w1, base. split; [exact N1|].
  split. { unfold item in E2. destruct (baseFeePerGas lb); [congruence | discriminate]. }
  assert (Hpf : priority_fee <= gwei 3).
  { destruct (transactions pb) as [hashes|].
    - apply bind_ok in Epf as (prices & s7 & _ & Epf). apply lift_ok in Epf as [Epf _].
      exact (priority_fee_of_le _ _ _ Epf).
    - injection Epf as <- _. vm_compute. discriminate. }
  split; [exact Hpf|]. split; [exact Emf|].
  intros Hsmall. unfold capped_max_fee in Emf.
  destruct literal_12_10_between as (c & Ec & Bc).
  destruct (scale_int_small _ c Hsmall Bc) as (v & Ev & Bv).
  rewrite Ec, Ev in Emf. cbn [rbind] in Emf. injection Emf as <-. lia.
- right. apply bind_ok in Hh as (gp & s2 & E1 & Hh). apply call_ok in E1 as (w & N & ->).
  apply lift_ok in Hh as [Hh ->]. exists s1, gp, w. auto.
Qed.

(** A pooled transaction contributes no sample when it cannot be fetched
    or declares no [maxFeePerGas]. *)
Lemma sample_pending_nothing hashes :
  (forall h w, In h hashes ->
     exists w',
       (exists e, node C tx_data (get_transaction h) w = (Raise e, w')) \/
       (exists tx, node C tx_data (get_transaction h) w = (Ok tx, w') /\
                   maxFeePerGas tx = None)) ->
  forall acc (s : state C), exists s', sample_pending hashes acc s = (Ok acc, s').
Proof.
induction hashes as [|h rest IH]; intros Hn acc s; cbn [sample_pending].
- eexists. reflexivity.
- destruct s as [w l].
  destruct (Hn h w (or_introl eq_refl)) as (w' & [(e & N) | (tx & N & Ht)]).
  + unfold bind at 1. unfold try_except.
    rewrite (bind_raise _ _ _ _ _ (call_at _ _ _ _ _ N)). unfold ret at 1.
    apply IH. intros h' w0 Hin. apply Hn. right. exact Hin.
  + unfold bind at 1. unfold try_except.
    rewrite (bind_run _ _ _ _ _ (call_at _ _ _ _ _ N)). rewrite Ht. unfold ret at 1.
    apply IH. intros h' w0 Hin. apply Hn. right. exact Hin.
Qed.

(** Without samples the tip is the default of 2 gwei: when the pending
    block carries no list of transactions, or when none of the first ten
    pooled transactions yields a [maxFeePerGas] (the pool is empty, the
    transactions are legacy ones, or they cannot be fetched), the plan is
    [(min(int((base_fee + 2 gwei) * 1.2), ceiling), 2 gwei)]. *)
Theorem default_tip_without_samples self (s : state C)
    latest_block w1 base_fee pending_block w2 :
  node C block (get_block latest) (chain s) = (Ok latest_block, w1) ->
  baseFeePerGas latest_block = Some base_fee ->
  node C block (get_block pending) w1 = (Ok pending_block, w2) ->
  (forall hashes, transactions pending_block = Some hashes ->
     forall h w, In h (firstn 10 hashes) ->
       exists w',
         (exists e, node C tx_data (get_transaction h) w = (Raise e, w')) \/
         (exists tx, node C tx_data (get_transaction h) w = (Ok tx, w') /\
                     maxFeePerGas tx = None)) ->
  0 <= base_fee + gwei 2 < 2 ^ 256 ->
  exists buffered s',
    scale_int (base_fee + gwei 2) (literal 12 10) = Ok buffered /\
    get_optimal_gas_price self s
    = (Ok (Z.min buffered (max_gas_price self), gwei 2), s') /\
    count is_gas_price_query (log s') = count is_gas_price_query (log s).
Proof.
intros N1 Hb N2 Hpool Hrange. destruct s as [w0 l0]. cbn [chain log] in *.
destruct literal_12_10 as (c & Ec & Bc).
destruct (scale_int_uint256 _ c Hrange Bc) as (v & Ev & _). rewrite <- Ec in Ev.
exists v.
assert (Hcap : capped_max_fee self base_fee (gwei 2)
               = Ok (Z.min v (max_gas_price self))).
{ unfold capped_max_fee. rewrite Ev. reflexivity. }
unfold get_optimal_gas_price, try_except.
rewrite (bind_run _ _ _ _ _ (call_at _ _ _ _ _ N1)).
rewrite (bind_lift_ok (item "baseFeePerGas" (baseFeePerGas latest_block)) _
           base_fee _ ltac:(rewrite Hb; reflexivity)).
rewrite (bind_run _ _ _ _ _ (call_at _ _ _ _ _ N2)).
destruct (transactions pending_block) as [hashes|] eqn:Et.
- destruct (sample_pending_nothing (firstn 10 hashes) (Hpool hashes eq_refl) []
              {| chain := w2;
                 log := (l0 ++ [Called (get_block latest) (Ok latest_block)])
                        ++ [Called (get_block pending) (Ok pending_block)] |})
    as (s3 & E3).
  destruct (sample_pending_quiet is_gas_price_query (firstn 10 hashes) []
              ltac:(reflexivity) _ _ _ E3) as (new & El & Hc).
  eexists. split; [exact Ev|].
  unfold bind at 1. unfold bind at 1. rewrite E3.
  unfold lift at 1. cbn [priority_fee_of].
  rewrite (bind_lift_ok _ _ _ _ Hcap). unfold ret.
  split; [reflexivity|].
  rewrite El. cbn [log]. rewrite !count_app.
  change (count is_gas_price_query [Called (get_block latest) (Ok latest_block)])
    with 0%nat.
  change (count is_gas_price_query [Called (get_block pending) (Ok pending_block)])
    with 0%nat.
  lia.
- eexists. split; [exact Ev|].
  unfold bind at 1. unfold ret at 1.
  rewrite (bind_lift_ok _ _ _ _ Hcap). unfold ret.
  split; [reflexivity|].
  cbn [log]. rewrite !count_app.
  change (count is_gas_price_query [Called (get_block latest) (Ok latest_block)])
    with 0%nat.
  change (count is_gas_price_query [Called (get_block pending) (Ok pending_block)])
    with 0%nat.
  lia.
Qed.

(** [estimate_gas_limit] never raises.  When the probe fails the limit is
    350000; when it answers with an estimate below [2^53] the limit is
    [int(estimate * 1.2)], which is at least the estimate and at most twice
    the estimate. *)
Theorem gas_limit_is_buffered_or_default self t (s : state C) :
  (forall e w,
      node C Z (estimate_gas t) (chain s) = (Raise e, w) ->
      estimate_gas_limit self t s = (Ok 350000, after s (estimate_gas t) (Raise e) w))
  /\
  (forall estimated w,
      node C Z (estimate_gas t) (chain s) = (Ok estimated, w) ->
      0 <= estimated < 2 ^ 53 ->
      exists limit,
        estimate_gas_limit self t s
        = (Ok limit, after s (estimate_gas t) (Ok estimated) w) /\
        scale_int estimated (literal 12 10) = Ok limit /\
        estimated <= limit <= 2 * estimated)
  /\
  (forall estimated w,
      node C Z (estimate_gas t) (chain s) = (Ok estimated, w) ->
      exists limit,
        estimate_gas_limit self t s
        = (Ok limit, after s (estimate_gas t) (Ok estimated) w)).
Proof.
split; [|split].
- intros e w N. unfold estimate_gas_limit.
  rewrite (try_except_raise _ _ s e (after s (estimate_gas t) (Raise e) w)).
  + reflexivity.
  + apply bind_raise. apply call_run. exact N.
- intros estimated w N Hsmall.
  destruct literal_12_10_between as (c & Ec & Bc).
  destruct (scale_int_small _ c Hsmall Bc) as (v & Ev & Bv). rewrite <- Ec in Ev.
  exists v. split; [|split; [exact Ev | exact Bv]].
  unfold estimate_gas_limit. apply try_except_ok.
  rewrite (bind_run _ _ _ _ _ (call_run _ _ _ _ N)).
  unfold lift. rewrite Ev. reflexivity.
- intros estimated w N. unfold estimate_gas_limit, try_except.
  rewrite (bind_run _ _ _ _ _ (call_run _ _ _ _ N)).
  unfold lift. destruct (scale_int estimated (literal 12 10)); eexists; reflexivity.
Qed.


End Engine.

(** [gas_plan_is_frugal] on a node whose pending pool holds twelve
    transactions: ten of them are fetched. *)
Lemma gas_plan_is_frugal_witness :
  count is_pool_fetch
    (log (snd (run crowded_pool (get_optimal_gas_price (init env0))))) = 10%nat
  /\ exists new,
       log (snd (get_optimal_gas_price (C := scripted crowded_pool) (init env0)
                   (start crowded_pool)))
       = (log (start crowded_pool) ++ new)%list
       /\ (count is_pool_fetch new <= 10)%nat
       /\ (count is_block_fetch new <= 2)%nat
       /\ (count is_gas_price_query new <= 1)%nat.
Proof.
split; [vm_compute; reflexivity|].
exact (gas_plan_is_frugal (C := scripted crowded_pool) (init env0)
         (start crowded_pool) _ _
         (surjective_pairing
            (get_optimal_gas_price (C := scripted crowded_pool) (init env0)
               (start crowded_pool)))).
Defined.

(** [gas_plan_shape] on the healthy node, where the plan comes from the
    latest block. *)
Lemma gas_plan_shape_witness :
  fst (run healthy (get_optimal_gas_price (init env0)))
  = Ok (38400000000, 2000000000)
  /\ ((exists latest_block w1 base_fee,
          node (scripted healthy) block (get_block latest) (chain (start healthy))
          = (Ok latest_block, w1) /\
          baseFeePerGas latest_block = Some base_fee /\
          2000000000 <= gwei 3 /\
          capped_max_fee (init env0) base_fee 2000000000 = Ok 38400000000 /\
          (0 <= base_fee + 2000000000 < 2 ^ 53 ->
           Z.min (base_fee + 2000000000) (max_gas_price (init env0)) <= 38400000000))
      \/
      (exists s1 gp w,
          node (scripted healthy) Z gas_price (chain s1) = (Ok gp, w) /\
          snd (get_optimal_gas_price (C := scripted healthy) (init env0)
                 (start healthy))
          = after s1 gas_price (Ok gp) w /\
          fallback_fees (init env0) gp = Ok (38400000000, 2000000000))).
Proof.
split; [vm_compute; reflexivity|].
exact (gas_plan_shape (C := scripted healthy) (init env0) (start healthy)
         38400000000 2000000000 _
         (run_eq (get_optimal_gas_price (C := scripted healthy) (init env0)
                    (start healthy))
            (Ok (38400000000, 2000000000))
            ltac:(vm_compute; reflexivity))).
Defined.

(** [default_tip_without_samples] on a node whose two pooled transactions
    cannot be fetched. *)
Lemma default_tip_without_samples_witness :
  fst (run no_pooled_transactions (get_optimal_gas_price (init env0)))
  = Ok (38400000000, gwei 2).
Proof.
destruct (default_tip_without_samples (C := scripted no_pooled_transactions)
            (init env0) (start no_pooled_transactions)
            (block_with_base_fee (gwei 30)) 0%nat (gwei 30)
            {| baseFeePerGas := None;
               transactions := Some [[Byte.x01]; [Byte.x02]];
               timestamp := None |} 0%nat)
  as (buffered & s' & Ev & E & _).
- reflexivity.
- reflexivity.
- reflexivity.
- intros hashes _ h w _. exists w. left. exists down. reflexivity.
- split; vm_compute; [discriminate | reflexivity].
- unfold run. rewrite E. cbn [fst]. vm_compute in Ev. injection Ev as <-.
  reflexivity.
Defined.

(** [gas_limit_is_buffered_or_default] on a node that estimates 150000 gas
    and on one that is offline. *)
Lemma gas_limit_is_buffered_or_default_witness :
  fst (run offline (estimate_gas_limit (init env0) txn0)) = Ok 350000
  /\ fst (run healthy (estimate_gas_limit (init env0) txn0)) = Ok 180000
  /\ 150000 <= 180000 <= 2 * 150000.
Proof.
destruct (gas_limit_is_buffered_or_default (C := scripted offline) (init env0)
            txn0 (start offline)) as (A & _).
destruct (gas_limit_is_buffered_or_default (C := scripted healthy) (init env0)
            txn0 (start healthy)) as (_ & B & B').
split.
- unfold run. rewrite (A down 0%nat eq_refl). reflexivity.
- destruct (B 150000 0%nat eq_refl) as (limit & E & Ev & Bv).
  { split; vm_compute; [discriminate | reflexivity]. }
  destruct (B' 150000 0%nat eq_refl) as (limit' & E').
  vm_compute in Ev. injection Ev as <-.
  unfold run. rewrite E. split; [reflexivity | exact Bv].
Defined.

End GasCoverage.

(** ** The median of the samples *)

Module MedianFacts.

Import Py Trader.
Local Open Scope Z_scope.

Lemma insert_sorted_perm x l : Permutation (x :: l) (insert_sorted x l).
Proof.
induction l as [|y l IH]; cbn [insert_sorted].
- apply Permutation_refl.
- destruct (x <=? y).
  + apply Permutation_refl.
  + eapply Permutation_trans; [apply perm_swap|]. apply perm_skip. exact IH.
Qed.

Lemma sorted_perm l : Permutation l (sorted l).
Proof.
induction l as [|x l IH]; cbn [sorted fold_right].
- apply Permutation_refl.
- eapply Permutation_trans; [apply perm_skip; exact IH|]. apply insert_sorted_perm.
Qed.

Lemma insert_sorted_ascending x l :
  StronglySorted Z.le l -> StronglySorted Z.le (insert_sorted x l).
Proof.
induction 1 as [|y l Hs IH Hy]; cbn [insert_sorted].
- constructor; constructor.
- destruct (x <=? y) eqn:E.
  + apply Z.leb_le in E. constructor.
    * constructor; assumption.
    * constructor; [exact E|].
      eapply Forall_impl; [|exact Hy]. intros z Hz. cbn in Hz. lia.
  + apply Z.leb_gt in E. constructor; [exact IH|].
    eapply Permutation_Forall; [apply insert_sorted_perm|].
    constructor; [lia | exact Hy].
Qed.

Lemma sorted_ascending l : StronglySorted Z.le (sorted l).
Proof.
induction l as [|x l IH]; cbn [sorted fold_right].
- constructor.
- apply insert_sorted_ascending. exact IH.
Qed.

Lemma filter_length_perm (f : Z -> bool) l l' :
  Permutation l l' -> List.length (filter f l) = List.length (filter f l').
Proof.
induction 1 as [|x l l' _ IH|x y l|l l' l'' _ IH1 _ IH2]; cbn [filter].
- reflexivity.
- destruct (f x); cbn [List.length]; congruence.
- destruct (f x), (f y); reflexivity.
- congruence.
Qed.

(** In an ascending list, the element at an index dominates what comes
    before it and is dominated by what comes after. *)
Lemma ascending_split l i m :
  StronglySorted Z.le l -> nth_error l i = Some m ->
  Forall (fun x => x <= m) (firstn (S i) l) /\ Forall (fun x => m <= x) (skipn i l).
Proof.
intros Hs. revert i. induction Hs as [|y l Hs IH Hy]; intros i Hn.
- destruct i; discriminate.
- destruct i as [|i]; cbn [nth_error] in Hn.
  + injection Hn as ->. cbn [firstn skipn]. split.
    * constructor; [lia | constructor].
    * constructor; [lia | exact Hy].
  + destruct (IH i Hn) as [A B]. split.
    * change (firstn (S (S i)) (y :: l)) with (y :: firstn (S i) l).
      constructor; [|exact A].
      apply nth_error_In in Hn.
      rewrite Forall_forall in Hy. apply Hy. exact Hn.
    * exact B.
Qed.

Lemma filter_all (f : Z -> bool) l :
  Forall (fun x => f x = true) l -> filter f l = l.
Proof.
induction 1 as [|x l Hx _ IH]; cbn [filter]; [reflexivity|].
rewrite Hx, IH. reflexivity.
Qed.

(** Line 106 takes the upper median: for a non-empty list of samples,
    [sorted(prices)[len(prices)//2]] is one of the samples, more than
    [len//2] of the samples are at most it, and at least [len - len//2] of
    them are at least it. *)
Theorem median_is_upper_median prices :
  prices <> [] ->
  exists m,
    median prices = Ok m /\
    In m prices /\
    (Nat.div (List.length prices) 2
     < List.length (filter (fun p => Z.leb p m) prices))%nat /\
    (List.length prices - Nat.div (List.length prices) 2
     <= List.length (filter (fun p => Z.leb m p) prices))%nat.
Proof.
intros Hne.
set (n := List.length prices). set (i := Nat.div n 2).
assert (Hn : (0 < n)%nat).
{ subst n. destruct prices; [congruence | cbn; lia]. }
assert (Hi : (i < n)%nat).
{ subst i. apply Nat.div_lt; lia. }
assert (Hlen : List.length (sorted prices) = n).
{ symmetry. apply Permutation_length. apply sorted_perm. }
destruct (nth_error (sorted prices) i) as [m|] eqn:En.
2:{ apply nth_error_None in En. lia. }
exists m. split.
{ unfold median, subscript. fold n. fold i. rewrite En. reflexivity. }
split.
{ eapply Permutation_in; [apply Permutation_sym; apply sorted_perm|].
  eapply nth_error_In. exact En. }
destruct (ascending_split _ _ _ (sorted_ascending prices) En) as [A B].
split.
- rewrite (filter_length_perm _ _ _ (sorted_perm prices)).
  rewrite <- (firstn_skipn (S i) (sorted prices)) at 1.
  rewrite filter_app, length_app.
  rewrite filter_all.
  + rewrite length_firstn. lia.
  + eapply Forall_impl; [|exact A]. intros x Hx. apply Z.leb_le. exact Hx.
- rewrite (filter_length_perm _ _ _ (sorted_perm prices)).
  rewrite <- (firstn_skipn i (sorted prices)) at 1.
  rewrite filter_app, length_app.
  rewrite (filter_all _ (skipn i (sorted prices))).
  + rewrite length_skipn. lia.
  + eapply Forall_impl; [|exact B]. intros x Hx. apply Z.leb_le. exact Hx.
Qed.

(** [median_is_upper_median] on four samples: the upper of the two middle
    ones is taken. *)
Lemma median_is_upper_median_witness :
  median [gwei 12; gwei 8; gwei 10; gwei 9] = Ok (gwei 10).
Proof.
destruct (median_is_upper_median [gwei 12; gwei 8; gwei 10; gwei 9])
  as (m & E & _); [discriminate|].
rewrite E. vm_compute in E. injection E as <-. reflexivity.
Defined.

End MedianFacts.

(** ** More on the liquidity screen *)

Module LiquidityCoverage.

Import Binary64 Binary64Facts Py PyFacts Trader Scenario LogFacts SellFacts
  SubmitFacts LiquidityFacts GasCoverage.
Local Open Scope string_scope.
Local Open Scope Z_scope.

Section Engine.

Context {C : client}.

Lemma validate_address_ok self a (s : state C) t s' :
  validate_address self a s = (Ok t, s') ->
  to_checksum_address C (strip C a) = Ok t /\ s' = s.
Proof.
unfold validate_address. destruct (to_checksum_address C (strip C a)); intros H.
- injection H as -> ->. auto.
- discriminate.
Qed.

Lemma validate_address_raises self a (s : state C) e :
  to_checksum_address C (strip C a) = Raise e ->
  validate_address self a s
  = (Raise (ValueError ("Invalid Ethereum address: " ++ strip C a)), s).
Proof. unfold validate_address. intros ->. reflexivity. Qed.

Lemma get_token_contract_ok self a (s : state C) t s' :
  get_token_contract self a s = (Ok t, s') ->
  to_checksum_address C (strip C a) = Ok t /\
  exists w, node C unit (load_abi_file "abis/ERC20.json") (chain s) = (Ok tt, w) /\
            s' = after s (load_abi_file "abis/ERC20.json") (Ok tt) w.
Proof.
unfold get_token_contract, load_abi. intros H.
apply bind_ok in H as (t0 & s1 & Hv & H). apply validate_address_ok in Hv as [Hv ->].
apply bind_ok in H as (u & s2 & Hc & H). apply call_ok in Hc as (w & N & ->).
injection H as -> <-. destruct u. eauto.
Qed.

(** [check_token_liquidity] answers [ok = True] only after six
    interactions have succeeded in this order: the ABI was loaded, the
    token gave its symbol and its decimals, the router quoted the amount,
    the token gave a nonzero total supply, and the router quoted the
    reference amount of 0.1 ether.  The quoted output is then positive,
    the price impact is not above 10%, the reason is "Sufficient
    liquidity" and the ratio is [float(output) / float(supply)]. *)
Theorem liquidity_accepted_only_when_sound self token_address eth_amount
    (s : state C) ratio message s' :
  check_token_liquidity self token_address eth_amount s
  = (Ok (true, ratio, message), s') ->
  message = "Sufficient liquidity" /\
  exists token contract amount_in_wei symbol decimals amounts tokens_out
         supply small_amounts small_out impact,
    to_checksum_address C (strip C token_address) = Ok token /\
    to_checksum_address C (strip C token) = Ok contract /\
    to_wei_ether C eth_amount = Ok amount_in_wei /\
    log s' =
    (log s ++
     [Called (load_abi_file "abis/ERC20.json") (Ok tt);
      Called (call_symbol contract) (Ok symbol);
      Called (call_decimals contract) (Ok decimals);
      Called (call_getAmountsOut (router self) amount_in_wei [WETH_ADDRESS; token])
        (Ok amounts);
      Called (call_totalSupply contract) (Ok supply);
      Called (call_getAmountsOut (router self) (ether 1 / 10) [WETH_ADDRESS; token])
        (Ok small_amounts)])%list /\
    nth_error amounts 1 = Some tokens_out /\
    nth_error small_amounts 1 = Some small_out /\
    0 < tokens_out <= 2 ^ 256 - 1 /\
    supply <> 0 /\
    price_impact_of tokens_out eth_amount small_out = Ok impact /\
    ltb (literal 1 10) impact = false /\
    rbind (of_int tokens_out) (fun ft =>
      rbind (of_int supply) (fun fs => div ft fs)) = Ok ratio.
Proof.
intros H. unfold check_token_liquidity in H.
apply try_except_inv in H as [(a & Body & Ea) | (e & s1 & _ & Hh)];
  [|discriminate].
injection Ea as <-.
apply bind_ok in Body as (token & s1 & E1 & Body).
apply validate_address_ok in E1 as [Htok ->].
apply bind_ok in Body as (wei & s2 & E2 & Body). apply lift_ok in E2 as [Hwei ->].
apply bind_ok in Body as (contract & s3 & E3 & Body).
apply get_token_contract_ok in E3 as (Hcon & w1 & N1 & ->).
apply bind_ok in Body as (info & s4 & E4 & Body).
apply try_except_inv in E4 as [(a & B4 & Ea) | (e & s5 & _ & Hh)].
2:{ injection Hh as <- <-. discriminate. }
injection Ea as <-.
apply bind_ok in B4 as (symbol & s5 & E5 & B4). apply call_ok in E5 as (w2 & N2 & ->).
apply bind_ok in B4 as (decimals & s6 & E6 & B4). apply call_ok in E6 as (w3 & N3 & ->).
injection B4 as <- <-.
unfold check_uniswap in Body.
apply try_except_inv in Body as [(a & Body & Ea) | (e & s7 & _ & Hh)];
  [|discriminate].
injection Ea as <-.
apply bind_ok in Body as (amounts & s7 & E7 & Body). apply call_ok in E7 as (w4 & N4 & ->).
apply bind_ok in Body as (tokens_out & s8 & E8 & Body). apply lift_ok in E8 as [Hout ->].
apply bind_ok in Body as (supply & s9 & E9 & Body). apply call_ok in E9 as (w5 & N5 & ->).
destruct (supply =? 0) eqn:Hsup; [discriminate|]. apply Z.eqb_neq in Hsup.
apply bind_ok in Body as (ft & s10 & E10 & Body). apply lift_ok in E10 as [Hft ->].
apply bind_ok in Body as (fs & s11 & E11 & Body). apply lift_ok in E11 as [Hfs ->].
apply bind_ok in Body as (lr & s12 & E12 & Body). apply lift_ok in E12 as [Hlr ->].
apply bind_ok in Body as (again & s13 & E13 & Body). apply lift_ok in E13 as [_ ->].
apply bind_ok in Body as (price & s14 & E14 & Body). apply lift_ok in E14 as [_ ->].
destruct (tokens_out =? 0) eqn:Hz; [discriminate|]. apply Z.eqb_neq in Hz.
apply bind_ok in Body as (small & s15 & E15 & Body). apply call_ok in E15 as (w6 & N6 & ->).
apply bind_ok in Body as (out & s16 & E16 & Body). apply lift_ok in E16 as [Hout' ->].
apply bind_ok in Body as (small_out & s17 & E17 & Body). apply lift_ok in E17 as [Hsmall ->].
apply bind_ok in Body as (impact & s18 & E18 & Body). apply lift_ok in E18 as [Himp ->].
destruct (ltb (literal 1 10) impact) eqn:Hltb; [discriminate|].
apply bind_ok in Body as (fw & s19 & E19 & Body). apply lift_ok in E19 as [Hfw ->].
unfold ret in Body.
pose proof (f_equal snd Body) as Es. cbn [snd] in Es. subst s'.
pose proof (f_equal (fun r => match fst r with
                              | Ok (_, x, _) => x
                              | Raise _ => zero
                              end) Body) as Er.
pose proof (f_equal (fun r => match fst r with
                              | Ok (_, _, m) => m
                              | Raise _ => EmptyString
                              end) Body) as Em.
cbv beta iota delta [fst] in Er, Em. subst ratio message. clear Body.
split; [reflexivity|].
assert (out = tokens_out) as ->.
{ rewrite Hout in Hout'. injection Hout' as ->. reflexivity. }
exists token, contract, wei, symbol, decimals, amounts, tokens_out, supply, small,
  small_out, impact.
split; [exact Htok|]. split; [exact Hcon|]. split; [exact Hwei|].
split. { cbn [log after]. rewrite <- !app_assoc. reflexivity. }
split.
{ unfold subscript in Hout.
  destruct (nth_error amounts 1); [injection Hout as ->; reflexivity | discriminate Hout]. }
split.
{ unfold subscript in Hsmall.
  destruct (nth_error small 1); [injection Hsmall as ->; reflexivity | discriminate Hsmall]. }
split.
{ unfold from_wei_ether in Hfw.
  destruct (tokens_out <? 0) eqn:A; [discriminate Hfw|].
  destruct (2 ^ 256 - 1 <? tokens_out) eqn:B; [discriminate Hfw|].
  apply Z.ltb_ge in A, B. lia. }
split; [exact Hsup|]. split; [exact Himp|]. split; [exact Hltb|].
rewrite Hft, Hfs. exact Hlr.
Qed.

End Engine.

(** [liquidity_accepted_only_when_sound] on the healthy node, for one
    ether: the screen accepts, after six interactions. *)
Lemma liquidity_accepted_only_when_sound_witness :
  exists ratio,
    fst (run healthy (check_token_liquidity (init env0) "0xToken" one))
    = Ok (true, ratio, "Sufficient liquidity")
    /\ List.length
         (log (snd (run healthy (check_token_liquidity (init env0) "0xToken" one))))
       = 6%nat.
Proof.
unfold run.
set (r := check_token_liquidity (C := scripted healthy) (init env0) "0xToken" one
            (start healthy)).
set (ratio := match fst r with Ok (_, x, _) => x | Raise _ => zero end).
assert (H : r = (Ok (true, ratio, "Sufficient liquidity"), snd r))
  by (apply run_eq; vm_compute; reflexivity).
exists ratio. split; [rewrite H; reflexivity|].
destruct (liquidity_accepted_only_when_sound (C := scripted healthy) (init env0)
            "0xToken" one (start healthy) ratio "Sufficient liquidity" (snd r) H)
  as (_ & token & contract & wei & symbol & decimals & amounts & tokens_out
      & supply & small & small_out & impact & _ & _ & _ & Hlog & _).
rewrite Hlog. reflexivity.
Defined.

End LiquidityCoverage.

(** ** What a method may emit, and what it returns *)

Module OnlyFacts.

Import Binary64 Py PyFacts Trader Scenario LogFacts.
Local Open Scope Z_scope.

Section Only.

Context {C : client}.

(** [only ev P m]: whatever [m] does, it only appends to the log, every
    appended event satisfies [ev], and a returned value satisfies [P]. *)
Definition only (ev : event -> Prop) {A} (P : A -> Prop) (m : M C A) : Prop :=
forall s r s', m s = (r, s') ->
  exists new, log s' = (log s ++ new)%list /\ Forall ev new /\
    match r with Ok a => P a | Raise _ => True end.

Lemma only_weaken ev {A} (P Q : A -> Prop) (m : M C A) :
  (forall a, P a -> Q a) -> only ev P m -> only ev Q m.
Proof.
intros PQ H s r s' E. destruct (H s r s' E) as (new & El & Hf & Hr).
exists new. split; [exact El|]. split; [exact Hf|].
destruct r; [apply PQ; exact Hr | exact I].
Qed.

Lemma only_ret ev {A} (P : A -> Prop) (a : A) : P a -> only ev P (ret a).
Proof.
intros Pa s r s' E. injection E as <- <-. exists []. rewrite app_nil_r. auto.
Qed.

Lemma only_raise ev {A} (P : A -> Prop) (e : exn) : only ev P (raise e).
Proof.
intros s r s' E. injection E as <- <-. exists []. rewrite app_nil_r. auto.
Qed.

Lemma only_lift ev {A} (P : A -> Prop) (x : result A) :
  (forall a, x = Ok a -> P a) -> only ev P (lift x).
Proof.
intros Px s r s' E. injection E as <- <-. exists []. rewrite app_nil_r.
split; [reflexivity|]. split; [constructor|].
destruct x; [apply Px; reflexivity | exact I].
Qed.

Lemma only_call ev {T} (P : T -> Prop) (r : rpc T) :
  (forall answer, ev (Called r answer)) -> (forall a, P a) -> only ev P (call r).
Proof.
intros He HP s res s' E. unfold call in E.
destruct (node C T r (chain s)) as [answer w]. injection E as <- <-.
exists [Called r answer]. split; [reflexivity|]. split; [auto|].
destruct answer; auto.
Qed.

Lemma only_sleep ev (P : unit -> Prop) seconds :
  ev (Slept seconds) -> P tt -> only ev P (sleep seconds).
Proof.
intros He HP s res s' E. injection E as <- <-.
exists [Slept seconds]. split; [reflexivity|]. split; auto.
Qed.

Lemma only_bind ev {A B} (Q : A -> Prop) (P : B -> Prop) (m : M C A)
    (k : A -> M C B) :
  only ev Q m -> (forall a, Q a -> only ev P (k a)) -> only ev P (bind m k).
Proof.
intros Hm Hk s r s' E. unfold bind in E.
destruct (m s) as [[a|e] s1] eqn:Em.
- destruct (Hm s _ _ Em) as (new1 & E1 & F1 & Qa).
  destruct (Hk a Qa s1 _ _ E) as (new2 & E2 & F2 & Pr).
  exists (new1 ++ new2)%list. rewrite E2, E1, app_assoc.
  split; [reflexivity|]. split; [apply Forall_app; auto | exact Pr].
- injection E as <- <-. destruct (Hm s _ _ Em) as (new1 & E1 & F1 & _).
  exists new1. auto.
Qed.

Lemma only_then ev {A B} (P : B -> Prop) (m : M C A) (k : A -> M C B) :
  only ev (fun _ => True) m -> (forall a, only ev P (k a)) -> only ev P (bind m k).
Proof. intros Hm Hk. apply (only_bind ev (fun _ => True)); auto. Qed.

Lemma only_try ev {A} (P : A -> Prop) (body : M C A) (handler : exn -> M C A) :
  only ev P body -> (forall e, only ev P (handler e)) ->
  only ev P (try_except body handler).
Proof.
intros Hm Hk s r s' E. unfold try_except in E.
destruct (body s) as [[a|e] s1] eqn:Em.
- injection E as <- <-. exact (Hm s _ _ Em).
- destruct (Hm s _ _ Em) as (new1 & E1 & F1 & _).
  destruct (Hk e s1 _ _ E) as (new2 & E2 & F2 & Pr).
  exists (new1 ++ new2)%list. rewrite E2, E1, app_assoc.
  split; [reflexivity|]. split; [apply Forall_app; auto | exact Pr].
Qed.

End Only.

End OnlyFacts.

(** ** The liquidity screen as a whole *)

Module VerdictFacts.

Import Binary64 Py PyFacts Trader Scenario LogFacts OnlyFacts.
Local Open Scope string_scope.
Local Open Scope Z_scope.

(** The reasons that [check_token_liquidity] gives for a rejection.  The
    message of line 169, "No tokens returned for trade. Insufficient
    liquidity.", is not among them: a zero output has already raised in
    the division of line 165. *)
Inductive rejection : string -> Prop :=
| no_token_information :
    rejection "Could not get token information. This might not be a valid ERC20 token."
| no_total_supply : rejection "Token has no total supply"
| high_price_impact percent :
    rejection ("High price impact: " ++ percent ++ "%. Trade might be front-run.")
| uniswap_error e : rejection ("Error checking Uniswap liquidity: " ++ str_exn e)
| other_error e : rejection ("Error checking liquidity: " ++ str_exn e).

(** No condition on an interaction. *)
Definition any (e : event) : Prop := True.

Definition verdict (v : bool * float * string) : Prop :=
  let '(ok, _, message) := v in
  if ok then message = "Sufficient liquidity" else rejection message.

Lemma rejection_is_not_acceptance message :
  rejection message -> message <> "Sufficient liquidity".
Proof. intros [] H; discriminate H. Qed.

Section Engine.

Context {C : client}.

Lemma check_uniswap_verdict self token contract eth_amount amount_in_wei :
  only any verdict (check_uniswap (C := C) self token contract eth_amount amount_in_wei).
Proof.
unfold check_uniswap.
apply only_try; [|intros e; apply only_ret; cbn; constructor].
apply only_then; [apply only_call; intros; exact I|intros amounts].
apply (only_bind _ (fun tokens_out => subscript amounts 1 = Ok tokens_out));
  [apply only_lift; auto|intros tokens_out Hout].
apply only_then; [apply only_call; intros; exact I|intros supply].
destruct (supply =? 0); [apply only_ret; cbn; constructor|].
apply only_then; [apply only_lift; intros; exact I|intros ft].
apply only_then; [apply only_lift; intros; exact I|intros fs].
apply only_then; [apply only_lift; intros; exact I|intros ratio].
apply (only_bind _ (fun again => subscript amounts 1 = Ok again));
  [apply only_lift; auto|intros again Hagain].
apply (only_bind _ (fun price => int_truediv (ether 1) again = Ok price));
  [apply only_lift; auto|intros price Hprice].
destruct (tokens_out =? 0) eqn:Hzero.
{ exfalso. apply Z.eqb_eq in Hzero. rewrite Hout in Hagain.
  injection Hagain as <-. subst tokens_out. discriminate Hprice. }
apply only_then; [apply only_call; intros; exact I|intros small].
apply only_then; [apply only_lift; intros; exact I|intros out].
apply only_then; [apply only_lift; intros; exact I|intros small_out].
apply only_then; [apply only_lift; intros; exact I|intros impact].
destruct (ltb (literal 1 10) impact).
- apply only_ret. cbn. constructor.
- apply only_then; [apply only_lift; intros; exact I|intros fw].
  apply only_ret. reflexivity.
Qed.

Lemma check_token_liquidity_verdict self token_address eth_amount :
  only any verdict (check_token_liquidity (C := C) self token_address eth_amount).
Proof.
unfold check_token_liquidity.
apply only_try; [|intros e; apply only_ret; cbn; constructor].
apply only_then.
{ unfold validate_address. destruct (to_checksum_address C _);
    [apply only_ret | apply only_raise]; exact I. }
intros token.
apply only_then; [apply only_lift; intros; exact I|intros wei].
apply only_then.
{ unfold get_token_contract, validate_address, load_abi.
  apply only_then.
  - destruct (to_checksum_address C _); [apply only_ret | apply only_raise]; exact I.
  - intros t. apply only_then; [apply only_call; intros; exact I|intros u].
    apply only_ret. exact I. }
intros contract.
apply only_then.
{ apply only_try; [|intros e; apply only_ret; exact I].
  apply only_then; [apply only_call; intros; exact I|intros symbol].
  apply only_then; [apply only_call; intros; exact I|intros decimals].
  apply only_ret. exact I. }
intros [info|].
- apply check_uniswap_verdict.
- apply only_ret. cbn. constructor.
Qed.

(** [check_token_liquidity] never raises, whatever the node and the
    libraries do; it answers [True] exactly when its message is
    "Sufficient liquidity", and a rejection carries one of five reasons. *)
Theorem liquidity_verdict_is_consistent self token_address eth_amount
    (s : state C) :
  exists ok ratio message s',
    check_token_liquidity self token_address eth_amount s
    = (Ok (ok, ratio, message), s') /\
    (ok = true <-> message = "Sufficient liquidity") /\
    (ok = false -> rejection message).
Proof.
destruct (check_token_liquidity self token_address eth_amount s) as [r s'] eqn:E.
assert (T : total (check_token_liquidity (C := C) self token_address eth_amount)).
{ apply try_except_total. intros e. apply ret_total. }
destruct (T s) as ([[ok ratio] message] & s1 & E1).
rewrite E in E1. injection E1 as -> ->.
destruct (check_token_liquidity_verdict self token_address eth_amount s _ _ E)
  as (new & _ & _ & V).
exists ok, ratio, message, s1. split; [reflexivity|].
cbn in V. destruct ok.
- split; [split; auto | discriminate].
- split; [|auto]. split; [discriminate|].
  intros H. exfalso. exact (rejection_is_not_acceptance _ V H).
Qed.

End Engine.

End VerdictFacts.

(** ** What the buy path asks of the node *)

Module BuyCoverage.

Import Binary64 Py PyFacts Trader Scenario LogFacts OnlyFacts SellFacts
  GasCoverage LiquidityCoverage.
Local Open Scope string_scope.
Local Open Scope Z_scope.

Section Engine.

Context {C : client}.

(** The interactions that [buy_token_protected] allows itself.  It builds
    one kind of transaction: a type-2 [swapExactETHForTokens] on the
    router, sent from the wallet and paid to the wallet, along the path
    from WETH to the validated token, with a max fee within
    [max_gas_price] and no gas limit yet.  It signs with the wallet's key
    and only transactions that carry a gas limit.  It sleeps one second at
    a time.  It never asks for the priority fee, the clock or an
    allowance. *)
Definition buy_event (self : buyer) (token_address : string) (e : event) : Prop :=
  match e with
  | Slept seconds => seconds = 1
  | Called r _ =>
      match r with
      | build_transaction target c p =>
          target = router self /\
          p_from p = wallet_address self /\
          p_type p = Some 2 /\
          p_gas p = None /\
          p_maxFeePerGas p <= max_gas_price self /\
          (exists amount_in_wei, p_value p = Some amount_in_wei) /\
          (exists min_tokens token deadline,
              to_checksum_address C (strip C token_address) = Ok token /\
              c = swapExactETHForTokens min_tokens [WETH_ADDRESS; token]
                    (wallet_address self) deadline)
      | sign_transaction t key =>
          key = private_key self /\ exists gas_limit, t_gas t = Some gas_limit
      | max_priority_fee => False
      | time_time => False
      | call_allowance _ _ _ => False
      | _ => True
      end
  end.

Lemma sample_pending_only self a hashes acc :
  only (buy_event self a) (fun _ => True) (sample_pending (C := C) hashes acc).
Proof.
revert acc. induction hashes as [|h rest IH]; intros acc; cbn [sample_pending].
- apply only_ret. exact I.
- apply only_then; [|intros prices; apply IH].
  apply only_try; [|intros e; apply only_ret; exact I].
  apply only_then; [apply only_call; intros; exact I|intros tx].
  destruct (maxFeePerGas tx); apply only_ret; exact I.
Qed.

Lemma capped_max_fee_le self base_fee priority_fee max_fee :
  capped_max_fee self base_fee priority_fee = Ok max_fee ->
  max_fee <= max_gas_price self.
Proof.
unfold capped_max_fee. destruct (scale_int _ _); cbn [rbind]; intros H;
  [injection H as <-; apply Z.le_min_r | discriminate H].
Qed.

Lemma fallback_fees_le self gp max_fee priority_fee :
  fallback_fees self gp = Ok (max_fee, priority_fee) ->
  max_fee <= max_gas_price self.
Proof.
unfold fallback_fees. destruct (scale_int gp (literal 12 10)); cbn [rbind];
  [|discriminate].
destruct (scale_int gp (literal 1 10)); cbn [rbind]; intros H;
  [injection H as <- _; apply Z.le_min_r | discriminate H].
Qed.

Lemma gas_plan_only self a :
  only (buy_event self a) (fun plan => fst plan <= max_gas_price self)
    (get_optimal_gas_price (C := C) self).
Proof.
unfold get_optimal_gas_price.
apply only_try.
- apply only_then; [apply only_call; intros; exact I|intros latest_block].
  apply only_then; [apply only_lift; intros; exact I|intros base_fee].
  apply only_then; [apply only_call; intros; exact I|intros pending_txns].
  apply only_then.
  { destruct (transactions pending_txns).
    - apply only_then; [apply sample_pending_only|intros prices].
      apply only_lift; intros; exact I.
    - apply only_ret. exact I. }
  intros priority_fee.
  apply (only_bind _ (fun max_fee => max_fee <= max_gas_price self)).
  + apply only_lift. intros max_fee H. exact (capped_max_fee_le _ _ _ _ H).
  + intros max_fee H. apply only_ret. exact H.
- intros e.
  apply only_then; [apply only_call; intros; exact I|intros gp].
  apply only_lift. intros [max_fee priority_fee] H.
  exact (fallback_fees_le _ _ _ _ H).
Qed.

Lemma validate_address_only self a b :
  only (buy_event self a)
    (fun token => to_checksum_address C (strip C b) = Ok token)
    (validate_address (C := C) self b).
Proof.
unfold validate_address. destruct (to_checksum_address C (strip C b)) eqn:E.
- apply only_ret. reflexivity.
- apply only_raise.
Qed.

Lemma get_token_contract_only self a b :
  only (buy_event self a) (fun _ => True) (get_token_contract (C := C) self b).
Proof.
unfold get_token_contract, load_abi.
apply only_then.
- eapply only_weaken; [|apply validate_address_only]. auto.
- intros t. apply only_then; [apply only_call; intros; exact I|intros u].
  apply only_ret. exact I.
Qed.

Lemma check_token_liquidity_only self a b eth_amount :
  only (buy_event self a) (fun _ => True)
    (check_token_liquidity (C := C) self b eth_amount).
Proof.
unfold check_token_liquidity.
apply only_try; [|intros e; apply only_ret; exact I].
apply only_then.
{ eapply only_weaken; [|apply validate_address_only]. auto. }
intros token.
apply only_then; [apply only_lift; intros; exact I|intros wei].
apply only_then; [apply get_token_contract_only|intros contract].
apply only_then.
{ apply only_try; [|intros e; apply only_ret; exact I].
  apply only_then; [apply only_call; intros; exact I|intros symbol].
  apply only_then; [apply only_call; intros; exact I|intros decimals].
  apply only_ret. exact I. }
intros [info|]; [|apply only_ret; exact I].
unfold check_uniswap.
apply only_try; [|intros e; apply only_ret; exact I].
apply only_then; [apply only_call; intros; exact I|intros amounts].
apply only_then; [apply only_lift; intros; exact I|intros tokens_out].
apply only_then; [apply only_call; intros; exact I|intros supply].
destruct (supply =? 0); [apply only_ret; exact I|].
apply only_then; [apply only_lift; intros; exact I|intros ft].
apply only_then; [apply only_lift; intros; exact I|intros fs].
apply only_then; [apply only_lift; intros; exact I|intros ratio].
apply only_then; [apply only_lift; intros; exact I|intros again].
apply only_then; [apply only_lift; intros; exact I|intros price].
destruct (tokens_out =? 0); [apply only_ret; exact I|].
apply only_then; [apply only_call; intros; exact I|intros small].
apply only_then; [apply only_lift; intros; exact I|intros out].
apply only_then; [apply only_lift; intros; exact I|intros small_out].
apply only_then; [apply only_lift; intros; exact I|intros impact].
destruct (ltb (literal 1 10) impact); [apply only_ret; exact I|].
apply only_then; [apply only_lift; intros; exact I|intros fw].
apply only_ret. exact I.
Qed.

Lemma estimate_gas_limit_only self a t :
  only (buy_event self a) (fun _ => True) (estimate_gas_limit (C := C) self t).
Proof.
unfold estimate_gas_limit.
apply only_try; [|intros e; apply only_ret; exact I].
apply only_then; [apply only_call; intros; exact I|intros est].
apply only_lift. intros; exact I.
Qed.

(** A transaction that [build_optimized_transaction] hands over carries a
    gas limit. *)
Definition ready (t : option txn) : Prop :=
  match t with
  | Some t => exists gas_limit, t_gas t = Some gas_limit
  | None => True
  end.

Lemma build_optimized_transaction_only self a eth_amount slippage :
  only (buy_event self a) ready
    (build_optimized_transaction (C := C) self a eth_amount slippage).
Proof.
unfold build_optimized_transaction.
apply only_try; [|intros e; apply only_ret; exact I].
apply (only_bind _ (fun token => to_checksum_address C (strip C a) = Ok token));
  [apply validate_address_only|intros token Htoken].
apply only_then; [apply check_token_liquidity_only|intros [[has ratio] message]].
destruct (negb has); [apply only_ret; exact I|].
apply (only_bind _ (fun plan => fst plan <= max_gas_price self));
  [apply gas_plan_only|intros [max_fee priority_fee] Hfee].
cbn [fst] in Hfee.
apply only_then.
{ unfold calculate_max_spend.
  apply only_then; [apply only_call; intros; exact I|intros balance].
  apply only_lift. intros; exact I. }
intros max_spend.
apply only_then; [apply only_lift; intros; exact I|intros wei].
apply only_then; [apply only_lift; intros; exact I|intros [eth' wei']].
destruct (leb eth' zero); [apply only_ret; exact I|].
apply only_then; [apply only_call; intros; exact I|intros amounts].
apply only_then; [apply only_lift; intros; exact I|intros quoted].
apply only_then; [apply only_lift; intros; exact I|intros min_tokens].
apply only_then; [apply only_call; intros; exact I|intros latest_block].
apply only_then; [apply only_lift; intros; exact I|intros now].
apply only_then; [apply only_call; intros; exact I|intros nonce].
apply only_then.
{ apply only_call; [|intros; exact I]. intros answer. cbn.
  repeat split; try reflexivity; try exact Hfee; eauto. }
intros unsigned_txn.
apply only_then; [apply estimate_gas_limit_only|intros gas_limit].
apply only_ret. cbn. eauto.
Qed.

Lemma submit_with_retries_only self a signed attempts :
  only (buy_event self a) (fun _ => True)
    (submit_with_retries (C := C) self signed a attempts).
Proof.
induction attempts as [|attempt rest IH]; cbn [submit_with_retries].
- apply only_ret. exact I.
- apply only_try.
  + apply only_then; [apply only_call; intros; exact I|intros tx_hash].
    apply only_then; [apply only_call; intros; exact I|intros receipt].
    destruct (status receipt =? 1); [|apply only_ret; exact I].
    apply only_then; [apply get_token_contract_only|intros contract].
    apply only_then; [apply only_call; intros; exact I|intros balance].
    apply only_then; [apply only_lift; intros; exact I|intros fw].
    apply only_ret. exact I.
  + intros e. destruct (attempt <? 2); [|apply only_ret; exact I].
    apply only_then; [apply only_sleep; [reflexivity | exact I]|intros u].
    exact IH.
Qed.

(** Whatever the node answers, every interaction of one call of
    [buy_token_protected] is one that [buy_event] allows: in particular,
    every transaction it asks to build is a type-2 swap of ETH for the
    validated token on the router with a max fee of at most
    [max_gas_price], every transaction it signs carries a gas limit, and
    it never asks for the priority fee, the clock or an allowance. *)
Theorem buy_requests_are_disciplined self token_address eth_amount slippage
    (s : state C) :
  exists new,
    log (snd (buy_token_protected self token_address eth_amount slippage s))
    = (log s ++ new)%list /\
    Forall (buy_event self token_address) new.
Proof.
assert (H : only (buy_event self token_address) (fun _ => True)
              (buy_token_protected (C := C) self token_address eth_amount slippage)).
{ unfold buy_token_protected.
  apply only_try; [|intros e; apply only_ret; exact I].
  apply (only_bind _ ready); [apply build_optimized_transaction_only|].
  intros [t|] Hready; [|apply only_ret; exact I].
  apply only_then.
  - apply only_call; [|intros; exact I]. intros answer. cbn. split; [reflexivity|].
    exact Hready.
  - intros signed. apply submit_with_retries_only. }
destruct (buy_token_protected self token_address eth_amount slippage s)
  as [r s'] eqn:E.
destruct (H s r s' E) as (new & El & Hf & _).
exists new. split; [exact El | exact Hf].
Qed.

End Engine.

End BuyCoverage.

(** ** How much the buy path asks *)

Module BuyBounds.

Import Binary64 Py PyFacts Trader Scenario LogFacts OnlyFacts SellFacts
  GasCoverage LiquidityCoverage BuyCoverage.
Local Open Scope string_scope.
Local Open Scope Z_scope.

Section Engine.

Context {C : client}.

Lemma emits_sleep_one p seconds : emits (C := C) 1 p (sleep seconds).
Proof.
intros s res s' E. injection E as <- <-.
exists [Slept seconds]. split; [reflexivity|].
unfold count. cbn. destruct (p _); cbn; lia.
Qed.

Lemma emits_left n1 n2 p {A} (m : M C A) :
  emits n1 p m -> emits (Nat.max n1 n2) p m.
Proof. apply emits_weaken. lia. Qed.

Lemma emits_right n1 n2 p {A} (m : M C A) :
  emits n2 p m -> emits (Nat.max n1 n2) p m.
Proof. apply emits_weaken. lia. Qed.

Lemma emits_either n1 n2 p {A} (m : M C A) :
  emits (Nat.max n1 n2) p m -> emits (Nat.max n1 n2) p m.
Proof. exact (fun H => H). Qed.

Lemma sample_pending_emits p hashes acc :
  emits (C := C) (List.length hashes) p (sample_pending hashes acc).
Proof.
revert acc. induction hashes as [|h rest IH]; intros acc; cbn [sample_pending].
- apply emits_ret.
- apply (emits_bind 1 (List.length rest)); [|intros prices; apply IH].
  apply (emits_try 1 0).
  + apply (emits_bind 1 0); [apply emits_call|].
    intros tx. destruct (maxFeePerGas tx); apply emits_ret.
  + intros e. apply emits_ret.
Qed.

Lemma sample_pending_ten p hashes acc :
  emits (C := C) 10 p (sample_pending (firstn 10 hashes) acc).
Proof.
eapply emits_weaken; [|apply sample_pending_emits].
apply firstn_le_length.
Qed.

End Engine.

(** Counts the events that satisfy the predicate of the goal, over the
    syntax of a method. *)
Ltac tally :=
  cbv beta;
  lazymatch goal with
  | |- emits _ _ (ret _) => apply emits_ret
  | |- emits _ _ (lift _) => apply emits_lift
  | |- emits _ _ (raise _) => apply emits_raise
  | |- emits _ _ (call _) =>
      first [apply emits_call_other; intros; reflexivity | apply emits_call]
  | |- emits _ _ (sleep _) =>
      first [apply emits_sleep; reflexivity | apply emits_sleep_one]
  | |- emits _ _ (bind _ _) => eapply emits_bind; [tally | intros; tally]
  | |- emits _ _ (try_except _ _) => eapply emits_try; [tally | intros; tally]
  | |- emits _ _ (sample_pending (firstn 10 _) _) =>
      first [apply sample_pending_quiet; intros; reflexivity
            | apply sample_pending_ten]
  | |- emits _ _ (match ?x with _ => _ end) =>
      lazymatch type of x with
      | prod _ _ => destruct x; tally
      | _ =>
          eapply emits_either;
          destruct x; [eapply emits_left; tally | eapply emits_right; tally]
      end
  | |- emits _ _ (validate_address _ _) => unfold validate_address; tally
  | |- emits _ _ (load_abi _ _) => unfold load_abi; tally
  | |- emits _ _ (get_token_contract _ _) => unfold get_token_contract; tally
  | |- emits _ _ (calculate_max_spend _ _) => unfold calculate_max_spend; tally
  | |- emits _ _ (estimate_gas_limit _ _) => unfold estimate_gas_limit; tally
  | |- emits _ _ (get_optimal_gas_price _) => unfold get_optimal_gas_price; tally
  | |- emits _ _ (check_uniswap _ _ _ _ _) => unfold check_uniswap; tally
  | |- emits _ _ (check_token_liquidity _ _ _) =>
      unfold check_token_liquidity; tally
  | |- emits _ _ (build_optimized_transaction _ _ _ _) =>
      unfold build_optimized_transaction; tally
  | |- emits _ _ (submit_with_retries _ _ _ _) =>
      cbn [submit_with_retries range map seq Z.of_nat Pos.of_succ_nat Pos.succ
           Z.ltb Z.compare Pos.compare Pos.compare_cont];
      tally
  | |- emits _ _ (buy_token_protected _ _ _ _) =>
      unfold buy_token_protected; tally
  end.

Section Bounds.

Context {C : client}.

Lemma buy_broadcasts self a eth_amount slippage :
  emits (C := C) 3 is_broadcast (buy_token_protected self a eth_amount slippage).
Proof. eapply emits_weaken; [|tally]. cbn. lia. Qed.

Lemma buy_sleeps self a eth_amount slippage :
  emits (C := C) 2 is_sleep (buy_token_protected self a eth_amount slippage).
Proof. eapply emits_weaken; [|tally]. cbn. lia. Qed.

Lemma buy_builds self a eth_amount slippage :
  emits (C := C) 1 is_build (buy_token_protected self a eth_amount slippage).
Proof. eapply emits_weaken; [|tally]. cbn. lia. Qed.

Lemma buy_signatures self a eth_amount slippage :
  emits (C := C) 1 is_signature (buy_token_protected self a eth_amount slippage).
Proof. eapply emits_weaken; [|tally]. cbn. lia. Qed.

Lemma buy_node_calls self a eth_amount slippage :
  emits (C := C) 38 is_node_call (buy_token_protected self a eth_amount slippage).
Proof. eapply emits_weaken; [|tally]. cbn. lia. Qed.

(** One call of [buy_token_protected] ends after at most 38 interactions
    with the node and the local services and at most 2 sleeps; among the
    interactions there are at most 3 broadcasts, 1 signature and 1
    transaction build, whatever the node answers. *)
Theorem buy_is_bounded self token_address eth_amount slippage (s : state C) :
  exists new,
    log (snd (buy_token_protected self token_address eth_amount slippage s))
    = (log s ++ new)%list /\
    (count is_node_call new <= 38)%nat /\
    (count is_sleep new <= 2)%nat /\
    (count is_broadcast new <= 3)%nat /\
    (count is_signature new <= 1)%nat /\
    (count is_build new <= 1)%nat.
Proof.
destruct (buy_token_protected self token_address eth_amount slippage s)
  as [r s'] eqn:E.
destruct (buy_node_calls _ _ _ _ _ _ _ E) as (new & El & H1).
destruct (buy_sleeps _ _ _ _ _ _ _ E) as (new2 & E2 & H2).
destruct (buy_broadcasts _ _ _ _ _ _ _ E) as (new3 & E3 & H3).
destruct (buy_signatures _ _ _ _ _ _ _ E) as (new4 & E4 & H4).
destruct (buy_builds _ _ _ _ _ _ _ E) as (new5 & E5 & H5).
rewrite El in E2, E3, E4, E5.
apply app_inv_head in E2, E3, E4, E5. subst new2 new3 new4 new5.
exists new. cbn [snd]. repeat split; assumption.
Qed.

End Bounds.

End BuyBounds.

(** ** What a purchase reports *)

Module BuyOutcome.

Import Binary64 Py PyFacts Trader Scenario LogFacts OnlyFacts SellFacts
  GasCoverage LiquidityCoverage BuyCoverage BuyBounds.
Local Open Scope string_scope.
Local Open Scope Z_scope.

Section Engine.

Context {C : client}.

(** A method that only appends to the log. *)
Definition appends {A} (m : M C A) : Prop :=
forall s r s', m s = (r, s') -> exists new, log s' = (log s ++ new)%list.

Lemma only_appends ev {A} (P : A -> Prop) (m : M C A) : only ev P m -> appends m.
Proof.
intros H s r s' E. destruct (H s r s' E) as (new & El & _). eauto.
Qed.

(** The four interactions of a confirmed purchase. *)
Definition confirmation (self : buyer) (signed : signed_txn) (tx_hash : HexBytes)
  (receipt : Py.receipt) (token : address) (balance : Z) : list event :=
  [Called (send_raw_transaction (rawTransaction signed)) (Ok tx_hash);
   Called (wait_for_transaction_receipt tx_hash) (Ok receipt);
   Called (load_abi_file "abis/ERC20.json") (Ok tt);
   Called (call_balanceOf token (wallet_address self)) (Ok balance)].

Lemma submit_success_inv self signed a attempts (s : state C) h s' :
  submit_with_retries self signed a attempts s = (Ok (Some h), s') ->
  exists before tx_hash receipt token balance,
    log s' = (log s ++ before
              ++ confirmation self signed tx_hash receipt token balance)%list /\
    h = hex tx_hash /\
    status receipt = 1 /\
    to_checksum_address C (strip C a) = Ok token /\
    0 <= balance <= 2 ^ 256 - 1.
Proof.
revert s. induction attempts as [|attempt rest IH]; intros s H;
  cbn [submit_with_retries] in H.
- discriminate H.
- apply try_except_inv in H as [(x & Body & Ex) | (e & s1 & Body & Hh)].
  + injection Ex as <-.
    apply bind_ok in Body as (tx_hash & s1 & E1 & Body).
    apply call_ok in E1 as (w1 & N1 & ->).
    apply bind_ok in Body as (receipt & s2 & E2 & Body).
    apply call_ok in E2 as (w2 & N2 & ->).
    destruct (status receipt =? 1) eqn:Hst; [|discriminate Body].
    apply Z.eqb_eq in Hst.
    apply bind_ok in Body as (token & s3 & E3 & Body).
    apply get_token_contract_ok in E3 as (Htok & w3 & N3 & ->).
    apply bind_ok in Body as (balance & s4 & E4 & Body).
    apply call_ok in E4 as (w4 & N4 & ->).
    apply bind_ok in Body as (fw & s5 & E5 & Body).
    apply lift_ok in E5 as [Hfw ->].
    injection Body as <- <-.
    exists [], tx_hash, receipt, token, balance.
    split; [cbn [log after confirmation app]; rewrite <- !app_assoc; reflexivity|].
    split; [reflexivity|]. split; [exact Hst|]. split; [exact Htok|].
    unfold from_wei_ether in Hfw.
    destruct (balance <? 0) eqn:A; [discriminate Hfw|].
    destruct (2 ^ 256 - 1 <? balance) eqn:B; [discriminate Hfw|].
    apply Z.ltb_ge in A, B. lia.
  + destruct (attempt <? 2); [|discriminate Hh].
    apply bind_ok in Hh as (u & s2 & Es & Hh).
    rewrite sleep_run in Es. injection Es as _ <-.
    destruct (IH _ Hh) as (before & tx_hash & receipt & token & balance
                           & El & Rest).
    assert (Ha : exists new, log s1 = (log s ++ new)%list).
    { assert (Q : emits (C := C) 4 is_node_call
                    (tx_hash <- call (send_raw_transaction (rawTransaction signed)) ;;
                     receipt <- call (wait_for_transaction_receipt tx_hash) ;;
                     if status receipt =? 1 then
                       token_contract <- get_token_contract self a ;;
                       token_balance <-
                         call (call_balanceOf token_contract (wallet_address self)) ;;
                       lift (from_wei_ether token_balance) ;;
                       ret (Some (hex tx_hash))
                     else ret None)%py).
      { eapply emits_weaken; [|tally]. cbn. lia. }
      destruct (Q _ _ _ Body) as (new & En & _). eauto. }
    destruct Ha as (new & En).
    exists (new ++ [Slept 1] ++ before)%list, tx_hash, receipt, token, balance.
    split; [|exact Rest].
    rewrite El. cbn [slept log]. rewrite En, <- !app_assoc. reflexivity.
Qed.

(** When [buy_token_protected] returns a hash, the last four interactions
    of the call were: a broadcast of the signed transaction that the node
    accepted with that hash, a receipt for it with status 1, the loading
    of the ERC20 ABI, and a read of the wallet's token balance that gave
    a value in [0, 2^256 - 1]. *)
Theorem buy_success_means_confirmed self token_address eth_amount slippage
    (s : state C) h s' :
  buy_token_protected self token_address eth_amount slippage s
  = (Ok (Some h), s') ->
  exists before signed tx_hash receipt token balance,
    log s' = (log s ++ before
              ++ confirmation self signed tx_hash receipt token balance)%list /\
    h = hex tx_hash /\
    status receipt = 1 /\
    to_checksum_address C (strip C token_address) = Ok token /\
    0 <= balance <= 2 ^ 256 - 1.
Proof.
intros H. unfold buy_token_protected in H.
apply try_except_inv in H as [(x & Body & Ex) | (e & s1 & _ & Hh)];
  [|discriminate Hh].
injection Ex as <-.
apply bind_ok in Body as (built & s1 & Eb & Body).
destruct built as [t|]; [|discriminate Body].
apply bind_ok in Body as (signed & s2 & Es & Body).
apply call_ok in Es as (w & N & ->).
destruct (submit_success_inv _ _ _ _ _ _ _ Body)
  as (before & tx_hash & receipt & token & balance & El & Rest).
destruct (only_appends _ _ _ (build_optimized_transaction_only self token_address
                                eth_amount _) _ _ _ Eb) as (new & En).
exists (new ++ [Called (sign_transaction t (private_key self)) (Ok signed)]
        ++ before)%list, signed, tx_hash, receipt, token, balance.
split; [|exact Rest].
rewrite El. cbn [after log]. rewrite En, <- !app_assoc. reflexivity.
Qed.

(** A rejected liquidity screen ends the purchase: [buy_token_protected]
    returns [None] in the state the screen left, so nothing else is asked
    of the node: no gas plan, no balance, no quote, no signature, no
    broadcast. *)
Theorem rejected_screen_ends_purchase self token_address eth_amount slippage
    (s : state C) token ratio message s1 :
  to_checksum_address C (strip C token_address) = Ok token ->
  check_token_liquidity self token eth_amount s
  = (Ok (false, ratio, message), s1) ->
  buy_token_protected self token_address eth_amount slippage s = (Ok None, s1).
Proof.
intros Htok Hcheck. unfold buy_token_protected.
assert (Hb : forall sl,
           build_optimized_transaction self token_address eth_amount sl s
           = (Ok None, s1)).
{ intros sl. unfold build_optimized_transaction.
  apply try_except_ok.
  rewrite (bind_run _ _ s token s).
  - rewrite (bind_run _ _ _ _ _ Hcheck). reflexivity.
  - unfold validate_address. rewrite Htok. reflexivity. }
apply try_except_ok. rewrite (bind_run _ _ _ _ _ (Hb _)). reflexivity.
Qed.

End Engine.

(** [buy_success_means_confirmed] on the healthy node. *)
Lemma buy_success_means_confirmed_witness :
  fst (run healthy (buy_token_protected (init env0) "0xToken" one None))
  = Ok (Some (hex tx_hash0))
  /\ exists before signed tx_hash receipt token balance,
       log (snd (run healthy (buy_token_protected (init env0) "0xToken" one None)))
       = ([] ++ before
          ++ confirmation (init env0) signed tx_hash receipt token balance)%list /\
       hex tx_hash0 = hex tx_hash /\
       status receipt = 1 /\
       to_checksum_address (scripted healthy) (strip (scripted healthy) "0xToken") = Ok token /\
       0 <= balance <= 2 ^ 256 - 1.
Proof.
split; [vm_compute; reflexivity|].
exact (buy_success_means_confirmed (C := scripted healthy) (init env0) "0xToken"
         one None (start healthy) (hex tx_hash0) _
         (run_eq (buy_token_protected (C := scripted healthy) (init env0)
                    "0xToken" one None (start healthy))
            (Ok (Some (hex tx_hash0)))
            ltac:(vm_compute; reflexivity))).
Defined.

(** [rejected_screen_ends_purchase] on a node that does not answer: the
    screen fails on the ABI and the purchase stops there. *)
Lemma rejected_screen_ends_purchase_witness :
  buy_token_protected (C := scripted offline) (init env0) "0xToken" one None
    (start offline)
  = (Ok None,
     snd (check_token_liquidity (C := scripted offline) (init env0) "0xToken" one
            (start offline))).
Proof.
exact (rejected_screen_ends_purchase (C := scripted offline) (init env0) "0xToken"
         one None (start offline) "0xToken" zero
         "Error checking liquidity: connection refused" _
         ltac:(vm_compute; reflexivity)
         (run_eq (check_token_liquidity (C := scripted offline) (init env0)
                    "0xToken" one (start offline))
            (Ok (false, zero, "Error checking liquidity: connection refused"))
            ltac:(vm_compute; reflexivity))).
Defined.

End BuyOutcome.

(** ** The validation of [sell_tokens] *)

Module SellValidation.

Import Binary64 Py PyFacts Trader Scenario LogFacts SellFacts.
Local Open Scope string_scope.
Local Open Scope Z_scope.

(** [healthy] with another token balance. *)
Definition with_holdings (balance : result Z) : script :=
{| s_latest := s_latest healthy; s_pending := s_pending healthy;
   s_transaction := s_transaction healthy;
   s_gas_price := s_gas_price healthy;
   s_max_priority_fee := s_max_priority_fee healthy;
   s_eth_balance := s_eth_balance healthy; s_nonce := s_nonce healthy;
   s_estimate_gas := s_estimate_gas healthy;
   s_broadcast := s_broadcast healthy; s_receipt := s_receipt healthy;
   s_symbol := s_symbol healthy; s_decimals := s_decimals healthy;
   s_total_supply := s_total_supply healthy;
   s_token_balance := balance;
   s_allowance := s_allowance healthy; s_quote := s_quote healthy;
   s_abi := s_abi healthy; s_time := s_time healthy |}.

(** The four reads that precede the balance checks. *)
Definition token_reads (self : buyer) (token : address) (symbol : string)
  (decimals : N) (balance : Z) : list event :=
  [Called (load_abi_file "abis/ERC20.json") (Ok tt);
   Called (call_symbol token) (Ok symbol);
   Called (call_decimals token) (Ok decimals);
   Called (call_balanceOf token (wallet_address self)) (Ok balance)].

Section Engine.

Context {C : client}.

(** The checks of [sell_tokens], on any instance, for a valid token
    address.  A slippage that is not strictly between 0 and 100 (a NaN
    apart, which no comparison catches) is refused before anything is
    asked of the node.  Otherwise, after the ABI, the symbol, the decimals
    and the balance have been read: a zero balance is refused, and so is
    an amount that exceeds the balance; in both cases nothing else is
    asked, and in particular no allowance is read and nothing is built,
    signed or broadcast. *)
Theorem sell_refuses_bad_requests self token_address amount min_eth_received
    slippage (s : state C) token sl :
  to_checksum_address C token_address = Ok token ->
  sl = match slippage with Some x => x | None => default_slippage self end ->
  (leb sl zero = true \/ leb (Finite (100 * one_q)) sl = true ->
   sell_tokens self token_address amount min_eth_received slippage s
   = (Ok (SellFailed "Slippage must be between 0 and 100"), s))
  /\
  (forall w1 symbol w2 decimals w3 w4,
      leb sl zero = false ->
      leb (Finite (100 * one_q)) sl = false ->
      node C unit (load_abi_file "abis/ERC20.json") (chain s) = (Ok tt, w1) ->
      node C string (call_symbol token) w1 = (Ok symbol, w2) ->
      node C N (call_decimals token) w2 = (Ok decimals, w3) ->
      node C Z (call_balanceOf token (wallet_address self)) w3 = (Ok 0, w4) ->
      exists s',
        sell_tokens self token_address amount min_eth_received slippage s
        = (Ok (SellFailed ("No " ++ symbol ++ " tokens found in wallet")), s') /\
        log s' = (log s ++ token_reads self token symbol decimals 0)%list)
  /\
  (forall w1 symbol w2 decimals w3 balance w4 scale units held,
      leb sl zero = false ->
      leb (Finite (100 * one_q)) sl = false ->
      node C unit (load_abi_file "abis/ERC20.json") (chain s) = (Ok tt, w1) ->
      node C string (call_symbol token) w1 = (Ok symbol, w2) ->
      node C N (call_decimals token) w2 = (Ok decimals, w3) ->
      node C Z (call_balanceOf token (wallet_address self)) w3 = (Ok balance, w4) ->
      balance <> 0 ->
      of_int (10 ^ Z.of_N decimals) = Ok scale ->
      to_int (mul amount scale) = Ok units ->
      balance < units ->
      int_truediv balance (10 ^ Z.of_N decimals) = Ok held ->
      exists s',
        sell_tokens self token_address amount min_eth_received slippage s
        = (Ok (SellFailed ("Insufficient " ++ symbol ++ " balance. You have "
                           ++ format_fixed C 8 held ++ " " ++ symbol)), s') /\
        log s' = (log s ++ token_reads self token symbol decimals balance)%list).
Proof.
intros Htok Hsl. split; [|split].
- intros Hbad. unfold sell_tokens, try_except.
  rewrite (bind_lift_ok _ _ _ _ Htok). rewrite <- Hsl.
  replace (leb sl zero || leb (Finite (100 * one_q)) sl) with true.
  + reflexivity.
  + symmetry. destruct Hbad as [-> | ->]; [reflexivity | apply orb_true_r].
- intros w1 symbol w2 decimals w3 w4 Hlo Hhi Habi Hsym Hdec Hbal.
  destruct s as [w0 l0]. cbn [chain log] in *.
  eexists. unfold sell_tokens, try_except.
  rewrite (bind_lift_ok _ _ _ _ Htok). rewrite <- Hsl, Hlo, Hhi. cbn [orb].
  unfold load_abi.
  rewrite (bind_run _ _ _ _ _ (call_at _ _ _ _ _ Habi)).
  rewrite (bind_run _ _ _ _ _ (call_at _ _ _ _ _ Hsym)).
  rewrite (bind_run _ _ _ _ _ (call_at _ _ _ _ _ Hdec)).
  rewrite (bind_run _ _ _ _ _ (call_at _ _ _ _ _ Hbal)).
  cbn [Z.eqb]. unfold raise, ret. split; [reflexivity|].
  cbn [log token_reads]. rewrite <- !app_assoc. reflexivity.
- intros w1 symbol w2 decimals w3 balance w4 scale units held
    Hlo Hhi Habi Hsym Hdec Hbal Hnz Hscale Hunits Hlt Hheld.
  destruct s as [w0 l0]. cbn [chain log] in *.
  eexists. unfold sell_tokens, try_except.
  rewrite (bind_lift_ok _ _ _ _ Htok). rewrite <- Hsl, Hlo, Hhi. cbn [orb].
  unfold load_abi.
  rewrite (bind_run _ _ _ _ _ (call_at _ _ _ _ _ Habi)).
  rewrite (bind_run _ _ _ _ _ (call_at _ _ _ _ _ Hsym)).
  rewrite (bind_run _ _ _ _ _ (call_at _ _ _ _ _ Hdec)).
  rewrite (bind_run _ _ _ _ _ (call_at _ _ _ _ _ Hbal)).
  replace (balance =? 0) with false by (symmetry; apply Z.eqb_neq; exact Hnz).
  rewrite (bind_lift_ok _ _ _ _ Hscale).
  rewrite (bind_lift_ok _ _ _ _ Hunits).
  replace (balance <? units) with true by (symmetry; apply Z.ltb_lt; exact Hlt).
  rewrite (bind_lift_ok _ _ _ _ Hheld).
  unfold raise, ret. split; [reflexivity|].
  cbn [log token_reads]. rewrite <- !app_assoc. reflexivity.
Qed.

End Engine.

(** [sell_refuses_bad_requests] on the healthy node: a slippage of 100 is
    refused with an empty log; with a slippage of 0.5, an empty wallet is
    refused after four reads, and so is an amount of 6000 tokens against
    a balance of 5000. *)
Lemma sell_refuses_bad_requests_witness :
  sell_tokens (C := scripted healthy) (init env0) "0xToken" one None
    (Some (Finite (100 * one_q))) (start healthy)
  = (Ok (SellFailed "Slippage must be between 0 and 100"), start healthy)
  /\ (exists s',
         sell_tokens (C := scripted (with_holdings (Ok 0))) (init env0) "0xToken"
           one None None (start (with_holdings (Ok 0)))
         = (Ok (SellFailed "No TKN tokens found in wallet"), s') /\
         log s' = token_reads (init env0) "0xToken" "TKN" 18 0)
  /\ (exists s',
         sell_tokens (C := scripted healthy) (init env0) "0xToken"
           (Finite (6000 * one_q)) None None (start healthy)
         = (Ok (SellFailed "Insufficient TKN balance. You have # TKN"), s') /\
         log s' = token_reads (init env0) "0xToken" "TKN" 18 (ether 5000)).
Proof.
split; [|split].
- apply (sell_refuses_bad_requests (C := scripted healthy) (init env0) "0xToken"
           one None (Some (Finite (100 * one_q))) (start healthy) "0xToken"
           (Finite (100 * one_q)) eq_refl eq_refl).
  right. vm_compute. reflexivity.
- destruct (sell_refuses_bad_requests (C := scripted (with_holdings (Ok 0)))
              (init env0) "0xToken" one None None (start (with_holdings (Ok 0)))
              "0xToken" (literal 5 10) eq_refl eq_refl) as (_ & H & _).
  apply (H 0%nat "TKN" 0%nat 18%N 0%nat 0%nat);
    try reflexivity; vm_compute; reflexivity.
- destruct (sell_refuses_bad_requests (C := scripted healthy)
              (init env0) "0xToken" (Finite (6000 * one_q)) None None
              (start healthy) "0xToken" (literal 5 10) eq_refl eq_refl)
    as (_ & _ & H).
  apply (H 0%nat "TKN" 0%nat 18%N 0%nat (ether 5000) 0%nat
           (Finite (10 ^ 18 * one_q)) (6000 * 10 ^ 18) (Finite (5000 * one_q)));
    try reflexivity; try (vm_compute; reflexivity).
  vm_compute. discriminate.
Defined.

End SellValidation.

(** ** How far the rounding can carry the amounts *)

Module NumericBounds.

Import Binary64 Binary64Facts Py Trader SlippageFacts SpendFacts.
Local Open Scope Z_scope.

(** Integers of at most 53 bits, scaled by a power of two, are doubles. *)
Lemma round_quanta_grid m j :
  0 <= m <= 2 ^ 53 -> 0 <= j -> round_quanta (m * 2 ^ j) 1 = m * 2 ^ j.
Proof.
intros Hm Hj. destruct (Z.eq_dec m (2 ^ 53)) as [->|N].
- rewrite <- Z.pow_add_r by lia.
  rewrite <- (Z.mul_1_r (2 ^ (53 + j))) at 1. apply round_quanta_pow2; lia.
- unfold round_quanta. assert (0 < 2 ^ j) by (apply Z.pow_pos_nonneg; lia).
  replace (m * 2 ^ j <? 0) with false by (symmetry; apply Z.ltb_ge; nia).
  rewrite <- (Z.mul_1_r (m * 2 ^ j)) at 1. apply round_pos_exact; lia.
Qed.

Lemma round_quanta_near_pos a :
  0 <= a <= 2 ^ 53 * 2 ^ 1121 ->
  a - 2 ^ 1121 <= round_quanta a 1 <= a + 2 ^ 1121.
Proof.
intros Ha. set (c := 2 ^ 1121) in *.
assert (Hc : 0 < c) by (apply Z.pow_pos_nonneg; lia).
pose proof (Z.div_mod a c ltac:(lia)) as E.
pose proof (Z.mod_pos_bound a c Hc) as R.
assert (Hm : 0 <= a / c <= 2 ^ 53).
{ split; [apply Z.div_pos; lia|]. apply Z.div_le_upper_bound; lia. }
remember (a / c) as m eqn:Dm. clear Dm.
pose proof (round_quanta_grid m 1121 Hm ltac:(lia)) as Glo. fold c in Glo.
pose proof (round_quanta_mono (m * c) 1 a 1 ltac:(lia) ltac:(lia) ltac:(lia)) as Mlo.
destruct (Z.eq_dec m (2 ^ 53)) as [Em|Nm].
- assert (a = m * c) by lia. subst a. rewrite Glo. lia.
- pose proof (round_quanta_grid (m + 1) 1121 ltac:(lia) ltac:(lia)) as Ghi.
  fold c in Ghi.
  pose proof (round_quanta_mono a 1 ((m + 1) * c) 1 ltac:(lia) ltac:(lia) ltac:(lia))
    as Mhi.
  lia.
Qed.

(** Below [2^100], rounding to a double moves a value by at most [2^47]. *)
Lemma round_quanta_near a :
  - (2 ^ 53 * 2 ^ 1121) <= a <= 2 ^ 53 * 2 ^ 1121 ->
  a - 2 ^ 1121 <= round_quanta a 1 <= a + 2 ^ 1121.
Proof.
intros Ha. destruct (Z.lt_ge_cases a 0) as [Hn|Hp].
- pose proof (round_quanta_near_pos (- a) ltac:(lia)) as H.
  rewrite round_quanta_opp in H by lia. lia.
- apply round_quanta_near_pos. lia.
Qed.

Lemma quanta_100 : 2 ^ 53 * 2 ^ 1121 = 2 ^ 100 * one_q.
Proof. unfold one_q. rewrite <- !Z.pow_add_r by lia. reflexivity. Qed.

Lemma quanta_99 : round_quanta (2 ^ 99 * one_q) 1 = 2 ^ 99 * one_q.
Proof.
replace (2 ^ 99 * one_q) with (2 ^ 46 * 2 ^ 1127)
  by (unfold one_q; rewrite <- !Z.pow_add_r by lia; reflexivity).
apply round_quanta_grid; lia.
Qed.

Lemma quanta_47 : 2 ^ 1121 = 2 ^ 47 * one_q.
Proof. unfold one_q. rewrite <- !Z.pow_add_r by lia. reflexivity. Qed.

(** For amounts below [2^99] wei, [calculate_max_spend] returns, and its
    cap is within [5 * 2^47] wei (about 0.0007 ether) of the exact
    [max(0, balance - gas_price * 350000 - reserve)]; so spending a
    positive cap and paying the estimated gas leaves the reserve but for
    that much. *)
Theorem spend_cap_is_nearly_exact balance gas_price reserve :
  0 <= balance < 2 ^ 99 ->
  0 <= gas_price * 350000 < 2 ^ 99 ->
  0 <= reserve < 2 ^ 99 ->
  exists cap,
    spend_cap balance gas_price reserve = Ok cap /\
    Z.max 0 (balance - gas_price * 350000 - reserve - 5 * 2 ^ 47) <= cap /\
    cap <= Z.max 0 (balance - gas_price * 350000 - reserve + 5 * 2 ^ 47) /\
    (0 < cap -> cap + gas_price * 350000 + reserve <= balance + 5 * 2 ^ 47).
Proof.
intros Hb Hg Hr. pose proof one_q_pos as U.
set (g := gas_price * 350000) in *.
set (B := round_quanta (balance * one_q) 1).
set (G := round_quanta (g * one_q) 1).
set (R := round_quanta (reserve * one_q) 1).
set (X := round_quanta (B - G) 1).
set (V := round_quanta (X - R) 1).
pose proof quanta_100 as Q100. pose proof quanta_47 as Q47.
pose proof quanta_99 as Top99.
set (c := 2 ^ 1121) in *. set (top := 2 ^ 53 * c) in *.
assert (Hc : 0 < c) by (subst c; apply Z.pow_pos_nonneg; lia).
assert (Half : 2 ^ 99 * one_q + 2 ^ 99 * one_q = top) by lia.
assert (Small : c <= 2 ^ 99 * one_q).
{ rewrite Q47. apply Z.mul_le_mono_nonneg_r; lia. }
assert (HB : balance * one_q - c <= B <= balance * one_q + c)
  by (apply round_quanta_near; fold c; fold top; nia).
assert (HG : g * one_q - c <= G <= g * one_q + c)
  by (apply round_quanta_near; fold c; fold top; nia).
assert (HR : reserve * one_q - c <= R <= reserve * one_q + c)
  by (apply round_quanta_near; fold c; fold top; nia).
assert (B0 : 0 <= B <= 2 ^ 99 * one_q).
{ split; [apply round_quanta_nonneg; nia|].
  rewrite <- Top99. apply round_quanta_mono; lia. }
assert (G0 : 0 <= G <= 2 ^ 99 * one_q).
{ split; [apply round_quanta_nonneg; nia|].
  rewrite <- Top99. apply round_quanta_mono; lia. }
assert (R0 : 0 <= R <= 2 ^ 99 * one_q).
{ split; [apply round_quanta_nonneg; nia|].
  rewrite <- Top99. apply round_quanta_mono; lia. }
assert (HX : B - G - c <= X <= B - G + c)
  by (apply round_quanta_near; fold c; fold top; lia).
assert (X0 : - (2 ^ 99 * one_q) <= X <= 2 ^ 99 * one_q).
{ split.
  - rewrite <- Top99. rewrite <- round_quanta_opp by lia.
    apply round_quanta_mono; lia.
  - rewrite <- Top99. apply round_quanta_mono; lia. }
assert (HV : X - R - c <= V <= X - R + c)
  by (apply round_quanta_near; fold c; fold top; lia).
assert (Huge : 2 * top < huge_q).
{ subst top c. rewrite <- Z.pow_add_r by lia.
  change 2 with (2 ^ 1) at 1. rewrite <- Z.pow_add_r by lia.
  apply huge_q_pow. lia. }
exists (Z.max 0 (Z.quot V one_q)).
assert (E : spend_cap balance gas_price reserve = Ok (Z.max 0 (Z.quot V one_q))).
{ unfold spend_cap. fold g.
  assert (Eb : of_int balance = Ok (Finite B)).
  { unfold of_int, RN. fold B. rewrite pack_finite by lia. reflexivity. }
  assert (Eg : of_int g = Ok (Finite G)).
  { unfold of_int, RN. fold G. rewrite pack_finite by lia. reflexivity. }
  assert (Er : of_int reserve = Ok (Finite R)).
  { unfold of_int, RN. fold R. rewrite pack_finite by lia. reflexivity. }
  rewrite Eb, Eg, Er. cbn [rbind]. unfold sub. cbn [opp add].
  rewrite Z.add_opp_r. unfold RN at 1. fold X. rewrite pack_finite by lia.
  cbn [add]. rewrite Z.add_opp_r. unfold RN. fold V.
  rewrite pack_finite by lia. reflexivity. }
split; [exact E|].
set (e := balance - g - reserve) in *.
assert (Vlo : (e - 5 * 2 ^ 47) * one_q <= V) by lia.
assert (Vhi : V <= (e + 5 * 2 ^ 47) * one_q) by lia.
assert (Qlo : e - 5 * 2 ^ 47 <= Z.quot V one_q).
{ rewrite <- (Z.quot_mul (e - 5 * 2 ^ 47) one_q) by lia.
  apply Z.quot_le_mono; lia. }
assert (Qhi : Z.quot V one_q <= e + 5 * 2 ^ 47).
{ rewrite <- (Z.quot_mul (e + 5 * 2 ^ 47) one_q) by lia.
  apply Z.quot_le_mono; lia. }
lia.
Qed.

(** [spend_cap_is_nearly_exact] on a balance of 1 ether and 1 wei, at a
    max fee of 1 gwei, with the reserve of 0.01 ether. *)
Lemma spend_cap_is_nearly_exact_witness :
  exists cap,
    spend_cap (ether 1 + 1) (gwei 1) (ether 1 / 100) = Ok cap /\
    Z.max 0 (ether 1 + 1 - gwei 1 * 350000 - ether 1 / 100 - 5 * 2 ^ 47) <= cap /\
    cap <= Z.max 0 (ether 1 + 1 - gwei 1 * 350000 - ether 1 / 100 + 5 * 2 ^ 47) /\
    (0 < cap ->
     cap + gwei 1 * 350000 + ether 1 / 100 <= ether 1 + 1 + 5 * 2 ^ 47).
Proof.
apply (spend_cap_is_nearly_exact (ether 1 + 1) (gwei 1) (ether 1 / 100));
  vm_compute; split; congruence.
Defined.

End NumericBounds.

(** ** The minimum output against the quote *)

Module QuoteBounds.

Import Binary64 Binary64Facts Py Trader SlippageFacts SpendFacts NumericBounds.
Local Open Scope Z_scope.

Lemma one_q_split : one_q = 2 ^ 52 * 2 ^ 1022.
Proof. unfold one_q. rewrite <- Z.pow_add_r by lia. reflexivity. Qed.

(** The double of a quote is at most the next multiple of the spacing
    above the quote, and the multiple below the quote is a double. *)
Lemma quote_cell quoted :
  2 ^ 53 <= quoted ->
  exists lo g,
    0 < g /\ 2 ^ 52 * g <= lo /\ lo <= quoted <= lo + g /\
    round_quanta (quoted * one_q) 1 <= (lo + g) * one_q /\
    forall b, 0 < b -> round_quanta (lo * one_q * b) b = lo * one_q.
Proof.
intros Hq. pose proof one_q_pos as U.
pose proof (Z.log2_spec quoted ltac:(lia)) as [L1 L2].
assert (L53 : 53 <= Z.log2 quoted) by (apply Z.log2_le_pow2; lia).
set (k := Z.log2 quoted - 52) in *.
replace (Z.log2 quoted) with (52 + k) in L1 by lia.
replace (Z.succ (Z.log2 quoted)) with (53 + k) in L2 by lia.
rewrite Z.pow_add_r in L1, L2 by lia.
set (g := 2 ^ k) in *.
assert (Hg : 0 < g) by (subst g; apply Z.pow_pos_nonneg; lia).
pose proof (Z.div_mod quoted g ltac:(lia)) as E.
pose proof (Z.mod_pos_bound quoted g Hg) as R.
assert (Hm : 2 ^ 52 <= quoted / g < 2 ^ 53).
{ split; [apply Z.div_le_lower_bound; lia | apply Z.div_lt_upper_bound; lia]. }
remember (quoted / g) as m eqn:Dm. clear Dm.
exists (m * g), g.
assert (Eg : forall n, n * g * one_q = n * 2 ^ (k + 1074)).
{ intros n. subst g. unfold one_q. rewrite Z.pow_add_r by lia. ring. }
split; [exact Hg|]. split; [nia|]. split; [lia|]. split.
- replace ((m * g + g) * one_q) with ((m + 1) * g * one_q) by ring.
  rewrite Eg. rewrite <- (round_quanta_grid (m + 1) (k + 1074)) by lia.
  apply round_quanta_mono; try lia. rewrite <- Eg. nia.
- intros b Hb. rewrite Eg. unfold round_quanta.
  assert (0 < 2 ^ (k + 1074)) by (apply Z.pow_pos_nonneg; lia).
  replace (m * 2 ^ (k + 1074) * b <? 0) with false
    by (symmetry; apply Z.ltb_ge; nia).
  apply round_pos_exact; lia.
Qed.

(** With a slippage between [100 * 2^-52] and 100 (percent), the minimum
    output that the engine asks for is defined and lies between 0 and the
    quote. *)
Theorem minimum_output_within_quote quoted a :
  0 <= quoted < 2 ^ 256 ->
  100 * one_q <= a * 2 ^ 52 ->
  a <= 100 * one_q ->
  exists m, minimum_output quoted (Finite a) = Ok m /\ 0 <= m <= quoted.
Proof.
intros Hq Hlo Hhi. pose proof one_q_pos as U. pose proof one_q_split as S.
set (t := 2 ^ 1022) in *.
assert (Ht : 0 < t) by (subst t; apply Z.pow_pos_nonneg; lia).
assert (Ha : 100 * t <= a) by nia.
destruct (discounted_value quoted a Hq ltac:(lia))
  as (Q & D & Y & P & EQ & ED & EY & EP & BQ & BD & BY & BP & E).
assert (HD : t <= D).
{ rewrite ED. transitivity (round_quanta (1 * 2 ^ 1022) 1).
  - rewrite round_quanta_grid by lia. fold t. lia.
  - apply round_quanta_mono; try lia; fold t; nia. }
assert (HY : Y <= one_q - t).
{ rewrite EY. transitivity (round_quanta ((2 ^ 52 - 1) * 2 ^ 1022) 1).
  - apply round_quanta_mono; try lia; fold t; lia.
  - rewrite round_quanta_grid by lia. fold t. lia. }
assert (HP : P <= quoted * one_q).
{ destruct (Z.lt_ge_cases quoted (2 ^ 53)) as [Small|Large].
  - assert (EQ' : Q = quoted * one_q).
    { rewrite EQ. unfold one_q. apply round_quanta_grid; lia. }
    rewrite EP.
    transitivity (round_quanta (quoted * one_q * one_q) one_q).
    + apply round_quanta_mono; try lia. rewrite EQ'.
      apply Z.mul_le_mono_nonneg_r; [lia|].
      apply Z.mul_le_mono_nonneg_l; [nia | lia].
    + unfold round_quanta.
      replace (quoted * one_q * one_q <? 0) with false
        by (symmetry; apply Z.ltb_ge; nia).
      unfold one_q at 1 3. rewrite round_pos_exact by lia. lia.
  - destruct (quote_cell quoted Large) as (lo & g & Hg & Hlog & Hcell & HQ & Hexact).
    rewrite <- EQ in HQ. rewrite EP.
    transitivity (round_quanta (lo * one_q * one_q) one_q).
    + apply round_quanta_mono; try lia.
      apply Z.mul_le_mono_nonneg_r; [lia|].
      transitivity ((lo + g) * one_q * (one_q - t)).
      * transitivity (Q * (one_q - t)).
        -- apply Z.mul_le_mono_nonneg_l; lia.
        -- apply Z.mul_le_mono_nonneg_r; lia.
      * assert (g * one_q <= (lo + g) * t).
        { rewrite S. fold t. nia. }
        nia.
    + rewrite Hexact by lia. nia. }
exists (Z.quot P one_q). split.
- unfold minimum_output. rewrite E. reflexivity.
- split; [apply Z.quot_pos; lia|].
  rewrite <- (Z.quot_mul quoted one_q) by lia. apply Z.quot_le_mono; lia.
Qed.

(** Without a slippage, the minimum output is the double of the quote,
    which can exceed the quote. *)
Lemma minimum_output_can_exceed_quote :
  minimum_output (2 ^ 53 + 3) zero = Ok (2 ^ 53 + 4).
Proof. vm_compute. reflexivity. Qed.

(** [minimum_output_within_quote] on a quote of [10^21] base units at the
    default slippage of 0.5 percent. *)
Lemma minimum_output_within_quote_witness :
  exists m,
    minimum_output (10 ^ 21) (Finite (one_q / 2)) = Ok m /\ 0 <= m <= 10 ^ 21.
Proof.
apply (minimum_output_within_quote (10 ^ 21) (one_q / 2)).
- vm_compute. split; congruence.
- vm_compute. congruence.
- vm_compute. congruence.
Defined.

End QuoteBounds.

(** ** What the sampling loop collects *)

Module SamplingFacts.

Import Binary64 Py PyFacts Trader Scenario LogFacts SellFacts.
Local Open Scope Z_scope.

(** The fee that an interaction contributes to the samples: that of a
    fetched pooled transaction which carries a [maxFeePerGas]. *)
Definition pooled_fee (e : event) : list Z :=
  match e with
  | Called r answer =>
      match r in rpc T return result T -> list Z with
      | get_transaction _ =>
          fun answer =>
            match answer with
            | Ok tx =>
                match maxFeePerGas tx with
                | Some fee => [fee]
                | None => []
                end
            | Raise _ => []
            end
      | _ => fun _ => []
      end answer
  | Slept _ => []
  end.

(** The interaction is the fetch of the transaction [h]. *)
Definition fetch_of (h : HexBytes) (e : event) : Prop :=
  exists answer, e = Called (get_transaction h) answer.

Section Engine.

Context {C : client}.

Lemma sample_pending_step h rest acc (s : state C) :
  sample_pending (h :: rest) acc s
  = let (answer, w) := node C tx_data (get_transaction h) (chain s) in
    sample_pending rest
      (acc ++ pooled_fee (Called (get_transaction h) answer))%list
      (after s (get_transaction h) answer w).
Proof.
cbn [sample_pending]. unfold bind, try_except, call, after.
destruct (node C tx_data (get_transaction h) (chain s)) as [[tx|e] w];
  cbn [pooled_fee].
- destruct (maxFeePerGas tx); unfold ret; rewrite ?app_nil_r; reflexivity.
- unfold ret. rewrite app_nil_r. reflexivity.
Qed.

(** The loop of lines 96-102 always returns.  It fetches every sampled
    hash once, in order, and nothing else; its result is the list it was
    given followed by the [maxFeePerGas] of each fetched transaction that
    has one, in the order of the fetches.  A fetch that fails and a
    transaction without the field are skipped. *)
Theorem sample_pending_collects hashes acc (s : state C) :
  exists new,
    log (snd (sample_pending hashes acc s)) = (log s ++ new)%list /\
    Forall2 fetch_of hashes new /\
    fst (sample_pending hashes acc s) = Ok (acc ++ flat_map pooled_fee new)%list.
Proof.
revert acc s. induction hashes as [|h rest IH]; intros acc s.
- exists []. cbn. rewrite !app_nil_r. auto.
- rewrite sample_pending_step.
  destruct (node C tx_data (get_transaction h) (chain s)) as [answer w].
  destruct (IH (acc ++ pooled_fee (Called (get_transaction h) answer))%list
              (after s (get_transaction h) answer w)) as (new & El & Hf & Er).
  exists (Called (get_transaction h) answer :: new).
  split; [rewrite El; cbn [log after]; rewrite <- app_assoc; reflexivity|].
  split; [constructor; [eexists; reflexivity | exact Hf]|].
  rewrite Er. cbn [flat_map]. rewrite <- app_assoc. reflexivity.
Qed.

End Engine.

End SamplingFacts.

(** ** What a sale reports *)

Module SellOutcome.

Import Binary64 Py PyFacts Trader Scenario LogFacts OnlyFacts SellFacts
  GasCoverage LiquidityCoverage BuyCoverage BuyBounds.
Local Open Scope string_scope.
Local Open Scope Z_scope.

(** The last three interactions of a confirmed sale. *)
Definition sale_confirmation (self : buyer) (swap_txn : txn)
  (signed : signed_txn) (tx_hash : HexBytes) (receipt : Py.receipt)
  : list event :=
  [Called (sign_transaction swap_txn (private_key self)) (Ok signed);
   Called (send_raw_transaction (rawTransaction signed)) (Ok tx_hash);
   Called (wait_for_transaction_receipt tx_hash) (Ok receipt)].

Section Engine.

Context {C : client}.

Lemma approve_if_needed_appends self token allowance units (s : state C) r s' :
  approve_if_needed self token allowance units s = (r, s') ->
  exists new, log s' = (log s ++ new)%list.
Proof.
intros E.
assert (Q : emits (C := C) 7 is_node_call
              (approve_if_needed self token allowance units)).
{ unfold approve_if_needed. eapply emits_weaken; [|tally]. cbn. lia. }
destruct (Q _ _ _ E) as (new & En & _). eauto.
Qed.

(** When [sell_tokens] reports success, the instance had a
    [router_address]; the call ended with the signature of the swap, a
    broadcast that the node accepted and a receipt with status 1; the
    reported hash, gas used and gas price are those of that broadcast and
    receipt, the reported amount is the requested one, and the reported
    [eth_received] is the second entry of a quote that the router gave
    before the swap was built: it is the expected output, not an amount
    read after the trade. *)
Theorem sell_success_means_confirmed self token_address amount
    min_eth_received slippage (s : state C)
    transaction_hash token_amount token_symbol eth_received gas_used
    effective_gas_price s' :
  sell_tokens self token_address amount min_eth_received slippage s
  = (Ok (SellDone transaction_hash token_amount token_symbol eth_received
           gas_used effective_gas_price), s') ->
  exists spender token units quote before between swap_txn signed tx_hash
         receipt,
    router_address self = Some spender /\
    to_checksum_address C token_address = Ok token /\
    log s' = (log s ++ before
              ++ [Called (call_getAmountsOut (router self) units
                            [token; WETH_ADDRESS]) (Ok quote)]
              ++ between
              ++ sale_confirmation self swap_txn signed tx_hash receipt)%list /\
    nth_error quote 1 = Some eth_received /\
    status receipt = 1 /\
    transaction_hash = hex tx_hash /\
    gas_used = gasUsed receipt /\
    effective_gas_price = effectiveGasPrice receipt /\
    token_amount = amount.
Proof.
intros H. unfold sell_tokens in H.
apply try_except_inv in H as [(x & Body & Ex) | (e & s1 & _ & Hh)];
  [|discriminate Hh].
injection Ex as <-.
apply bind_ok in Body as (token & s1 & E1 & Body).
apply lift_ok in E1 as [Htok ->].
match type of Body with
| (if ?c then _ else _) _ = _ => destruct c; [discriminate Body|]
end.
apply bind_ok in Body as (u & s2 & E2 & Body).
apply call_ok in E2 as (w1 & N1 & ->).
apply bind_ok in Body as (symbol & s3 & E3 & Body).
apply call_ok in E3 as (w2 & N2 & ->).
apply bind_ok in Body as (decimals & s4 & E4 & Body).
apply call_ok in E4 as (w3 & N3 & ->).
apply bind_ok in Body as (balance & s5 & E5 & Body).
apply call_ok in E5 as (w4 & N4 & ->).
destruct (balance =? 0); [discriminate Body|].
apply bind_ok in Body as (scale & s6 & E6 & Body).
apply lift_ok in E6 as [_ ->].
apply bind_ok in Body as (units & s7 & E7 & Body).
apply lift_ok in E7 as [_ ->].
destruct (balance <? units).
{ apply bind_ok in Body as (held & s8 & _ & Body). discriminate Body. }
apply bind_ok in Body as (spender & s8 & E8 & Body).
apply lift_ok in E8 as [Hsp ->].
apply bind_ok in Body as (allowance & s9 & E9 & Body).
apply call_ok in E9 as (w5 & N5 & ->).
apply bind_ok in Body as (u' & s10 & E10 & Body).
apply approve_if_needed_appends in E10 as (approval & Eapp).
unfold sell_swap in Body.
apply bind_ok in Body as (quote & s11 & E11 & Body).
apply call_ok in E11 as (w6 & N6 & ->).
apply bind_ok in Body as (expected & s12 & E12 & Body).
apply lift_ok in E12 as [Hexp ->].
apply bind_ok in Body as (minimum & s13 & E13 & Body).
assert (s13 = after s10 (call_getAmountsOut (router self) units
                          [token; WETH_ADDRESS]) (Ok quote) w6) as ->.
{ destruct min_eth_received as [given|].
  - injection E13 as _ <-. reflexivity.
  - apply bind_ok in E13 as (m & s14 & E14 & E13).
    apply lift_ok in E14 as [_ ->]. injection E13 as _ <-. reflexivity. }
apply bind_ok in Body as (now & s14 & E14 & Body).
apply call_ok in E14 as (w7 & N7 & ->).
apply bind_ok in Body as (deadline & s15 & E15 & Body).
apply lift_ok in E15 as [_ ->].
apply bind_ok in Body as (latest_block & s16 & E16 & Body).
apply call_ok in E16 as (w8 & N8 & ->).
apply bind_ok in Body as (base_fee & s17 & E17 & Body).
apply lift_ok in E17 as [_ ->].
apply bind_ok in Body as (priority_fee & s18 & E18 & Body).
apply call_ok in E18 as (w9 & N9 & ->).
apply bind_ok in Body as (nonce & s19 & E19 & Body).
apply call_ok in E19 as (w10 & N10 & ->).
apply bind_ok in Body as (swap_txn & s20 & E20 & Body).
apply call_ok in E20 as (w11 & N11 & ->).
apply bind_ok in Body as (signed & s21 & E21 & Body).
apply call_ok in E21 as (w12 & N12 & ->).
apply bind_ok in Body as (tx_hash & s22 & E22 & Body).
apply call_ok in E22 as (w13 & N13 & ->).
apply bind_ok in Body as (receipt & s23 & E23 & Body).
apply call_ok in E23 as (w14 & N14 & ->).
destruct (status receipt =? 1) eqn:Hst; [|discriminate Body].
apply Z.eqb_eq in Hst.
apply bind_ok in Body as (eth & s24 & E24 & Body).
apply lift_ok in E24 as [Heth ->].
injection Body as <- <- <- <- <- <- <-.
assert (eth = expected) as ->.
{ unfold from_wei_ether in Heth.
  destruct ((expected <? 0) || (2 ^ 256 - 1 <? expected));
    [discriminate Heth | injection Heth as ->; reflexivity]. }
unfold get_router_address in Hsp.
destruct (router_address self) as [sp|] eqn:Hra; [|discriminate Hsp].
injection Hsp as ->.
exists spender, token, units, quote,
  ([Called (load_abi_file "abis/ERC20.json") (Ok u);
    Called (call_symbol token) (Ok symbol);
    Called (call_decimals token) (Ok decimals);
    Called (call_balanceOf token (wallet_address self)) (Ok balance);
    Called (call_allowance token (wallet_address self) spender) (Ok allowance)]
   ++ approval)%list.
eexists [_; _; _; _; _].
exists swap_txn, signed, tx_hash, receipt.
split; [reflexivity|]. split; [exact Htok|].
split.
{ cbn [log after sale_confirmation]. rewrite Eapp. cbn [log after].
  rewrite <- !app_assoc. cbn [app]. reflexivity. }
split.
{ unfold subscript in Hexp.
  destruct (nth_error quote 1);
    [injection Hexp as ->; reflexivity | discriminate Hexp]. }
repeat split; assumption.
Qed.

End Engine.

(** [sell_success_means_confirmed] on the healthy node, for an instance
    that was given a [router_address]: one token is sold, and the
    reported 2000 ether are the router's quote. *)
Lemma sell_success_means_confirmed_witness :
  fst (run healthy
         (sell_tokens (with_router_address (init env0)) "0xToken" one None None))
  = Ok (SellDone "0xabcd" one "TKN" (ether 2000) 120000 (gwei 31))
  /\ exists spender token units quote before between swap_txn signed tx_hash
            receipt,
       router_address (with_router_address (init env0)) = Some spender /\
       to_checksum_address (scripted healthy) "0xToken" = Ok token /\
       log (snd (run healthy
                   (sell_tokens (with_router_address (init env0)) "0xToken" one
                      None None)))
       = ([] ++ before
          ++ [Called (call_getAmountsOut (router (with_router_address (init env0)))
                        units [token; WETH_ADDRESS]) (Ok quote)]
          ++ between
          ++ sale_confirmation (with_router_address (init env0)) swap_txn signed
               tx_hash receipt)%list /\
       nth_error quote 1 = Some (ether 2000) /\
       status receipt = 1 /\
       "0xabcd" = hex tx_hash /\
       120000 = gasUsed receipt /\
       gwei 31 = effectiveGasPrice receipt /\
       one = one.
Proof.
split; [vm_compute; reflexivity|].
exact (sell_success_means_confirmed (C := scripted healthy)
         (with_router_address (init env0)) "0xToken" one None None
         (start healthy) "0xabcd" one "TKN" (ether 2000) 120000 (gwei 31) _
         (run_eq (sell_tokens (C := scripted healthy)
                    (with_router_address (init env0)) "0xToken" one None None
                    (start healthy))
            (Ok (SellDone "0xabcd" one "TKN" (ether 2000) 120000 (gwei 31)))
            ltac:(vm_compute; reflexivity))).
Defined.

End SellOutcome.

(** ** Token addresses *)

Module AddressFacts.

Import Binary64 Py PyFacts Trader Scenario LogFacts SellFacts LiquidityCoverage.
Local Open Scope string_scope.
Local Open Scope Z_scope.

(** A scripted client whose library takes only the strings that start
    with "0x" as addresses. *)
Definition picky (sc : script) : client :=
  {| world := nat;
     node := answer sc;
     elapse := fun _ sent => sent;
     to_checksum_address := fun a =>
       if String.prefix "0x" a then Ok a
       else Raise (ValueError ("Unknown format " ++ a));
     strip := trim;
     to_wei_ether := to_wei_ether (scripted sc);
     format_fixed := fun _ _ => "#" |}.

Section Engine.

Context {C : client}.

Lemma validate_address_strip self a :
  strip C (strip C a) = strip C a ->
  validate_address (C := C) self (strip C a) = validate_address self a.
Proof. intros H. unfold validate_address. rewrite H. reflexivity. Qed.

Lemma get_token_contract_strip self a :
  strip C (strip C a) = strip C a ->
  get_token_contract (C := C) self (strip C a) = get_token_contract self a.
Proof.
intros H. unfold get_token_contract. rewrite (validate_address_strip _ _ H).
reflexivity.
Qed.

(** Every use that a purchase makes of the token address goes through
    [validate_address], which strips it first.  So, for an address on
    which stripping twice is the same as stripping once (as it is for
    [str.strip]), white space around the address makes no difference to
    the liquidity screen, to the transaction that is built or to the
    purchase: each behaves on the address as on the stripped address. *)
Theorem purchase_ignores_surrounding_space self token_address eth_amount
    slippage sl :
  strip C (strip C token_address) = strip C token_address ->
  check_token_liquidity (C := C) self (strip C token_address) eth_amount
  = check_token_liquidity self token_address eth_amount /\
  build_optimized_transaction (C := C) self (strip C token_address) eth_amount sl
  = build_optimized_transaction self token_address eth_amount sl /\
  buy_token_protected (C := C) self (strip C token_address) eth_amount slippage
  = buy_token_protected self token_address eth_amount slippage.
Proof.
intros Hs.
assert (B : forall x,
           build_optimized_transaction (C := C) self (strip C token_address)
             eth_amount x
           = build_optimized_transaction self token_address eth_amount x).
{ intros x. unfold build_optimized_transaction.
  rewrite (validate_address_strip _ _ Hs). reflexivity. }
split; [|split].
- unfold check_token_liquidity. rewrite (validate_address_strip _ _ Hs).
  reflexivity.
- apply B.
- unfold buy_token_protected. rewrite B.
  cbn [range map seq Z.of_nat Pos.of_succ_nat Pos.succ submit_with_retries].
  rewrite (get_token_contract_strip _ _ Hs). reflexivity.
Qed.

(** A token address that the library refuses costs nothing: the screen,
    the builder and the purchase answer at once, in the state they were
    called in, and so does the sale; nothing is asked of the node. *)
Theorem refused_address_costs_nothing self token_address eth_amount amount
    min_eth_received slippage sl (s : state C) :
  (forall e, to_checksum_address C (strip C token_address) = Raise e ->
     check_token_liquidity self token_address eth_amount s
     = (Ok (false, zero,
            "Error checking liquidity: Invalid Ethereum address: "
            ++ strip C token_address), s) /\
     build_optimized_transaction self token_address eth_amount sl s
     = (Ok None, s) /\
     buy_token_protected self token_address eth_amount slippage s = (Ok None, s))
  /\
  (forall e, to_checksum_address C token_address = Raise e ->
     sell_tokens self token_address amount min_eth_received slippage s
     = (Ok (SellFailed (str_exn e)), s)).
Proof.
split.
- intros e He.
  pose proof (validate_address_raises self token_address s e He) as V.
  assert (B : forall x,
             build_optimized_transaction self token_address eth_amount x s
             = (Ok None, s)).
  { intros x. unfold build_optimized_transaction.
    rewrite (try_except_raise _ _ _ _ _ (bind_raise _ _ _ _ _ V)). reflexivity. }
  split; [|split].
  + unfold check_token_liquidity.
    rewrite (try_except_raise _ _ _ _ _ (bind_raise _ _ _ _ _ V)). reflexivity.
  + apply B.
  + unfold buy_token_protected. apply try_except_ok.
    rewrite (bind_run _ _ _ _ _ (B _)). reflexivity.
- intros e He. unfold sell_tokens, try_except.
  rewrite (bind_lift_raise _ _ _ _ He). reflexivity.
Qed.

End Engine.

(** [purchase_ignores_surrounding_space] on the healthy node, for an
    address between two spaces. *)
Lemma purchase_ignores_surrounding_space_witness :
  strip (scripted healthy) " 0xToken " = "0xToken"
  /\ check_token_liquidity (C := scripted healthy) (init env0) "0xToken" one
     = check_token_liquidity (init env0) " 0xToken " one
  /\ build_optimized_transaction (C := scripted healthy) (init env0) "0xToken" one
       (literal 5 10)
     = build_optimized_transaction (init env0) " 0xToken " one (literal 5 10)
  /\ buy_token_protected (C := scripted healthy) (init env0) "0xToken" one None
     = buy_token_protected (init env0) " 0xToken " one None.
Proof.
split; [reflexivity|].
exact (purchase_ignores_surrounding_space (C := scripted healthy) (init env0)
         " 0xToken " one None (literal 5 10) eq_refl).
Defined.

(** [refused_address_costs_nothing] with a library that wants the "0x"
    prefix, on an address without it. *)
Lemma refused_address_costs_nothing_witness :
  buy_token_protected (C := picky healthy) (init env0) " Token " one None
    (@Build_state (picky healthy) 0%nat [])
  = (Ok None, @Build_state (picky healthy) 0%nat [])
  /\ sell_tokens (C := picky healthy) (init env0) "Token" one None None
       (@Build_state (picky healthy) 0%nat [])
     = (Ok (SellFailed "Unknown format Token"), @Build_state (picky healthy) 0%nat []).
Proof.
destruct (refused_address_costs_nothing (C := picky healthy) (init env0) " Token "
            one one None None (literal 5 10) (@Build_state (picky healthy) 0%nat []))
  as [H _].
destruct (refused_address_costs_nothing (C := picky healthy) (init env0) "Token"
            one one None None (literal 5 10) (@Build_state (picky healthy) 0%nat []))
  as [_ H'].
split.
- apply (H (ValueError "Unknown format Token")). reflexivity.
- apply (H' (ValueError "Unknown format Token")). reflexivity.
Defined.

End AddressFacts.

(** ** The tip against the max fee *)

Module TipFacts.

Import Binary64 Binary64Facts Py PyFacts Trader Scenario LogFacts SellFacts
  SpendFacts BufferFacts GasCoverage.
Local Open Scope Z_scope.

(** [int(n * x)] for an int [n] of at most 53 bits and a double [x]
    between 0 and [2^j] quanta is at most [n * 2^j] quanta. *)
Lemma scale_int_below n c j :
  0 <= n < 2 ^ 53 -> 0 <= c <= 2 ^ j -> 0 <= j < 1100 ->
  exists v, scale_int n (Finite c) = Ok v /\ 0 <= v /\ v * one_q <= n * 2 ^ j.
Proof.
intros Hn Hc Hj. pose proof one_q_pos as U.
pose proof (small_ints_exact n Hn) as En. unfold exact_double in En.
unfold scale_int, int_mul. rewrite En. cbn [rbind mul].
set (P := round_quanta (n * one_q * c) one_q).
assert (Hpow : 0 < 2 ^ j) by (apply Z.pow_pos_nonneg; lia).
assert (Lo : 0 <= P) by (subst P; apply round_quanta_nonneg; nia).
assert (Hi : P <= n * 2 ^ j).
{ assert (E : round_quanta (n * 2 ^ j * one_q) one_q = n * 2 ^ j).
  { unfold round_quanta.
    replace (n * 2 ^ j * one_q <? 0) with false by (symmetry; apply Z.ltb_ge; nia).
    apply round_pos_exact; lia. }
  rewrite <- E. subst P. apply round_quanta_mono; try lia.
  apply Z.mul_le_mono_nonneg_r; [lia|].
  replace (n * 2 ^ j * one_q) with (n * one_q * 2 ^ j) by ring.
  apply Z.mul_le_mono_nonneg_l; [nia | lia]. }
assert (Fin : RN (n * one_q * c) one_q = Finite P).
{ unfold RN. fold P. apply pack_finite.
  assert (n * 2 ^ j <= 2 ^ 53 * 2 ^ j) by nia.
  assert (2 ^ 53 * 2 ^ j < huge_q).
  { rewrite <- Z.pow_add_r by lia. apply huge_q_pow. lia. }
  lia. }
rewrite Fin. cbn [to_int]. eexists. split; [reflexivity|].
rewrite Z.quot_div_nonneg by lia. split.
- apply Z.div_pos; lia.
- pose proof (Z.mul_div_le P one_q U). lia.
Qed.

Lemma literal_1_10_below :
  exists c, literal 1 10 = Finite c /\ 0 <= c <= 2 ^ 1071.
Proof.
eexists. split; [vm_compute; reflexivity|].
split; vm_compute; discriminate.
Qed.

(** [int(gp * 0.1)] is at most an eighth of [gp]. *)
Lemma tenth_below_eighth gp :
  0 <= gp < 2 ^ 53 ->
  exists tip, scale_int gp (literal 1 10) = Ok tip /\ 0 <= tip /\ 8 * tip <= gp.
Proof.
intros Hgp. pose proof one_q_pos as U.
destruct literal_1_10_below as (c & Ec & Bc).
destruct (scale_int_below gp c 1071 Hgp Bc ltac:(lia)) as (v & Ev & V0 & Vq).
exists v. rewrite Ec. split; [exact Ev|]. split; [exact V0|].
assert (E8 : one_q = 8 * 2 ^ 1071).
{ unfold one_q. change 8 with (2 ^ 3). rewrite <- Z.pow_add_r by lia. reflexivity. }
assert (H1071 : 0 < 2 ^ 1071) by (apply Z.pow_pos_nonneg; lia).
rewrite E8 in Vq. nia.
Qed.

Section Engine.

Context {C : client}.

(** The tip that [get_optimal_gas_price] returns does not exceed the max
    fee it returns, as EIP-1559 requires of a transaction, provided the
    tip is not negative, the ceiling is at least 3 gwei, the base fees
    that the node serves are below [2^52] wei and the gas prices that it
    serves are below [2^53] wei and at most eight times the ceiling. *)
Theorem tip_within_max_fee self (s : state C) max_fee priority_fee s' :
  get_optimal_gas_price self s = (Ok (max_fee, priority_fee), s') ->
  gwei 3 <= max_gas_price self ->
  (forall w latest_block w' base_fee,
      node C block (get_block latest) w = (Ok latest_block, w') ->
      baseFeePerGas latest_block = Some base_fee ->
      0 <= base_fee < 2 ^ 52) ->
  (forall w gp w',
      node C Z gas_price w = (Ok gp, w') ->
      0 <= gp < 2 ^ 53 /\ gp <= 8 * max_gas_price self) ->
  0 <= priority_fee ->
  priority_fee <= max_fee.
Proof.
intros H Hcap Hbase Hgp Htip. unfold get_optimal_gas_price in H.
apply try_except_inv in H as [(a & Body & Ea) | (e & s1 & _ & Hh)].
- injection Ea as <-.
  apply bind_ok in Body as (lb & s2 & E1 & Body).
  apply call_ok in E1 as (w1 & N1 & ->).
  apply bind_ok in Body as (base & s3 & E2 & Body). apply lift_ok in E2 as [E2 ->].
  apply bind_ok in Body as (pb & s4 & _ & Body).
  apply bind_ok in Body as (pf & s5 & Epf & Body).
  apply bind_ok in Body as (mf & s6 & Emf & Body).
  apply lift_ok in Emf as [Emf ->].
  injection Body as -> -> _.
  assert (Hb : 0 <= base < 2 ^ 52).
  { apply (Hbase _ _ _ _ N1). unfold item in E2.
    destruct (baseFeePerGas lb); [congruence | discriminate]. }
  assert (Hpf : priority_fee <= gwei 3).
  { destruct (transactions pb) as [hashes|].
    - apply bind_ok in Epf as (prices & s7 & _ & Epf).
      apply lift_ok in Epf as [Epf _].
      exact (priority_fee_of_le _ _ _ Epf).
    - injection Epf as <- _. vm_compute. discriminate. }
  assert (G3 : gwei 3 < 2 ^ 52) by (vm_compute; reflexivity).
  unfold capped_max_fee in Emf.
  destruct literal_12_10_between as (c & Ec & Bc).
  destruct (scale_int_small (base + priority_fee) c ltac:(lia) Bc)
    as (v & Ev & Bv).
  rewrite Ec, Ev in Emf. cbn [rbind] in Emf. injection Emf as <-. lia.
- apply bind_ok in Hh as (gp & s2 & E1 & Hh).
  apply call_ok in E1 as (w & N & ->).
  apply lift_ok in Hh as [Hh _].
  destruct (Hgp _ _ _ N) as [G1 G2].
  unfold fallback_fees in Hh.
  destruct literal_12_10_between as (c & Ec & Bc).
  destruct (scale_int_small gp c G1 Bc) as (v & Ev & Bv).
  destruct (tenth_below_eighth gp G1) as (tip & Et & T0 & T8).
  rewrite Ec, Ev, Et in Hh. cbn [rbind] in Hh. injection Hh as <- <-. lia.
Qed.

End Engine.

(** Without the bound on the gas price the tip can exceed the max fee: at
    a gas price of 3010 gwei the fallback asks for a max fee of 300 gwei
    and a tip of 301 gwei. *)
Lemma tip_can_exceed_max_fee :
  fallback_fees (init env0) (gwei 3010) = Ok (gwei 300, gwei 301).
Proof. vm_compute. reflexivity. Qed.

(** [tip_within_max_fee] on the healthy node. *)
Lemma tip_within_max_fee_witness :
  fst (run healthy (get_optimal_gas_price (init env0)))
  = Ok (38400000000, 2000000000)
  /\ 2000000000 <= 38400000000.
Proof.
split; [vm_compute; reflexivity|].
apply (tip_within_max_fee (C := scripted healthy) (init env0) (start healthy)
         38400000000 2000000000 _
         (run_eq (get_optimal_gas_price (C := scripted healthy) (init env0)
                    (start healthy))
            (Ok (38400000000, 2000000000))
            ltac:(vm_compute; reflexivity))).
- vm_compute. discriminate.
- intros w latest_block w' base_fee N Hf. cbn in N. injection N as <- _.
  cbn in Hf. injection Hf as <-. vm_compute. split; [discriminate | reflexivity].
- intros w gp w' N. cbn in N. injection N as <- _.
  vm_compute. repeat split; discriminate.
- vm_compute. discriminate.
Defined.

End TipFacts.

(** ** The terms of the transaction that is built *)

Module BuiltTerms.

Import Binary64 Py PyFacts Trader Scenario LogFacts OnlyFacts SellFacts
  GasCoverage LiquidityCoverage BuyCoverage BuyBounds BuyOutcome.
Local Open Scope string_scope.
Local Open Scope Z_scope.

(** The gas limit that [estimate_gas_limit] derives from the node's
    answer to the estimate request. *)
Definition gas_limit_of (estimate : result Z) : Z :=
  match estimate with
  | Ok estimated =>
      match scale_int estimated (literal 12 10) with
      | Ok gas_limit => gas_limit
      | Raise _ => 350000
      end
  | Raise _ => 350000
  end.

(** The last five interactions of a successful build. *)
Definition build_steps (self : buyer) (token : address) (amount_in_wei : Z)
  (amounts : list Z) (latest_block : block) (nonce : Z) (min_tokens now : Z)
  (max_fee priority_fee : Z) (unsigned : txn) (estimate : result Z)
  : list event :=
  [Called (call_getAmountsOut (router self) amount_in_wei [WETH_ADDRESS; token])
     (Ok amounts);
   Called (get_block latest) (Ok latest_block);
   Called (get_transaction_count (wallet_address self)) (Ok nonce);
   Called (build_transaction (router self)
             (swapExactETHForTokens min_tokens [WETH_ADDRESS; token]
                (wallet_address self) (now + 180))
             {| p_from := wallet_address self;
                p_value := Some amount_in_wei;
                p_nonce := nonce;
                p_gas := None;
                p_maxFeePerGas := max_fee;
                p_maxPriorityFeePerGas := priority_fee;
                p_type := Some 2 |})
     (Ok unsigned);
   Called (estimate_gas unsigned) estimate].

Section Engine.

Context {C : client}.

Lemma estimate_gas_limit_inv self t (s : state C) gas_limit s' :
  estimate_gas_limit self t s = (Ok gas_limit, s') ->
  exists estimate w,
    node C Z (estimate_gas t) (chain s) = (estimate, w) /\
    s' = after s (estimate_gas t) estimate w /\
    gas_limit = gas_limit_of estimate.
Proof.
unfold estimate_gas_limit, try_except, bind, call, after, lift, ret, gas_limit_of.
destruct (node C Z (estimate_gas t) (chain s)) as [[est|e] w].
- destruct (scale_int est (literal 12 10)) as [g|e'] eqn:Eg; intros H;
    injection H as <- <-; exists (Ok est), w; rewrite Eg; auto.
- intros H. injection H as <- <-. exists (Raise e), w. auto.
Qed.

(** When [build_optimized_transaction] hands over a transaction, the call
    ended with five interactions: a quote for the amount in wei, the
    latest block, the wallet's transaction count, the build request and
    the gas estimate.  The build request asks for
    [swapExactETHForTokens] with the minimum output
    [int(float(quote) * (1 - slippage/100))], the path from WETH to the
    validated token, the wallet as recipient and the block's timestamp
    plus 180 seconds as deadline; it carries the nonce that was just
    read, a max fee within [max_gas_price] and type 2.  The transaction
    handed over is the node's answer with its gas limit set to
    [int(estimate * 1.2)], or to 350000 when that cannot be computed. *)
Theorem built_transaction_terms self token_address eth_amount slippage
    (s : state C) t s' :
  build_optimized_transaction self token_address eth_amount slippage s
  = (Ok (Some t), s') ->
  exists token before amount_in_wei amounts quoted min_tokens latest_block now
         nonce max_fee priority_fee unsigned estimate,
    to_checksum_address C (strip C token_address) = Ok token /\
    log s' = (log s ++ before
              ++ build_steps self token amount_in_wei amounts latest_block nonce
                   min_tokens now max_fee priority_fee unsigned estimate)%list /\
    nth_error amounts 1 = Some quoted /\
    minimum_output quoted slippage = Ok min_tokens /\
    timestamp latest_block = Some now /\
    max_fee <= max_gas_price self /\
    t = set_gas unsigned (gas_limit_of estimate).
Proof.
intros H. unfold build_optimized_transaction in H.
apply try_except_inv in H as [(x & Body & Ex) | (e & s1 & _ & Hh)];
  [|discriminate Hh].
injection Ex as <-.
apply bind_ok in Body as (token & s1 & E1 & Body).
apply validate_address_ok in E1 as [Htok ->].
apply bind_ok in Body as ([[has ratio] message] & s2 & E2 & Body).
destruct (only_appends _ _ _ (check_token_liquidity_only self token_address token
                                eth_amount) _ _ _ E2) as (screen & Escreen).
destruct (negb has); [discriminate Body|].
apply bind_ok in Body as ([max_fee priority_fee] & s3 & E3 & Body).
destruct (gas_plan_only self token_address _ _ _ E3) as (plan & Eplan & _ & Hfee).
cbn [fst] in Hfee.
apply bind_ok in Body as (max_spend & s4 & E4 & Body).
unfold calculate_max_spend in E4.
apply bind_ok in E4 as (balance & s5 & E5 & E4).
apply call_ok in E5 as (w1 & N1 & ->). apply lift_ok in E4 as [_ ->].
apply bind_ok in Body as (wei & s6 & E6 & Body). apply lift_ok in E6 as [_ ->].
apply bind_ok in Body as ([eth' wei'] & s7 & E7 & Body).
apply lift_ok in E7 as [_ ->].
destruct (leb eth' zero); [discriminate Body|].
apply bind_ok in Body as (amounts & s8 & E8 & Body).
apply call_ok in E8 as (w2 & N2 & ->).
apply bind_ok in Body as (quoted & s9 & E9 & Body).
apply lift_ok in E9 as [Hq ->].
apply bind_ok in Body as (min_tokens & s10 & E10 & Body).
apply lift_ok in E10 as [Hmin ->].
apply bind_ok in Body as (latest_block & s11 & E11 & Body).
apply call_ok in E11 as (w3 & N3 & ->).
apply bind_ok in Body as (now & s12 & E12 & Body).
apply lift_ok in E12 as [Hnow ->].
apply bind_ok in Body as (nonce & s13 & E13 & Body).
apply call_ok in E13 as (w4 & N4 & ->).
apply bind_ok in Body as (unsigned & s14 & E14 & Body).
apply call_ok in E14 as (w5 & N5 & ->).
apply bind_ok in Body as (gas_limit & s15 & E15 & Body).
apply estimate_gas_limit_inv in E15 as (estimate & w6 & N6 & -> & ->).
injection Body as <- <-.
exists token,
  (screen ++ plan
   ++ [Called (get_balance (wallet_address self)) (Ok balance)])%list,
  wei', amounts, quoted, min_tokens, latest_block, now, nonce, max_fee,
  priority_fee, unsigned, estimate.
split; [exact Htok|].
split.
{ cbn [log after build_steps]. rewrite Eplan, Escreen.
  rewrite <- !app_assoc. cbn [app]. reflexivity. }
split.
{ unfold subscript in Hq.
  destruct (nth_error amounts 1); [injection Hq as ->; reflexivity | discriminate Hq]. }
split; [exact Hmin|].
split.
{ unfold item in Hnow.
  destruct (timestamp latest_block); [injection Hnow as ->; reflexivity | discriminate Hnow]. }
split; [exact Hfee | reflexivity].
Qed.

End Engine.

(** [built_transaction_terms] on the healthy node: one ether at the
    default slippage. *)
Lemma built_transaction_terms_witness :
  exists t,
    fst (run healthy
           (build_optimized_transaction (init env0) "0xToken" one (literal 5 10)))
    = Ok (Some t)
    /\ t_gas t = Some 180000
    /\ exists unsigned estimate, t = set_gas unsigned (gas_limit_of estimate).
Proof.
set (r := build_optimized_transaction (C := scripted healthy) (init env0)
            "0xToken" one (literal 5 10) (start healthy)).
set (t := match fst r with Ok (Some t) => t | _ => txn0 end).
assert (H : r = (Ok (Some t), snd r))
  by (apply run_eq; vm_compute; reflexivity).
exists t. split; [unfold run; fold r; rewrite H; reflexivity|].
split; [vm_compute; reflexivity|].
destruct (built_transaction_terms (C := scripted healthy) (init env0) "0xToken"
            one (literal 5 10) (start healthy) t (snd r) H)
  as (token & before & wei & amounts & quoted & min_tokens & latest_block & now
      & nonce & max_fee & priority_fee & unsigned & estimate & _ & _ & _ & _ & _
      & _ & Et).
exists unsigned, estimate. exact Et.
Defined.

End BuiltTerms.
